(** * WorkforceOptimizer: validation engine and metrics pipeline

    A shallow embedding of [WorkforceOptimizer-AI.py]: the validator
    ([validate_data]), the metrics calculator ([calculate_metrics]), the
    report generator ([generate_report]) and the pipeline
    ([process_input]), with the properties of the specification proved
    or refuted against them; then the parts around them, the detection of
    the input format ([detect_format], [parse_data]), the templates
    ([provide_template]) and the feedback ([handle_feedback]), with
    properties the code shows of itself.

    Python values are modelled as a small universe [PyVal]; Python
    floats as IEEE-754 binary64 numbers ([spec_float] with precision 53
    and maximal exponent 1024, rounding to nearest even); exceptions as a
    result type [Res]. *)

From Stdlib Require Import ZArith QArith Qabs Qpower List String Ascii Bool Lia Lqa.
From Stdlib Require Import Decimal DecimalString.
From Stdlib Require Import Floats.SpecFloat.
From Stdlib Require Import Wf_nat.
Import ListNotations.

Local Open Scope string_scope.
Local Open Scope Z_scope.
Local Open Scope nat_scope.
Local Open Scope list_scope.

Infix "+:+" := String.append (at level 60, right associativity).

(** ** Exceptions *)

Inductive exn : Type :=
| ValueError
| TypeError
| OverflowError
| ZeroDivisionError
| KeyError (key : string).

(** [ZeroDivisionError] and [OverflowError] are the subclasses of Python's
    [ArithmeticError] that occur here. *)
Definition is_ArithmeticError (e : exn) : bool :=
  match e with
  | ZeroDivisionError | OverflowError => true
  | _ => false
  end.

Inductive Res (A : Type) : Type :=
| Ok (a : A)
| Raise (e : exn).

Arguments Ok {A} a.
Arguments Raise {A} e.

Definition bind {A B : Type} (c : Res A) (k : A -> Res B) : Res B :=
  match c with
  | Ok a => k a
  | Raise e => Raise e
  end.

Notation "x <- c ;; k" := (bind c (fun x => k))
  (at level 61, c at next level, right associativity).

(** A [for] loop over [l] that updates a state and may raise. *)
Fixpoint for_each_res {A S : Type} (l : list A) (body : A -> S -> Res S) (s : S)
  : Res S :=
  match l with
  | [] => Ok s
  | a :: l' => s' <- body a s ;; for_each_res l' body s'
  end.

(** A [for] loop over [l] that updates a state and cannot raise. *)
Definition for_each {A S : Type} (l : list A) (body : A -> S -> S) (s : S) : S :=
  fold_left (fun s a => body a s) l s.

(** A list comprehension [[f(x) for x in l]] whose body may raise. *)
Fixpoint map_res {A B : Type} (f : A -> Res B) (l : list A) : Res (list B) :=
  match l with
  | [] => Ok []
  | a :: l' => b <- f a ;; bs <- map_res f l' ;; Ok (b :: bs)
  end.

Definition enumerate {A : Type} (l : list A) : list (nat * A) :=
  combine (seq 0 (List.length l)) l.

(** ** Strings *)

Definition nl : string := String (ascii_of_nat 10) EmptyString.

(** [str(n)] for a non-negative [int]. *)
Definition str_nat (n : nat) : string := NilEmpty.string_of_uint (Nat.to_uint n).

Definition str_Z (z : Z) : string := NilEmpty.string_of_int (Z.to_int z).

(** [sep.join(l)]. *)
Fixpoint join (sep : string) (l : list string) : string :=
  match l with
  | [] => ""
  | [s] => s
  | s :: l' => s +:+ sep +:+ join sep l'
  end.

(** [needle in hay] on strings. *)
Fixpoint str_in (needle hay : string) : bool :=
  String.prefix needle hay
  || match hay with
     | EmptyString => false
     | String _ hay' => str_in needle hay'
     end.

Definition mem (s : string) (l : list string) : bool :=
  existsb (String.eqb s) l.

(** ** Binary64 floats *)

Definition prec : Z := 53.
Definition emax : Z := 1024.

Definition float : Type := spec_float.

Definition fmul : float -> float -> float := SFmul prec emax.
Definition fdiv : float -> float -> float := SFdiv prec emax.
Definition fadd : float -> float -> float := SFadd prec emax.
Definition fsub : float -> float -> float := SFsub prec emax.
Definition fle : float -> float -> bool := SFleb.
Definition flt : float -> float -> bool := SFltb.
Definition feq : float -> float -> bool := SFeqb.

(** The float nearest to the integer [z] (ties to even); an infinity when
    [z] is out of range. *)
Definition float_of_Z (z : Z) : float := binary_normalize prec emax z 0 false.

(** The float nearest to [p / q]: the value of a decimal literal such as
    [0.9] is [float_of_ratio 9 10]. *)
Definition float_of_ratio (p q : positive) : float :=
  let '(mz, ez, lz) := SFdiv_core_binary prec emax (Zpos p) 0 (Zpos q) 0 in
  binary_round_aux prec emax false mz ez lz.

Definition is_finite (x : float) : bool :=
  match x with
  | S754_zero _ | S754_finite _ _ _ => true
  | _ => false
  end.

Definition is_nan (x : float) : bool :=
  match x with
  | S754_nan => true
  | _ => false
  end.

(** [x.is_integer()]: finite and without fractional part. *)
Definition is_integer (x : float) : bool :=
  match x with
  | S754_zero _ => true
  | S754_finite _ m e => (0 <=? e)%Z || (Zpos m mod 2 ^ (- e) =? 0)%Z
  | _ => false
  end.

(** The exact value of a finite float, as a rational. *)
Definition float_to_Q (x : float) : Q :=
  match x with
  | S754_finite s m e =>
      let v := if (0 <=? e)%Z then inject_Z (Zpos m * 2 ^ e)
               else Qmake (Zpos m) (Z.to_pos (2 ^ (- e))) in
      if s then Qopp v else v
  | _ => 0%Q
  end.

(** Powers of two as rationals, and the magnitude [m * 2 ^ e] of a
    finite float. *)
Definition pow2 (e : Z) : Q := (inject_Z 2 ^ e)%Q.

Definition magnitude (m : positive) (e : Z) : Q := (inject_Z (Zpos m) * pow2 e)%Q.

(** ** Fixed-point formatting, [format(x, '.nf')] *)

Definition zfill (n : nat) (s : string) : string :=
  match n - String.length s with
  | O => s
  | S k => String.concat "" (repeat "0" (S k)) +:+ s
  end.

(** The decimal expansion of [num / den >= 0] with [n] fractional digits,
    rounded half to even on the exact value. *)
Definition fixed_digits (n : nat) (num : Z) (den : positive) : string :=
  let scaled := (num * 10 ^ Z.of_nat n)%Z in
  let q := (scaled / Zpos den)%Z in
  let r := (scaled mod Zpos den)%Z in
  let q := match (2 * r ?= Zpos den)%Z with
           | Lt => q
           | Gt => (q + 1)%Z
           | Eq => if Z.even q then q else (q + 1)%Z
           end in
  let int_part := (q / 10 ^ Z.of_nat n)%Z in
  let frac_part := (q mod 10 ^ Z.of_nat n)%Z in
  match n with
  | O => str_Z int_part
  | _ => str_Z int_part +:+ "." +:+ zfill n (str_Z frac_part)
  end.

Definition sign_str (s : bool) : string := if s then "-" else "".

Definition float_format_f (n : nat) (x : float) : string :=
  match x with
  | S754_nan => "nan"
  | S754_infinity s => sign_str s +:+ "inf"
  | S754_zero s => sign_str s +:+ fixed_digits n 0 1
  | S754_finite s m e =>
      sign_str s +:+
      (if (0 <=? e)%Z then fixed_digits n (Zpos m * 2 ^ e) 1
       else fixed_digits n (Zpos m) (Z.to_pos (2 ^ (- e))))
  end.

(** ** Python values and dictionaries *)

(** The values a parsed record can hold: what [json.loads] produces, and
    the strings (or [None], for a short row) of [csv.DictReader]. *)
Unset Elimination Schemes.
Inductive PyVal : Type :=
| PyNone
| PyBool (b : bool)
| PyInt (z : Z)
| PyFloat (x : float)
| PyStr (s : string)
| PyList (l : list PyVal)
| PyDict (d : list (string * PyVal)).
Set Elimination Schemes.

(** A dictionary with string keys is an association list in insertion
    order; the binding of a key is its first occurrence. *)
Definition dict : Type := list (string * PyVal).

(** [d.get(k)]. *)
Fixpoint get (d : dict) (k : string) : option PyVal :=
  match d with
  | [] => None
  | (k', v) :: d' => if String.eqb k k' then Some v else get d' k
  end.

(** [k in d]. *)
Definition has_key (k : string) (d : dict) : bool :=
  match get d k with
  | Some _ => true
  | None => false
  end.

(** [d[k]]. *)
Definition getitem (d : dict) (k : string) : Res PyVal :=
  match get d k with
  | Some v => Ok v
  | None => Raise (KeyError k)
  end.

Fixpoint items_from (seen : list string) (d : dict) : list (string * PyVal) :=
  match d with
  | [] => []
  | (k, v) :: d' =>
      if mem k seen then items_from seen d'
      else (k, v) :: items_from (k :: seen) d'
  end.

(** [d.items()]: every key once, with its binding. *)
Definition items (d : dict) : list (string * PyVal) := items_from [] d.

(** [len(d)]. *)
Definition len (d : dict) : nat := List.length (items d).

(** ** Numbers

    The formulas of [calculate_metrics] are written over a number type
    with Python's arithmetic interface; [PyNumber float], the binary64
    numbers, is what the program runs them on. *)

Class PyNumber (F : Type) : Type := {
  num_mul : F -> F -> F;
  num_add : F -> F -> F;
  num_sub : F -> F -> F;
  (** [x / y], raising [ZeroDivisionError] when [y == 0] *)
  num_truediv : F -> F -> Res F;
  (** [x <= y] *)
  num_le : F -> F -> bool;
  (** an [int] operand, converted for mixed arithmetic *)
  num_of_int : Z -> F;
  (** a decimal literal, given as a fraction *)
  num_of_decimal : positive -> positive -> F;
  (** [format(x, '.nf')] *)
  num_format_f : nat -> F -> string
}.

Definition float_truediv (x y : float) : Res float :=
  if feq y (float_of_Z 0) then Raise ZeroDivisionError else Ok (fdiv x y).

#[export] Instance PyNumber_float : PyNumber float := {
  num_mul := fmul;
  num_add := fadd;
  num_sub := fsub;
  num_truediv := float_truediv;
  num_le := fle;
  num_of_int := float_of_Z;
  num_of_decimal := float_of_ratio;
  num_format_f := float_format_f
}.

Declare Scope num_scope.
Delimit Scope num_scope with num.
Infix "*" := num_mul : num_scope.
Infix "+" := num_add : num_scope.
Infix "-" := num_sub : num_scope.
Infix "/" := num_truediv : num_scope.
Infix "<=?" := num_le : num_scope.
Notation "x >=? y" := (num_le y x) (at level 70) : num_scope.

(** The dictionary returned by [calculate_metrics]. *)
Record TeamMetrics (F : Type) : Type := {
  team_id : PyVal;
  current_staff : F;
  queries_per_day : F;
  average_query_time : F;
  shift_hours : F;
  available_capacity : F;
  remote_infrastructure_efficiency : F;
  workload_step1 : F;
  workload_per_agent : F;
  capacity_step1 : F;
  agent_capacity : F;
  utilization_rate : F;
  capacity_surplus_percentage : F;
  weighted_surplus : F;
  weighted_efficiency : F;
  weighted_utilization : F;
  composite_score : F;
  required_staff : F;
  staffing_efficiency_ratio : F;
  status : string;
  recommendation : string
}.

Arguments team_id {F} _.
Arguments current_staff {F} _.
Arguments queries_per_day {F} _.
Arguments average_query_time {F} _.
Arguments shift_hours {F} _.
Arguments available_capacity {F} _.
Arguments remote_infrastructure_efficiency {F} _.
Arguments workload_step1 {F} _.
Arguments workload_per_agent {F} _.
Arguments capacity_step1 {F} _.
Arguments agent_capacity {F} _.
Arguments utilization_rate {F} _.
Arguments capacity_surplus_percentage {F} _.
Arguments weighted_surplus {F} _.
Arguments weighted_efficiency {F} _.
Arguments weighted_utilization {F} _.
Arguments composite_score {F} _.
Arguments required_staff {F} _.
Arguments staffing_efficiency_ratio {F} _.
Arguments status {F} _.
Arguments recommendation {F} _.

Section Formulas.
Context {F : Type} `{PyNumber F}.
Local Open Scope num_scope.

(** The three thresholds of the recommendation. *)
Definition is_optimal (composite_score staffing_efficiency_ratio utilization_rate : F)
  : bool :=
  (composite_score >=? num_of_int 60)
  && ((num_of_decimal 9 10 <=? staffing_efficiency_ratio)
      && (staffing_efficiency_ratio <=? num_of_decimal 11 10))
  && (utilization_rate <=? num_of_int 90).

Definition recommendation_text (is_optimal : bool)
    (composite_score staffing_efficiency_ratio utilization_rate : F) : string :=
  "Based on a Composite Score of " +:+ num_format_f 2 composite_score +:+
  ", a Staffing Efficiency Ratio of " +:+ num_format_f 2 staffing_efficiency_ratio +:+
  ", and a Utilization Rate of " +:+ num_format_f 2 utilization_rate +:+
  (if is_optimal
   then "%, the team's scheduling is optimal. " +:+
        "The recommendation is to maintain the current workforce distribution."
   else "%, the team's scheduling requires adjustments. " +:+
        "Consider reassigning workforce, adjusting shift timings, or enhancing remote infrastructure.").

(** The body of [calculate_metrics] after the conversion of the record:
    [item k] is [team_data[k]] for a numeric field [k], [team_id_item] is
    [team_data["team_id"]]. *)
Definition metrics_of (item : string -> Res F) (team_id_item : Res PyVal)
  : Res (TeamMetrics F) :=
  (* 1. Workload per Agent *)
  queries_per_day <- item "queries_per_day" ;;
  avg_query_time <- item "average_query_time" ;;
  current_staff <- item "current_staff" ;;
  let workload_step1 := queries_per_day * avg_query_time in
  workload_per_agent <- workload_step1 / current_staff ;;
  (* 2. Agent Capacity *)
  shift_hours <- item "shift_hours" ;;
  available_capacity <- item "available_capacity" ;;
  let capacity_step1 := shift_hours * num_of_int 60 in
  capacity_fraction <- available_capacity / num_of_int 100 ;;
  let agent_capacity := capacity_step1 * capacity_fraction in
  (* 3. Utilization Rate *)
  utilization_ratio <- workload_per_agent / agent_capacity ;;
  let utilization_rate := utilization_ratio * num_of_int 100 in
  (* 4. Composite Scheduling Score *)
  remote_efficiency <- item "remote_infrastructure_efficiency" ;;
  surplus_ratio <- (agent_capacity - workload_per_agent) / agent_capacity ;;
  let capacity_surplus_percentage := surplus_ratio * num_of_int 100 in
  let weighted_surplus := capacity_surplus_percentage * num_of_decimal 5 10 in
  let weighted_efficiency := remote_efficiency * num_of_decimal 3 10 in
  let weighted_utilization :=
    (num_of_int 100 - utilization_rate) * num_of_decimal 2 10 in
  let composite_score :=
    weighted_surplus + weighted_efficiency + weighted_utilization in
  (* 5. Staffing Efficiency *)
  required_staff <- (queries_per_day * avg_query_time) / agent_capacity ;;
  staffing_efficiency_ratio <- current_staff / required_staff ;;
  (* Determine recommendation *)
  let is_optimal :=
    is_optimal composite_score staffing_efficiency_ratio utilization_rate in
  let status := if is_optimal then "Optimal" else "Needs Adjustment" in
  let recommendation :=
    recommendation_text is_optimal composite_score staffing_efficiency_ratio
      utilization_rate in
  team_id <- team_id_item ;;
  Ok {| team_id := team_id;
        current_staff := current_staff;
        queries_per_day := queries_per_day;
        average_query_time := avg_query_time;
        shift_hours := shift_hours;
        available_capacity := available_capacity;
        remote_infrastructure_efficiency := remote_efficiency;
        workload_step1 := workload_step1;
        workload_per_agent := workload_per_agent;
        capacity_step1 := capacity_step1;
        agent_capacity := agent_capacity;
        utilization_rate := utilization_rate;
        capacity_surplus_percentage := capacity_surplus_percentage;
        weighted_surplus := weighted_surplus;
        weighted_efficiency := weighted_efficiency;
        weighted_utilization := weighted_utilization;
        composite_score := composite_score;
        required_staff := required_staff;
        staffing_efficiency_ratio := staffing_efficiency_ratio;
        status := status;
        recommendation := recommendation |}.
End Formulas.

(** ** The optimizer *)

(** [self.valid_fields] and the other field lists of [__init__]. *)
Definition valid_fields : list string :=
  ["team_id"; "current_staff"; "queries_per_day"; "average_query_time";
   "shift_hours"; "available_capacity"; "remote_infrastructure_efficiency"].

Definition numeric_fields : list string :=
  ["current_staff"; "queries_per_day"; "average_query_time"; "shift_hours";
   "available_capacity"; "remote_infrastructure_efficiency"].

Definition positive_fields : list string :=
  ["current_staff"; "queries_per_day"; "average_query_time"; "shift_hours"].

Definition percentage_fields : list string :=
  ["available_capacity"; "remote_infrastructure_efficiency"].

(** The two lists [validate_data] builds by appending. *)
Record VState : Type := {
  validation_report : list string;
  validation_errors : list string
}.

Definition report_append (line : string) (st : VState) : VState :=
  {| validation_report := validation_report st ++ [line];
     validation_errors := validation_errors st |}.

Definition errors_append (err : string) (st : VState) : VState :=
  {| validation_report := validation_report st;
     validation_errors := validation_errors st ++ [err] |}.

Definition missing_field_error (field : string) (i : nat) : string :=
  "ERROR: Missing required field '" +:+ field +:+ "' in row " +:+ str_nat (i + 1) +:+ ".".

Definition invalid_value_error (field : string) (i : nat) (expected : string) : string :=
  "ERROR: Invalid value for '" +:+ field +:+ "' in row " +:+ str_nat (i + 1) +:+
  ". Expected " +:+ expected +:+ ".".

Definition invalid_type_error (field : string) (i : nat) : string :=
  "ERROR: Invalid data type for '" +:+ field +:+ "' in row " +:+ str_nat (i + 1) +:+
  ". Expected a numeric value.".

(** The needle of the per-field status lines. *)
Definition invalid_value_needle (field : string) : string :=
  "Invalid value for '" +:+ field +:+ "'".

(** One status line of the "Data Type and Value Validation" section. *)
Definition status_line (kind field : string) (st : VState) : VState :=
  if negb (existsb (str_in (invalid_value_needle field)) (validation_errors st))
  then report_append (" - " +:+ field +:+ " (" +:+ kind +:+ "): validated") st
  else report_append (" - " +:+ field +:+ " (" +:+ kind +:+ "): not valid") st.

Section WorkforceOptimizer.

(** The built-ins and the parsing front end the class relies on:
    [float_of_str s] is [float(s)] for a string [s], [None] standing for
    its [ValueError]; [py_str v] is [str(v)]; [parse_data] is the method
    of that name, built on [json.loads] and [csv.DictReader], on the texts
    for which it gives a list of records, each a dictionary with string
    keys, or an error message.  What the method does on any text is
    modelled apart, below; the pipeline is followed from such a list
    on. *)
Variable float_of_str : string -> option float.
Variable py_str : PyVal -> string.
Variable parse_data : string -> list dict + string.

(** [float(v)]. *)
Definition py_float (v : PyVal) : Res float :=
  match v with
  | PyFloat x => Ok x
  | PyInt z =>
      let x := float_of_Z z in
      if is_finite x then Ok x else Raise OverflowError
  | PyBool b => Ok (float_of_Z (if b then 1 else 0))
  | PyStr s =>
      match float_of_str s with
      | Some x => Ok x
      | None => Raise ValueError
      end
  | PyNone | PyList _ | PyDict _ => Raise TypeError
  end.

(** The body of the loop over [self.numeric_fields] in [validate_data]. *)
Definition check_value (i : nat) (team : dict) (field : string) (st : VState)
  : Res VState :=
  match get team field with
  | None => Ok st
  | Some raw =>
      match py_float raw with
      | Ok value =>
          if mem field ["current_staff"; "queries_per_day"] then
            if negb (is_integer value) || fle value (float_of_Z 0)
            then Ok (errors_append (invalid_value_error field i "positive integer") st)
            else Ok st
          else if mem field ["average_query_time"; "shift_hours"] then
            if fle value (float_of_Z 0)
            then Ok (errors_append (invalid_value_error field i "positive number") st)
            else Ok st
          else if mem field percentage_fields then
            if flt value (float_of_Z 0) || flt (float_of_Z 100) value
            then Ok (errors_append (invalid_value_error field i "value between 0 and 100") st)
            else Ok st
          else Ok st
      | Raise ValueError => Ok (errors_append (invalid_type_error field i) st)
      | Raise e => Raise e
      end
  end.

(** The body of the loop over [self.valid_fields] in [validate_data]. *)
Definition check_required (teams : list dict) (field : string) (st : VState)
  : VState :=
  if forallb (has_key field) teams
  then report_append (" - " +:+ field +:+ ": present") st
  else
    let st := report_append (" - " +:+ field +:+ ": missing") st in
    for_each (enumerate teams)
      (fun '(i, team) st =>
         if negb (has_key field team)
         then errors_append (missing_field_error field i) st
         else st)
      st.

Definition validate_data (teams : list dict) : Res (list string * list string) :=
  let st := {| validation_report := []; validation_errors := [] |} in
  let st := report_append "# Data Validation Report" st in
  let st := report_append "## Data Structure Check:" st in
  let st := report_append (" - Number of teams: " +:+ str_nat (List.length teams)) st in
  match teams with
  | [] =>
      let st := report_append " - Number of fields per record: 0" st in
      let st := errors_append "ERROR: No teams found in the input data." st in
      Ok (validation_report st, validation_errors st)
  | team0 :: _ =>
      let st := report_append
                  (" - Number of fields per record: " +:+ str_nat (len team0)) st in
      let st := report_append (nl +:+ "## Required Fields Check:") st in
      let st := for_each valid_fields (check_required teams) st in
      let st := report_append (nl +:+ "## Data Type and Value Validation:") st in
      st <- for_each_res (enumerate teams)
              (fun '(i, team) st =>
                 for_each_res numeric_fields (check_value i team) st)
              st ;;
      let st := for_each (firstn 2 positive_fields) (status_line "positive integer") st in
      let st := for_each (skipn 2 positive_fields) (status_line "positive number") st in
      let st := for_each percentage_fields (status_line "0 to 100") st in
      let st := report_append (nl +:+ "## Validation Summary:") st in
      let st :=
        match validation_errors st with
        | [] => report_append "Data validation is successful!" st
        | _ :: _ =>
            let st := report_append "Validation failed with the following errors:" st in
            let st := for_each (validation_errors st)
                        (fun error st => report_append ("- " +:+ error) st) st in
            report_append (nl +:+ "Please correct and resubmit this data again.") st
        end in
      Ok (validation_report st, validation_errors st)
  end.

(** A value of the converted record used as a number. *)
Definition as_float (v : PyVal) : Res float :=
  match v with
  | PyFloat x => Ok x
  | _ => Raise TypeError
  end.

Definition calculate_metrics (team : dict) : Res (TeamMetrics float) :=
  team_data <- map_res
                 (fun '(k, v) =>
                    if mem k numeric_fields
                    then x <- py_float v ;; Ok (k, PyFloat x)
                    else Ok (k, v))
                 (items team) ;;
  metrics_of (fun k => v <- getitem team_data k ;; as_float v)
             (getitem team_data "team_id").

(** A method call the pipeline makes. *)
Inductive Call : Type :=
| CalcMetrics (team : dict).

(** A computation of the pipeline: its outcome and the calls to
    [calculate_metrics] it made, in order. *)
Definition Py (A : Type) : Type := (Res A * list Call)%type.

Definition py_ret {A : Type} (a : A) : Py A := (Ok a, []).

Definition lift {A : Type} (r : Res A) : Py A := (r, []).

Definition py_bind {A B : Type} (c : Py A) (k : A -> Py B) : Py B :=
  match c with
  | (Ok a, calls) => let '(r, calls') := k a in (r, calls ++ calls')
  | (Raise e, calls) => (Raise e, calls)
  end.

Notation "x <~ c ;; k" := (py_bind c (fun x => k))
  (at level 61, c at next level, right associativity).
Notation "' p <~ c ;; k" := (py_bind c (fun x => let 'p := x in k))
  (at level 61, p pattern, c at next level, right associativity).

Fixpoint map_py {A B : Type} (f : A -> Py B) (l : list A) : Py (list B) :=
  match l with
  | [] => py_ret []
  | a :: l' => b <~ f a ;; bs <~ map_py f l' ;; py_ret (b :: bs)
  end.

Definition call_calculate_metrics (team : dict) : Py (TeamMetrics float) :=
  (calculate_metrics team, [CalcMetrics team]).

(** The lines [generate_report] appends for one team. *)
Definition team_report (result : TeamMetrics float) : Res (list string) :=
  ratio_276 <- float_truediv (workload_per_agent result) (agent_capacity result) ;;
  ratio_277 <- float_truediv (workload_per_agent result) (agent_capacity result) ;;
  Ok [
    "# Detailed Analysis per Team:";
    "Team " +:+ py_str (team_id result);
    "Input Data:";
    " - Current Staff: " +:+ float_format_f 0 (current_staff result);
    " - Queries Per Day: " +:+ float_format_f 0 (queries_per_day result);
    " - Average Query Time (minutes): " +:+ float_format_f 2 (average_query_time result);
    " - Shift Hours: " +:+ float_format_f 2 (shift_hours result);
    " - Available Capacity (%): " +:+ float_format_f 2 (available_capacity result);
    " - Remote Infrastructure Efficiency (%): " +:+ float_format_f 2 (remote_infrastructure_efficiency result);
    "";
    "# Detailed Calculations:";
    "## 1. Workload per Agent Calculation:";
    " - Formula: $$ \text{Workload per Agent} = \frac{\text{queries_per_day} \times \text{average_query_time}}{\text{current_staff}} $$";
    " - Calculation Steps:";
    "   Step 1: Multiply queries_per_day by average_query_time: " +:+ float_format_f 2 (queries_per_day result) +:+ " × " +:+ float_format_f 2 (average_query_time result) +:+ " = " +:+ float_format_f 2 (workload_step1 result);
    "   Step 2: Divide the result by current_staff: " +:+ float_format_f 2 (workload_step1 result) +:+ " ÷ " +:+ float_format_f 2 (current_staff result) +:+ " = " +:+ float_format_f 2 (workload_per_agent result);
    " - Final Workload per Agent: " +:+ float_format_f 2 (workload_per_agent result);
    "";
    "## 2. Agent Capacity Calculation:";
    " - Formula: $$ \text{Agent Capacity} = \text{shift_hours} \times 60 \times \frac{\text{available_capacity}}{100} $$";
    " - Calculation Steps:";
    "   Step 1: Multiply shift_hours by 60: " +:+ float_format_f 2 (shift_hours result) +:+ " × 60 = " +:+ float_format_f 2 (capacity_step1 result);
    "   Step 2: Multiply the result by (available_capacity/100): " +:+ float_format_f 2 (capacity_step1 result) +:+ " × (" +:+ float_format_f 2 (available_capacity result) +:+ "/100) = " +:+ float_format_f 2 (agent_capacity result);
    " - Final Agent Capacity: " +:+ float_format_f 2 (agent_capacity result);
    "";
    "## 3. Utilization Rate Calculation:";
    " - Formula: $$ \text{Utilization Rate} = \frac{\text{Workload per Agent}}{\text{Agent Capacity}} \times 100 $$";
    " - Calculation Steps:";
    "   Step 1: Divide Workload per Agent by Agent Capacity: " +:+ float_format_f 2 (workload_per_agent result) +:+ " ÷ " +:+ float_format_f 2 (agent_capacity result) +:+ " = " +:+ float_format_f 4 ratio_276;
    "   Step 2: Multiply the result by 100: " +:+ float_format_f 4 ratio_277 +:+ " × 100 = " +:+ float_format_f 2 (utilization_rate result);
    " - Final Utilization Rate: " +:+ float_format_f 2 (utilization_rate result) +:+ "%";
    "";
    "## 4. Composite Scheduling Score Calculation:";
    " - Step 1: Calculate Capacity Surplus Percentage:";
    " $$ \text{Capacity Surplus Percentage} = \frac{(\text{Agent Capacity} - \text{Workload per Agent})}{\text{Agent Capacity}} \times 100 $$";
    "   Calculation: (" +:+ float_format_f 2 (agent_capacity result) +:+ " - " +:+ float_format_f 2 (workload_per_agent result) +:+ ") ÷ " +:+ float_format_f 2 (agent_capacity result) +:+ " × 100 = " +:+ float_format_f 2 (capacity_surplus_percentage result) +:+ "%";
    " - Step 2: Multiply the Capacity Surplus Percentage by 0.5: " +:+ float_format_f 2 (capacity_surplus_percentage result) +:+ " × 0.5 = " +:+ float_format_f 2 (weighted_surplus result);
    " - Step 3: Multiply remote_infrastructure_efficiency by 0.3: " +:+ float_format_f 2 (remote_infrastructure_efficiency result) +:+ " × 0.3 = " +:+ float_format_f 2 (weighted_efficiency result);
    " - Step 4: Subtract the Utilization Rate from 100, then multiply by 0.2: (100 - " +:+ float_format_f 2 (utilization_rate result) +:+ ") × 0.2 = " +:+ float_format_f 2 (weighted_utilization result);
    " - Step 5: Sum the weighted values:";
    " $$ \text{Composite Score} = (\text{Capacity Surplus Percentage} \times 0.5) + (\text{remote_infrastructure_efficiency} \times 0.3) + ((100 - \text{Utilization Rate}) \times 0.2) $$";
    "   Calculation: " +:+ float_format_f 2 (weighted_surplus result) +:+ " + " +:+ float_format_f 2 (weighted_efficiency result) +:+ " + " +:+ float_format_f 2 (weighted_utilization result) +:+ " = " +:+ float_format_f 2 (composite_score result);
    " - Final Composite Score: " +:+ float_format_f 2 (composite_score result);
    "";
    "## 5. Staffing Efficiency Calculation:";
    " - Formula for Required Staff:";
    " $$ \text{Required Staff} = \frac{\text{queries_per_day} \times \text{average_query_time}}{\text{Agent Capacity}} $$";
    "   Calculation: (" +:+ float_format_f 2 (queries_per_day result) +:+ " × " +:+ float_format_f 2 (average_query_time result) +:+ ") ÷ " +:+ float_format_f 2 (agent_capacity result) +:+ " = " +:+ float_format_f 2 (required_staff result);
    " - Formula for Staffing Efficiency Ratio:";
    " $$ \text{Staffing Efficiency Ratio} = \frac{\text{current_staff}}{\text{Required Staff}} $$";
    "   Calculation: " +:+ float_format_f 2 (current_staff result) +:+ " ÷ " +:+ float_format_f 2 (required_staff result) +:+ " = " +:+ float_format_f 2 (staffing_efficiency_ratio result);
    " - Final Staffing Efficiency Ratio: " +:+ float_format_f 2 (staffing_efficiency_ratio result);
    "";
    "# Final Recommendation per Team:";
    " - Composite Score: " +:+ float_format_f 2 (composite_score result);
    " - Utilization Rate: " +:+ float_format_f 2 (utilization_rate result) +:+ "%";
    " - Staffing Efficiency Ratio: " +:+ float_format_f 2 (staffing_efficiency_ratio result);
    " - Status: " +:+ status result;
    " - Recommended Action: " +:+ recommendation result;
    ""
  ].

(** [generate_report]: the metrics of every team first, then the text. *)
Definition generate_report (teams : list dict) : Py string :=
  team_results <~ map_py call_calculate_metrics teams ;;
  lift (sections <- map_res team_report team_results ;;
        Ok (join nl
              (["# Workforce Distribution Summary:";
                "Total Teams Evaluated: " +:+ str_nat (List.length teams);
                ""]
               ++ List.concat sections
               ++ ["# FEEDBACK AND RATING PROTOCOL";
                   "Would you like detailed calculations for any specific team? Please rate this analysis on a scale of 1-5."]))).

Definition process_input (input_data : string) : Py string :=
  match parse_data input_data with
  | inr error => py_ret error
  | inl teams =>
      '(validation_report, validation_errors) <~ lift (validate_data teams) ;;
      let validation_report_str := join nl validation_report in
      match validation_errors with
      | _ :: _ => py_ret validation_report_str
      | [] =>
          final_report <~ generate_report teams ;;
          py_ret (validation_report_str +:+ nl +:+ nl +:+ final_report)
      end
  end.

End WorkforceOptimizer.

(** ** A reading of [float(s)] for ASCII strings

    As [float] does it: the underscores that group digits are checked and
    removed; the blanks of C (tab to carriage return, and the space) are
    stripped from both ends; what is left is an optional sign, then [inf],
    [infinity] or [nan] in any case, or a decimal number with optional
    fraction and exponent, rounded to the nearest float.  Python also
    accepts the other decimal digits and blanks of Unicode; a string with
    a character outside ASCII is rejected here.  This reading serves to
    run the model on concrete records, whose strings are ASCII; the
    theorems below hold for every reading of [float]. *)

(** [c.isspace()] for an ASCII character: the blanks [str.strip]
    removes. *)
Definition is_space (c : ascii) : bool :=
  let n := nat_of_ascii c in
  ((9 <=? n) && (n <=? 13)) || ((28 <=? n) && (n <=? 32)).

(** The blanks [float] strips: those of C, which leave out the
    separators 28 to 31. *)
Definition is_c_space (c : ascii) : bool :=
  let n := nat_of_ascii c in
  ((9 <=? n) && (n <=? 13)) || (n =? 32).

Definition is_digit (c : ascii) : bool :=
  let n := nat_of_ascii c in (48 <=? n) && (n <=? 57).

Definition is_underscore (c : ascii) : bool := nat_of_ascii c =? 95.

Definition lower (c : ascii) : ascii :=
  let n := nat_of_ascii c in
  if (65 <=? n) && (n <=? 90) then ascii_of_nat (n + 32) else c.

Fixpoint float_lstrip (s : string) : string :=
  match s with
  | String c s' => if is_c_space c then float_lstrip s' else s
  | EmptyString => s
  end.

Definition reverse (s : string) : string :=
  string_of_list_ascii (List.rev (list_ascii_of_string s)).

Definition float_strip (s : string) : string :=
  reverse (float_lstrip (reverse (float_lstrip s))).

Definition lower_string (s : string) : string :=
  string_of_list_ascii (map lower (list_ascii_of_string s)).

(** Removes the underscores of a literal; [None] when one of them does
    not stand between two digits.  [prev_digit] and [prev_underscore] tell
    what the character before was. *)
Fixpoint drop_underscores (prev_digit prev_underscore : bool) (s : string)
  : option string :=
  match s with
  | EmptyString => if prev_underscore then None else Some ""
  | String c s' =>
      if is_underscore c then
        if prev_digit then drop_underscores false true s' else None
      else if prev_underscore && negb (is_digit c) then None
      else option_map (String c) (drop_underscores (is_digit c) false s')
  end.

(** Reads a run of digits, continuing the number [acc]; returns the
    number, how many digits were read and the rest. *)
Fixpoint scan_digits (s : string) (acc : Z) (n : nat) : Z * nat * string :=
  match s with
  | String c s' =>
      if is_digit c
      then scan_digits s' (10 * acc + Z.of_nat (nat_of_ascii c - 48))%Z (S n)
      else (acc, n, s)
  | EmptyString => (acc, n, s)
  end.

Definition scan_sign (s : string) : bool * string :=
  match s with
  | String "-" s' => (true, s')
  | String "+" s' => (false, s')
  | _ => (false, s)
  end.

(** The float nearest to [mant * 10 ^ exp10], with the sign [neg]. *)
Definition decimal_value (neg : bool) (mant exp10 : Z) : float :=
  match mant with
  | Zpos p =>
      let x := if (0 <=? exp10)%Z
               then float_of_ratio (p * Z.to_pos (10 ^ exp10)) 1
               else float_of_ratio p (Z.to_pos (10 ^ (- exp10))) in
      if neg then SFopp x else x
  | _ => S754_zero neg
  end.

Definition scan_exponent (s : string) : option Z :=
  let '(neg, s) := scan_sign s in
  let '(v, n, rest) := scan_digits s 0 0 in
  if (0 <? n) && String.eqb rest "" then Some (if neg then (- v)%Z else v) else None.

Definition ascii_float_of_str (s : string) : option float :=
  match drop_underscores false false s with
  | None => None
  | Some s =>
      let '(neg, s) := scan_sign (float_strip s) in
      let low := lower_string s in
      if mem low ["inf"; "infinity"] then Some (S754_infinity neg)
      else if String.eqb low "nan" then Some S754_nan
      else
        let '(int_part, n1, rest) := scan_digits s 0 0 in
        let '(mant, n2, rest) :=
          match rest with
          | String "." r => scan_digits r int_part 0
          | _ => (int_part, 0, rest)
          end in
        if n1 + n2 =? 0 then None
        else
          match rest with
          | EmptyString => Some (decimal_value neg mant (- Z.of_nat n2))
          | String c r =>
              if mem (String c "") ["e"; "E"] then
                match scan_exponent r with
                | Some e => Some (decimal_value neg mant (e - Z.of_nat n2))
                | None => None
                end
              else None
          end
  end.

(** [str(v)] for the identifiers of the examples, which are strings:
    exact on strings, integers, booleans and [None].  Floats, lists and
    dictionaries, which [str] prints as their [repr], are not printed
    here; no identifier below is one. *)
Definition id_str (v : PyVal) : string :=
  match v with
  | PyStr s => s
  | PyInt z => str_Z z
  | PyBool b => if b then "True" else "False"
  | PyNone => "None"
  | _ => ""
  end.

(** ** The sample batch of [main] *)

Definition team_record (id : string) (staff queries : Z) (query_time hours : PyVal)
    (capacity efficiency : Z) : dict :=
  [("team_id", PyStr id);
   ("current_staff", PyInt staff);
   ("queries_per_day", PyInt queries);
   ("average_query_time", query_time);
   ("shift_hours", hours);
   ("available_capacity", PyInt capacity);
   ("remote_infrastructure_efficiency", PyInt efficiency)].

(** A JSON number with a fraction. *)
Definition json_float (p q : positive) : PyVal := PyFloat (float_of_ratio p q).

Definition TeamOmega : dict :=
  team_record "TeamOmega" 10 150 (json_float 30 10) (PyInt 8) 70 80.
Definition TeamSigma : dict :=
  team_record "TeamSigma" 12 170 (json_float 35 10) (PyInt 7) 75 85.
Definition TeamTheta : dict :=
  team_record "TeamTheta" 8 140 (json_float 28 10) (PyInt 6) 65 90.
Definition TeamLambda : dict :=
  team_record "TeamLambda" 11 160 (json_float 32 10) (json_float 75 10) 80 88.
Definition TeamZeta : dict :=
  team_record "TeamZeta" 9 130 (json_float 36 10) (PyInt 8) 68 82.

Definition sample_teams : list dict :=
  [TeamOmega; TeamSigma; TeamTheta; TeamLambda; TeamZeta].

(** A front end that knows one input, the sample batch. *)
Definition sample_parse_data (input_data : string) : list dict + string :=
  if String.eqb input_data "sample" then inl sample_teams
  else inr "ERROR: Invalid data format. Please provide data in CSV or JSON format.".

(** ** What the validator appends

    Both lists of [validate_data] only grow; the definitions below name
    what each of its blocks appends to them. *)

Definition st_app (st : VState) (rep errs : list string) : VState :=
  {| validation_report := validation_report st ++ rep;
     validation_errors := validation_errors st ++ errs |}.

Definition required_line (teams : list dict) (field : string) : string :=
  if forallb (has_key field) teams
  then " - " +:+ field +:+ ": present"
  else " - " +:+ field +:+ ": missing".

Definition missing_errors (teams : list dict) (field : string) : list string :=
  flat_map (fun '(i, team) =>
              if negb (has_key field team)
              then [missing_field_error field i] else [])
           (enumerate teams).

Definition status_text (kind field : string) (errs : list string) : string :=
  if negb (existsb (str_in (invalid_value_needle field)) errs)
  then " - " +:+ field +:+ " (" +:+ kind +:+ "): validated"
  else " - " +:+ field +:+ " (" +:+ kind +:+ "): not valid".

(** The fields of the status lines with their kinds, in the order of the
    three loops that write them. *)
Definition status_fields : list (string * string) :=
  map (pair "positive integer") (firstn 2 positive_fields)
  ++ map (pair "positive number") (skipn 2 positive_fields)
  ++ map (pair "0 to 100") percentage_fields.

Definition summary_lines (errs : list string) : list string :=
  match errs with
  | [] => ["Data validation is successful!"]
  | _ :: _ =>
      ["Validation failed with the following errors:"]
      ++ map (fun error => "- " +:+ error) errs
      ++ [nl +:+ "Please correct and resubmit this data again."]
  end.

Definition report_lines (teams : list dict) (errs : list string) : list string :=
  ["# Data Validation Report";
   "## Data Structure Check:";
   " - Number of teams: " +:+ str_nat (List.length teams);
   " - Number of fields per record: " +:+ str_nat (len (hd [] teams));
   nl +:+ "## Required Fields Check:"]
  ++ map (required_line teams) valid_fields
  ++ [nl +:+ "## Data Type and Value Validation:"]
  ++ map (fun '(kind, field) => status_text kind field errs) status_fields
  ++ [nl +:+ "## Validation Summary:"]
  ++ summary_lines errs.

(** The range check of [validate_data] on a parsed value. *)
Definition value_ok (field : string) (value : float) : bool :=
  if mem field ["current_staff"; "queries_per_day"]
  then negb (negb (is_integer value) || fle value (float_of_Z 0))
  else if mem field ["average_query_time"; "shift_hours"]
  then negb (fle value (float_of_Z 0))
  else if mem field percentage_fields
  then negb (flt value (float_of_Z 0) || flt (float_of_Z 100) value)
  else true.

Definition empty_state : VState :=
  {| validation_report := []; validation_errors := [] |}.

Section ValidatorBlocks.

Variable float_of_str : string -> option float.

(** The errors the value check appends for one field of one row. *)
Definition value_errors (i : nat) (team : dict) (field : string) : Res (list string) :=
  st <- check_value float_of_str i team field empty_state ;;
  Ok (validation_errors st).

Definition row_errors (i : nat) (team : dict) : Res (list string) :=
  ds <- map_res (value_errors i team) numeric_fields ;; Ok (List.concat ds).

Definition all_value_errors (teams : list dict) : Res (list string) :=
  ds <- map_res (fun '(i, team) => row_errors i team) (enumerate teams) ;;
  Ok (List.concat ds).

(** [float(team[field])]. *)
Definition field_float (team : dict) (field : string) : Res float :=
  v <- getitem team field ;; py_float float_of_str v.

End ValidatorBlocks.

(** A record given by its six numbers, read as [team_data[k]]. *)
Definition record_item {F : Type}
    (current_staff queries_per_day average_query_time shift_hours
     available_capacity remote_infrastructure_efficiency : F) (k : string) : Res F :=
  if String.eqb k "current_staff" then Ok current_staff
  else if String.eqb k "queries_per_day" then Ok queries_per_day
  else if String.eqb k "average_query_time" then Ok average_query_time
  else if String.eqb k "shift_hours" then Ok shift_hours
  else if String.eqb k "available_capacity" then Ok available_capacity
  else if String.eqb k "remote_infrastructure_efficiency"
       then Ok remote_infrastructure_efficiency
  else Raise (KeyError k).

(** The twelve steps of the specification, read on the values a
    [TeamMetrics] retains: every derived value is the formula applied to the
    values retained before it. *)
Definition spec_formula_chain (m : TeamMetrics float) : Prop :=
  workload_step1 m = fmul (queries_per_day m) (average_query_time m)
  /\ workload_per_agent m = fdiv (workload_step1 m) (current_staff m)
  /\ capacity_step1 m = fmul (shift_hours m) (float_of_Z 60)
  /\ agent_capacity m
     = fmul (capacity_step1 m) (fdiv (available_capacity m) (float_of_Z 100))
  /\ utilization_rate m
     = fmul (fdiv (workload_per_agent m) (agent_capacity m)) (float_of_Z 100)
  /\ capacity_surplus_percentage m
     = fmul (fdiv (fsub (agent_capacity m) (workload_per_agent m)) (agent_capacity m))
            (float_of_Z 100)
  /\ weighted_surplus m = fmul (capacity_surplus_percentage m) (float_of_ratio 5 10)
  /\ weighted_efficiency m
     = fmul (remote_infrastructure_efficiency m) (float_of_ratio 3 10)
  /\ weighted_utilization m
     = fmul (fsub (float_of_Z 100) (utilization_rate m)) (float_of_ratio 2 10)
  /\ composite_score m
     = fadd (fadd (weighted_surplus m) (weighted_efficiency m)) (weighted_utilization m)
  /\ required_staff m
     = fdiv (fmul (queries_per_day m) (average_query_time m)) (agent_capacity m)
  /\ staffing_efficiency_ratio m = fdiv (current_staff m) (required_staff m).

(** The three thresholds, read on the retained values. *)
Definition meets_thresholds (m : TeamMetrics float) : Prop :=
  fle (float_of_Z 60) (composite_score m) = true
  /\ (fle (float_of_ratio 9 10) (staffing_efficiency_ratio m) = true
      /\ fle (staffing_efficiency_ratio m) (float_of_ratio 11 10) = true)
  /\ fle (utilization_rate m) (float_of_Z 90) = true.

(** The record [calculate_metrics] builds from six floats when no division
    fails. *)
Definition float_metrics (tid : PyVal) (cs q t h a r : float) : TeamMetrics float :=
  let workload_step1 := fmul q t in
  let workload_per_agent := fdiv workload_step1 cs in
  let capacity_step1 := fmul h (float_of_Z 60) in
  let agent_capacity := fmul capacity_step1 (fdiv a (float_of_Z 100)) in
  let utilization_rate := fmul (fdiv workload_per_agent agent_capacity) (float_of_Z 100) in
  let capacity_surplus_percentage :=
    fmul (fdiv (fsub agent_capacity workload_per_agent) agent_capacity) (float_of_Z 100) in
  let weighted_surplus := fmul capacity_surplus_percentage (float_of_ratio 5 10) in
  let weighted_efficiency := fmul r (float_of_ratio 3 10) in
  let weighted_utilization :=
    fmul (fsub (float_of_Z 100) utilization_rate) (float_of_ratio 2 10) in
  let composite_score :=
    fadd (fadd weighted_surplus weighted_efficiency) weighted_utilization in
  let required_staff := fdiv (fmul q t) agent_capacity in
  let staffing_efficiency_ratio := fdiv cs required_staff in
  let optimal := is_optimal composite_score staffing_efficiency_ratio utilization_rate in
  {| team_id := tid;
     current_staff := cs;
     queries_per_day := q;
     average_query_time := t;
     shift_hours := h;
     available_capacity := a;
     remote_infrastructure_efficiency := r;
     workload_step1 := workload_step1;
     workload_per_agent := workload_per_agent;
     capacity_step1 := capacity_step1;
     agent_capacity := agent_capacity;
     utilization_rate := utilization_rate;
     capacity_surplus_percentage := capacity_surplus_percentage;
     weighted_surplus := weighted_surplus;
     weighted_efficiency := weighted_efficiency;
     weighted_utilization := weighted_utilization;
     composite_score := composite_score;
     required_staff := required_staff;
     staffing_efficiency_ratio := staffing_efficiency_ratio;
     status := if optimal then "Optimal" else "Needs Adjustment";
     recommendation :=
       recommendation_text optimal composite_score staffing_efficiency_ratio
         utilization_rate |}.

(** The two divisors that validation does not keep away from zero. *)
Definition agent_capacity_of (h a : float) : float :=
  fmul (fmul h (float_of_Z 60)) (fdiv a (float_of_Z 100)).

Definition required_staff_of (q t h a : float) : float :=
  fdiv (fmul q t) (agent_capacity_of h a).

(** [x] is the decimal [d] when rounded to two places. *)
Definition rounds_to (x : float) (d : Q) : Prop :=
  is_finite x = true /\ (Qabs (float_to_Q x - d) <= 1 # 200)%Q.

(** One query of one minute a day, shared by 49 agents. *)
Definition odd_staff_team : dict :=
  team_record "TeamOdd" 49 1 (json_float 1 1) (PyInt 8) 70 80.

(** TeamOmega with no available capacity. *)
Definition zero_capacity_team : dict :=
  team_record "TeamIdle" 10 150 (json_float 30 10) (PyInt 8) 0 80.

(** No available capacity, and shift hours so large that
    [shift_hours * 60] overflows. *)
Definition overflow_team : dict :=
  team_record "TeamLong" 10 150 (json_float 30 10) (PyInt (10 ^ 307)) 0 80.

(** A record whose [current_staff] is JSON [null], and the same record as a
    short CSV row would give it. *)
Definition null_staff_team : dict :=
  [("team_id", PyStr "TeamNull");
   ("current_staff", PyNone);
   ("queries_per_day", PyInt 150);
   ("average_query_time", json_float 30 10);
   ("shift_hours", PyInt 8);
   ("available_capacity", PyInt 70);
   ("remote_infrastructure_efficiency", PyInt 80)].

(** A front end that finds no record. *)
Definition empty_parse_data (input_data : string) : list dict + string := inl [].

(** The values [float] accepts or rejects with a [ValueError]: strings,
    floats, booleans and the integers within the range of a float. *)
Definition float_convertible (v : PyVal) : bool :=
  match v with
  | PyNone | PyList _ | PyDict _ => false
  | PyInt z => is_finite (float_of_Z z)
  | PyBool _ | PyFloat _ | PyStr _ => true
  end.

(** The conversion of one item in the comprehension of
    [calculate_metrics]. *)
Definition convert_item (float_of_str : string -> option float)
    (kv : string * PyVal) : Res (string * PyVal) :=
  let '(k, v) := kv in
  if mem k numeric_fields
  then x <- py_float float_of_str v ;; Ok (k, PyFloat x)
  else Ok (k, v).

(** A batch whose second record has no staff, and front ends that find
    the batches of the examples. *)
Definition invalid_team : dict :=
  team_record "TeamBad" 0 150 (json_float 30 10) (PyInt 8) 70 80.

Definition invalid_batch : list dict := [TeamOmega; invalid_team].

Definition invalid_parse_data (input_data : string) : list dict + string :=
  inl invalid_batch.

Definition zero_capacity_batch : list dict := [TeamOmega; zero_capacity_team].

Definition zero_capacity_parse_data (input_data : string) : list dict + string :=
  inl zero_capacity_batch.

Definition overflow_parse_data (input_data : string) : list dict + string :=
  inl [overflow_team].

Definition invalid_batch_errors : list string :=
  ["ERROR: Invalid value for 'current_staff' in row 2. Expected positive integer."].

(** [c] does not occur in [s]. *)
Fixpoint char_absent (c : ascii) (s : string) : bool :=
  match s with
  | EmptyString => true
  | String a s' => negb (Ascii.eqb c a) && char_absent c s'
  end.

(** A JSON batch whose [queries_per_day] is not a number anywhere. *)
Definition unparsed_team : dict :=
  [("team_id", PyStr "TeamText");
   ("current_staff", PyInt 10);
   ("queries_per_day", PyStr "many");
   ("average_query_time", json_float 30 10);
   ("shift_hours", PyInt 8);
   ("available_capacity", PyInt 70);
   ("remote_infrastructure_efficiency", PyInt 80)].

Definition unparsed_errors : list string :=
  ["ERROR: Invalid data type for 'queries_per_day' in row 1. Expected a numeric value."].

(** A record all of whose fields passed: the identifier is present and
    every numeric field is present, converts to a float and is in range. *)
Definition record_valid (float_of_str : string -> option float) (team : dict) : Prop :=
  has_key "team_id" team = true
  /\ forall field, In field numeric_fields ->
       exists value, field_float float_of_str team field = Ok value
                     /\ value_ok field value = true.

(** Closes a goal whose hypothesis [H] says that a check which appended
    an error, or raised, left the error list empty. *)
Ltac no_errors H :=
  cbn [bind errors_append validation_errors empty_state app] in H; discriminate H.

(** ** The front end: [detect_format] and [parse_data]

    A string is the sequence of bytes of its UTF-8 encoding.  The blank
    characters of [str.isspace], which [str.strip] removes, are then one
    byte long (the ASCII ones, [is_space]), two (U+0085 and U+00A0) or
    three (U+1680, U+2000 to U+200A, U+2028, U+2029, U+202F, U+205F and
    U+3000). *)

Definition is_space2 (c1 c2 : ascii) : bool :=
  (nat_of_ascii c1 =? 194)
  && ((nat_of_ascii c2 =? 133) || (nat_of_ascii c2 =? 160)).

Definition is_space3 (c1 c2 c3 : ascii) : bool :=
  let n1 := nat_of_ascii c1 in
  let n2 := nat_of_ascii c2 in
  let n3 := nat_of_ascii c3 in
  ((n1 =? 225) && (n2 =? 154) && (n3 =? 128))
  || ((n1 =? 226) && (n2 =? 128)
      && (((128 <=? n3) && (n3 <=? 138)) || (n3 =? 168) || (n3 =? 169) || (n3 =? 175)))
  || ((n1 =? 226) && (n2 =? 129) && (n3 =? 159))
  || ((n1 =? 227) && (n2 =? 128) && (n3 =? 128)).

(** Drops the blank characters a string starts with; [sp2] and [sp3]
    recognise those of two and of three bytes. *)
Fixpoint drop_blanks (sp2 : ascii -> ascii -> bool)
    (sp3 : ascii -> ascii -> ascii -> bool) (s : string) : string :=
  match s with
  | String c1 s1 =>
      if is_space c1 then drop_blanks sp2 sp3 s1
      else
        match s1 with
        | String c2 s2 =>
            if sp2 c1 c2 then drop_blanks sp2 sp3 s2
            else
              match s2 with
              | String c3 s3 =>
                  if sp3 c1 c2 c3 then drop_blanks sp2 sp3 s3 else s
              | EmptyString => s
              end
        | EmptyString => s
        end
  | EmptyString => s
  end.

(** [s.lstrip()]. *)
Definition str_lstrip (s : string) : string := drop_blanks is_space2 is_space3 s.

(** [s.rstrip()]: the same from the end, where the bytes of a character
    come last byte first. *)
Definition str_rstrip (s : string) : string :=
  reverse (drop_blanks (fun c1 c2 => is_space2 c2 c1)
             (fun c1 c2 c3 => is_space3 c3 c2 c1) (reverse s)).

(** [s.strip()]. *)
Definition str_strip (s : string) : string := str_rstrip (str_lstrip s).

(** [s.startswith(t)] and [s.endswith(t)]. *)
Definition startswith (s t : string) : bool := String.prefix t s.

Definition endswith (s t : string) : bool := String.prefix (reverse t) (reverse s).

(** The format of a text: ['json'], ['csv'] or [None]. *)
Definition detect_format (data_str : string) : option string :=
  let data_str := str_strip data_str in
  if startswith data_str "{" && endswith data_str "}" then Some "json"
  else if str_in "," data_str && str_in nl data_str then Some "csv"
  else None.

(** ['teams' in data]. *)
Definition contains_teams (data : PyVal) : Res bool :=
  match data with
  | PyDict d => Ok (has_key "teams" d)
  | PyList l =>
      Ok (existsb (fun v => match v with
                            | PyStr s => String.eqb s "teams"
                            | _ => false
                            end) l)
  | PyStr s => Ok (str_in "teams" s)
  | PyNone | PyBool _ | PyInt _ | PyFloat _ => Raise TypeError
  end.

(** [data['teams']]. *)
Definition subscript_teams (data : PyVal) : Res PyVal :=
  match data with
  | PyDict d => getitem d "teams"
  | _ => Raise TypeError
  end.

(** [data_format == name]. *)
Definition format_is (data_format : option string) (name : string) : bool :=
  match data_format with
  | Some f => String.eqb f name
  | None => false
  end.

(** What [json.loads] does with a text: it returns a value, raises
    [JSONDecodeError], or raises another exception [e], such as the plain
    [ValueError] of an integer with too many digits or the
    [RecursionError] of deeply nested text. *)
Inductive Loaded (E : Type) : Type :=
| LoadsValue (data : PyVal)
| LoadsDecodeError
| LoadsRaise (e : E).

Arguments LoadsValue {E} data.
Arguments LoadsDecodeError {E}.
Arguments LoadsRaise {E} e.

(** The first component of the pair [parse_data] returns: a Python value,
    which is [None] or what stands in the JSON text, or the rows of a
    CSV. *)
Inductive Teams (Rows : Type) : Type :=
| PyValue (teams : PyVal)
| CsvRows (teams : Rows).

Arguments PyValue {Rows} teams.
Arguments CsvRows {Rows} teams.

(** What a call of [parse_data] does: it returns the pair
    [(teams, error)], where the [error] [None] is Python's, or raises an
    exception of its own, or lets an exception of [json.loads] through. *)
Inductive Parsed (E Rows : Type) : Type :=
| Returned (teams : Teams Rows) (error : option string)
| Raised (e : exn)
| LoadsRaised (e : E).

Arguments Returned {E Rows} teams error.
Arguments Raised {E Rows} e.
Arguments LoadsRaised {E Rows} e.

Section FrontEnd.

(** The two readers [parse_data] calls: [json_loads s] is
    [json.loads(s)], with [E] the exceptions it raises besides
    [JSONDecodeError]; [csv_rows s] is
    [list(csv.DictReader(io.StringIO(s)))], the rows it read or the text
    [str(e)] of the exception it raised.  What the rows are is left
    open. *)
Variable E : Type.
Variable json_loads : string -> Loaded E.
Variable Rows : Type.
Variable csv_rows : string -> Rows + string.

(** The value under [teams], or the value itself as a batch of one. *)
Definition teams_of (data : PyVal) : Res PyVal :=
  has_teams <- contains_teams data ;;
  if has_teams then subscript_teams data else Ok (PyList [data]).

(** The pipeline above takes its front end as a parameter that delivers a
    list of records; the method itself hands on whatever JSON value stands
    under [teams], [null] included. *)
Definition parse_data (data_str : string) : Parsed E Rows :=
  let data_format := detect_format data_str in
  if format_is data_format "json" then
    match json_loads data_str with
    | LoadsValue data =>
        match teams_of data with
        | Ok teams => Returned (PyValue teams) None
        | Raise e => Raised e
        end
    | LoadsDecodeError => Returned (PyValue PyNone) (Some "ERROR: Invalid JSON format.")
    | LoadsRaise e => LoadsRaised e
    end
  else if format_is data_format "csv" then
    match csv_rows data_str with
    | inl teams => Returned (CsvRows teams) None
    | inr e => Returned (PyValue PyNone) (Some ("ERROR: Invalid CSV format. " +:+ e))
    end
  else
    Returned (PyValue PyNone)
      (Some "ERROR: Invalid data format. Please provide data in CSV or JSON format.").

End FrontEnd.

(** A string of ASCII blanks. *)
Fixpoint all_blank (s : string) : bool :=
  match s with
  | EmptyString => true
  | String c s' => is_space c && all_blank s'
  end.

(** ** Templates and feedback *)

(** The double quote. *)
Definition dq : string := String (ascii_of_nat 34) EmptyString.

(** [format_type in options], for a list of strings. *)
Definition in_options (format_type : PyVal) (options : list string) : bool :=
  match format_type with
  | PyStr s => mem s options
  | _ => false
  end.

Definition csv_template : list string :=
  ["CSV Template:";
   "```csv";
   "team_id,current_staff,queries_per_day,average_query_time,shift_hours,available_capacity,remote_infrastructure_efficiency";
   "[String],[positive integer],[positive integer],[positive number in minutes],[positive number],[0-100],[0-100]";
   "```"].

Definition json_template : list string :=
  ["JSON Template:";
   "```json";
   "{";
   " " +:+ dq +:+ "teams" +:+ dq +:+ ": [";
   " {";
   " " +:+ dq +:+ "team_id" +:+ dq +:+ ": " +:+ dq +:+ "[String]" +:+ dq +:+ ",";
   " " +:+ dq +:+ "current_staff" +:+ dq +:+ ": [positive integer],";
   " " +:+ dq +:+ "queries_per_day" +:+ dq +:+ ": [positive integer],";
   " " +:+ dq +:+ "average_query_time" +:+ dq +:+ ": [positive number in minutes],";
   " " +:+ dq +:+ "shift_hours" +:+ dq +:+ ": [positive number],";
   " " +:+ dq +:+ "available_capacity" +:+ dq +:+ ": [0-100],";
   " " +:+ dq +:+ "remote_infrastructure_efficiency" +:+ dq +:+ ": [0-100]";
   " }";
   " ]";
   "}";
   "```"].

(** [provide_template]: the lines of the templates asked for, joined. *)
Definition provide_template (format_type : PyVal) : string :=
  let templates := [] in
  let templates :=
    if in_options format_type ["csv"; "both"]
    then templates ++ csv_template else templates in
  let templates :=
    if in_options format_type ["json"; "both"]
    then templates ++ json_template else templates in
  join nl templates.

(** The integer part of a float, towards zero. *)
Definition float_trunc (x : float) : Z :=
  match x with
  | S754_finite s m e =>
      let n := if (0 <=? e)%Z then (Zpos m * 2 ^ e)%Z else (Zpos m / 2 ^ (- e))%Z in
      if s then (- n)%Z else n
  | _ => 0%Z
  end.

Section Feedback.

(** [int_of_str s] is [int(s)] for a string [s], [None] standing for its
    [ValueError]. *)
Variable int_of_str : string -> option Z.

(** [int(v)]. *)
Definition py_int (v : PyVal) : Res Z :=
  match v with
  | PyInt z => Ok z
  | PyBool b => Ok (if b then 1 else 0)%Z
  | PyFloat x =>
      match x with
      | S754_nan => Raise ValueError
      | S754_infinity _ => Raise OverflowError
      | _ => Ok (float_trunc x)
      end
  | PyStr s =>
      match int_of_str s with
      | Some z => Ok z
      | None => Raise ValueError
      end
  | PyNone | PyList _ | PyDict _ => Raise TypeError
  end.

Definition handle_feedback (rating : PyVal) : Res string :=
  rating <- py_int rating ;;
  if (rating =? 1)%Z then
    Ok "We are very sorry that the analysis did not meet your expectations. Could you please provide specific feedback on what went wrong?"
  else if (rating =? 2)%Z then
    Ok "Thank you for your feedback. We appreciate your input and would love to know more details on how we can improve."
  else if (rating =? 3)%Z then
    Ok "Thank you for your feedback. We are committed to continuous improvement. Could you share what aspects need enhancement?"
  else if (rating =? 4)%Z then
    Ok "Thank you for your positive feedback! We're glad the analysis was helpful."
  else if (rating =? 5)%Z then
    Ok "Thank you for your excellent feedback! We are thrilled to have met your expectations and appreciate your input."
  else
    Ok "Please rate this analysis on a scale of 1-5.".

End Feedback.

(** ** What the validator answers

    The text an out-of-range value of [field] is answered with. *)
Definition expected_text (field : string) : string :=
  if mem field ["current_staff"; "queries_per_day"] then "positive integer"
  else if mem field ["average_query_time"; "shift_hours"] then "positive number"
  else "value between 0 and 100".

(** Two records that agree on the seven fields of the schema. *)
Definition same_fields (team team' : dict) : Prop :=
  forall field, In field valid_fields -> get team field = get team' field.

(** ** Further records of the examples *)

(** A record with three faults: no shift hours, a number of queries that
    is not a number, and a capacity above 100. *)
Definition faulty_team : dict :=
  [("team_id", PyStr "TeamFaulty");
   ("current_staff", PyInt 10);
   ("queries_per_day", PyStr "many");
   ("average_query_time", json_float 30 10);
   ("available_capacity", PyInt 130);
   ("remote_infrastructure_efficiency", PyInt 80)].

Definition faulty_batch : list dict := [TeamOmega; faulty_team].

Definition faulty_errors : list string :=
  ["ERROR: Missing required field 'shift_hours' in row 2.";
   "ERROR: Invalid data type for 'queries_per_day' in row 2. Expected a numeric value.";
   "ERROR: Invalid value for 'available_capacity' in row 2. Expected value between 0 and 100."].

(** The record of TeamOmega with a further key, its keys in another
    order. *)
Definition annotated_team : dict :=
  ("notes", PyStr "night shift") :: List.rev TeamOmega.

(** The record of TeamOmega without its identifier. *)
Definition anonymous_team : dict := tl TeamOmega.

(** A record whose shift hours are not a number. *)
Definition nan_shift_team : dict :=
  team_record "TeamNaN" 10 150 (json_float 30 10) (PyFloat S754_nan) 70 80.

(** A JSON reader that knows one text, the empty object, and a CSV reader
    that finds no row. *)
Definition one_object_loads (s : string) : Loaded exn :=
  if String.eqb s "{}" then LoadsValue (PyDict []) else LoadsDecodeError.

(** A JSON text with [null] for its teams, and a reader that knows it. *)
Definition null_teams_text : string :=
  "{" +:+ dq +:+ "teams" +:+ dq +:+ ": null}".

Definition null_teams_loads (s : string) : Loaded exn :=
  if String.eqb s null_teams_text then LoadsValue (PyDict [("teams", PyNone)])
  else LoadsDecodeError.

(** One query a day of the shortest time a float can hold, 5e-324
    minutes, shared by two agents on shifts of a thousandth of an hour. *)
Definition underflow_team : dict :=
  team_record "TeamTiny" 2 1 (PyFloat (S754_finite false 1 (-1074)))
    (json_float 1 1000) 70 80.

(** One query a day of the longest time a float can hold, shared by
    three agents. *)
Definition overflow_trip_team : dict :=
  team_record "TeamHuge" 3 1
    (PyFloat (S754_finite false 9007199254740991 971)) (PyInt 8) 70 80.

Definition no_csv_rows (s : string) : unit + string := inl tt.

(** * Properties *)

(** ** The empty batch *)

(** C6: for the empty batch the validator returns the four lines of the
    structure check as its report and exactly one error, "No teams found";
    nothing else is checked or reported. *)
Theorem validate_data_empty_batch :
  forall float_of_str : string -> option float,
    validate_data float_of_str [] =
    Ok (["# Data Validation Report";
         "## Data Structure Check:";
         " - Number of teams: 0";
         " - Number of fields per record: 0"],
        ["ERROR: No teams found in the input data."]).
Proof. intros; reflexivity. Qed.

(** ** Appending to the two lists *)

Lemma st_app_nil (st : VState) : st_app st [] [] = st.
Proof. destruct st; unfold st_app; simpl; now rewrite !app_nil_r. Qed.

Lemma st_app_app (st : VState) (r1 e1 r2 e2 : list string) :
  st_app (st_app st r1 e1) r2 e2 = st_app st (r1 ++ r2) (e1 ++ e2).
Proof. unfold st_app; simpl; now rewrite !app_assoc. Qed.

Lemma report_append_app (line : string) (st : VState) :
  report_append line st = st_app st [line] [].
Proof. unfold report_append, st_app; simpl; now rewrite app_nil_r. Qed.

Lemma errors_append_app (err : string) (st : VState) :
  errors_append err st = st_app st [] [err].
Proof. unfold errors_append, st_app; simpl; now rewrite app_nil_r. Qed.

Lemma for_each_app {A : Type} (R E : A -> list string) (body : A -> VState -> VState)
    (l : list A) :
  (forall a st, body a st = st_app st (R a) (E a)) ->
  forall st, for_each l body st = st_app st (flat_map R l) (flat_map E l).
Proof.
  intros Hbody; unfold for_each.
  induction l as [|a l IH]; intros st; simpl.
  - now rewrite st_app_nil.
  - now rewrite IH, Hbody, st_app_app.
Qed.

Lemma for_each_res_app {A : Type} (D : A -> Res (list string))
    (body : A -> VState -> Res VState) (l : list A) :
  (forall a st, body a st = (d <- D a ;; Ok (st_app st [] d))) ->
  forall st,
    for_each_res l body st = (ds <- map_res D l ;; Ok (st_app st [] (List.concat ds))).
Proof.
  intros Hbody.
  induction l as [|a l IH]; intros st; simpl.
  - now rewrite st_app_nil.
  - rewrite Hbody. destruct (D a) as [d|e]; simpl; [|reflexivity].
    rewrite IH. destruct (map_res D l) as [ds|e]; simpl; [|reflexivity].
    now rewrite st_app_app.
Qed.

Lemma flat_map_singleton {A B : Type} (f : A -> B) (l : list A) :
  flat_map (fun a => [f a]) l = map f l.
Proof. induction l; simpl; congruence. Qed.

Lemma flat_map_nil_fun {A B : Type} (l : list A) :
  flat_map (fun _ : A => @nil B) l = [].
Proof. induction l; simpl; auto. Qed.

(** ** The required-fields block *)

Lemma missing_from_nil (field : string) (teams : list dict) (k : nat) :
  forallb (has_key field) teams = true ->
  flat_map (fun '(i, team) =>
              if negb (has_key field team)
              then [missing_field_error field i] else [])
           (combine (seq k (List.length teams)) teams) = [].
Proof.
  revert k; induction teams as [|team teams IH]; intros k Hall; simpl in *.
  - reflexivity.
  - apply andb_prop in Hall as [Hk Hall]. rewrite Hk; simpl. now apply IH.
Qed.

Lemma missing_from_all (field : string) (teams : list dict) (k : nat) :
  flat_map (fun '(i, team) =>
              if negb (has_key field team)
              then [missing_field_error field i] else [])
           (combine (seq k (List.length teams)) teams) = [] ->
  forallb (has_key field) teams = true.
Proof.
  revert k; induction teams as [|team teams IH]; intros k Hnil; simpl in *.
  - reflexivity.
  - destruct (has_key field team); simpl in *; [|discriminate].
    now apply (IH (S k)).
Qed.

Lemma missing_errors_nil (teams : list dict) (field : string) :
  missing_errors teams field = [] <-> forallb (has_key field) teams = true.
Proof.
  unfold missing_errors, enumerate; split.
  - apply missing_from_all.
  - apply missing_from_nil.
Qed.

Section ValidatorFacts.

Variable float_of_str : string -> option float.

Lemma check_required_app (teams : list dict) (field : string) (st : VState) :
  check_required teams field st
  = st_app st [required_line teams field] (missing_errors teams field).
Proof.
  unfold check_required, required_line.
  destruct (forallb (has_key field) teams) eqn:Hall.
  - apply missing_errors_nil in Hall. rewrite Hall. apply report_append_app.
  - rewrite (for_each_app (fun _ => [])
               (fun '(i, team) =>
                  if negb (has_key field team)
                  then [missing_field_error field i] else [])).
    + rewrite flat_map_nil_fun, report_append_app, st_app_app. reflexivity.
    + intros [i team] st'. destruct (negb (has_key field team)).
      * apply errors_append_app.
      * now rewrite st_app_nil.
Qed.

Lemma check_value_app (i : nat) (team : dict) (field : string) (st : VState) :
  check_value float_of_str i team field st
  = (d <- value_errors float_of_str i team field ;; Ok (st_app st [] d)).
Proof.
  unfold value_errors, check_value.
  destruct (get team field) as [raw|]; simpl; [|now rewrite st_app_nil].
  destruct (py_float float_of_str raw) as [value|[]]; simpl;
    try reflexivity; try apply f_equal;
    repeat match goal with
           | |- context [if ?b then _ else _] => destruct b; simpl
           end;
    rewrite ?errors_append_app, ?st_app_nil; reflexivity.
Qed.

Lemma value_loop_app (teams : list dict) (st : VState) :
  for_each_res (enumerate teams)
    (fun '(i, team) st =>
       for_each_res numeric_fields (check_value float_of_str i team) st) st
  = (d <- all_value_errors float_of_str teams ;; Ok (st_app st [] d)).
Proof.
  unfold all_value_errors.
  rewrite (for_each_res_app (fun '(i, team) => row_errors float_of_str i team)).
  - destruct (map_res _ (enumerate teams)); reflexivity.
  - intros [i team] st'. unfold row_errors.
    rewrite (for_each_res_app (value_errors float_of_str i team)).
    + destruct (map_res _ numeric_fields); reflexivity.
    + intros; apply check_value_app.
Qed.

Lemma status_line_app (kind field : string) (st : VState) :
  status_line kind field st
  = st_app st [status_text kind field (validation_errors st)] [].
Proof.
  unfold status_line, status_text.
  destruct (negb _); apply report_append_app.
Qed.

Lemma validation_errors_st_app (st : VState) (rep errs : list string) :
  validation_errors (st_app st rep errs) = validation_errors st ++ errs.
Proof. reflexivity. Qed.

Lemma validation_report_st_app (st : VState) (rep errs : list string) :
  validation_report (st_app st rep errs) = validation_report st ++ rep.
Proof. reflexivity. Qed.

Lemma summary_app (st : VState) :
  match validation_errors st with
  | [] => report_append "Data validation is successful!" st
  | _ :: _ =>
      let st := report_append "Validation failed with the following errors:" st in
      let st := for_each (validation_errors st)
                  (fun error st => report_append ("- " +:+ error) st) st in
      report_append (nl +:+ "Please correct and resubmit this data again.") st
  end = st_app st (summary_lines (validation_errors st)) [].
Proof.
  unfold summary_lines.
  destruct (validation_errors st) as [|e errs] eqn:He.
  - apply report_append_app.
  - cbv zeta.
    rewrite (for_each_app (fun error => ["- " +:+ error]) (fun _ => [])).
    + rewrite !report_append_app, !st_app_app, flat_map_nil_fun.
      rewrite validation_errors_st_app, He, app_nil_r.
      rewrite (flat_map_singleton (fun error => "- " +:+ error)).
      reflexivity.
    + intros; apply report_append_app.
Qed.

Lemma status_and_summary_app (st : VState) :
  let st0 := st in
  let st := for_each (firstn 2 positive_fields) (status_line "positive integer") st in
  let st := for_each (skipn 2 positive_fields) (status_line "positive number") st in
  let st := for_each percentage_fields (status_line "0 to 100") st in
  let st := report_append (nl +:+ "## Validation Summary:") st in
  let st :=
    match validation_errors st with
    | [] => report_append "Data validation is successful!" st
    | _ :: _ =>
        let st := report_append "Validation failed with the following errors:" st in
        let st := for_each (validation_errors st)
                    (fun error st => report_append ("- " +:+ error) st) st in
        report_append (nl +:+ "Please correct and resubmit this data again.") st
    end in
  st = st_app st0
         (map (fun '(kind, field) => status_text kind field (validation_errors st0))
              status_fields
          ++ [nl +:+ "## Validation Summary:"]
          ++ summary_lines (validation_errors st0)) [].
Proof.
  intros st0.
  unfold for_each, positive_fields, percentage_fields, status_fields.
  cbn [firstn skipn fold_left map app].
  cbv zeta.
  rewrite summary_app.
  repeat (rewrite status_line_app || rewrite report_append_app
          || rewrite st_app_app || rewrite validation_errors_st_app
          || rewrite app_nil_r).
  reflexivity.
Qed.

(** On a non-empty batch the validator returns [report_lines] over the
    errors it collected: the missing-field errors of the first block, then
    the value errors of the second. *)
Lemma validate_data_nonempty (teams : list dict) :
  teams <> [] ->
  validate_data float_of_str teams
  = (verrs <- all_value_errors float_of_str teams ;;
     let errs := flat_map (missing_errors teams) valid_fields ++ verrs in
     Ok (report_lines teams errs, errs)).
Proof.
  destruct teams as [|team0 rest]; [congruence|intros _].
  unfold validate_data.
  cbv beta iota zeta.
  rewrite value_loop_app.
  destruct (all_value_errors float_of_str (team0 :: rest)) as [verrs|e]; unfold bind;
    [|reflexivity].
  match goal with
  | |- context [for_each (firstn 2 positive_fields) _ ?s] =>
      pose proof (status_and_summary_app s) as Htail
  end.
  cbv zeta in Htail. rewrite Htail. clear Htail.
  rewrite (for_each_app (fun f => [required_line (team0 :: rest) f])
             (missing_errors (team0 :: rest)) (check_required (team0 :: rest))
             valid_fields (check_required_app (team0 :: rest))).
  rewrite !report_append_app, !st_app_app.
  unfold st_app, report_lines.
  cbn [validation_errors validation_report app hd].
  rewrite !app_nil_r, flat_map_singleton.
  reflexivity.
Qed.

End ValidatorFacts.

(** ** What a passed validation guarantees *)

Lemma flat_map_eq_nil {A B : Type} (f : A -> list B) (l : list A) :
  flat_map f l = [] -> forall a, In a l -> f a = [].
Proof.
  induction l as [|x l IH]; simpl; intros Hnil a Ha; [contradiction|].
  apply app_eq_nil in Hnil as [Hx Hl].
  destruct Ha as [<-|Ha]; auto.
Qed.

Lemma map_res_concat_nil {A : Type} (f : A -> Res (list string)) (l : list A)
    (ds : list (list string)) :
  map_res f l = Ok ds -> List.concat ds = [] -> forall a, In a l -> f a = Ok [].
Proof.
  revert ds; induction l as [|x l IH]; simpl; intros ds Hmap Hnil a Ha;
    [contradiction|].
  destruct (f x) as [d|e] eqn:Hx; simpl in Hmap; [|discriminate].
  destruct (map_res f l) as [ds'|e] eqn:Hl; simpl in Hmap; [|discriminate].
  injection Hmap as <-. simpl in Hnil. apply app_eq_nil in Hnil as [-> Hds].
  destruct Ha as [<-|Ha]; [assumption|]. eapply IH; eauto.
Qed.

Lemma in_enumerate_from {A : Type} (l : list A) (k : nat) (a : A) :
  In a l -> exists i, In (i, a) (combine (seq k (List.length l)) l).
Proof.
  revert k; induction l as [|x l IH]; simpl; intros k Ha; [contradiction|].
  destruct Ha as [<-|Ha].
  - exists k; now left.
  - destruct (IH (S k) Ha) as [i Hi]. exists i; now right.
Qed.

Lemma in_enumerate {A : Type} (l : list A) (a : A) :
  In a l -> exists i, In (i, a) (enumerate l).
Proof. apply in_enumerate_from. Qed.

Lemma forallb_In {A : Type} (f : A -> bool) (l : list A) (a : A) :
  forallb f l = true -> In a l -> f a = true.
Proof. intros H Ha. rewrite forallb_forall in H. auto. Qed.

Section ValidatedRecords.

Variable float_of_str : string -> option float.

Lemma value_errors_nil (i : nat) (team : dict) (field : string) :
  In field numeric_fields ->
  has_key field team = true ->
  value_errors float_of_str i team field = Ok [] ->
  exists value, field_float float_of_str team field = Ok value
                /\ value_ok field value = true.
Proof.
  intros Hfield Hkey Herrs.
  unfold value_errors, check_value, field_float, getitem, has_key in *.
  destruct (get team field) as [raw|]; [|discriminate].
  cbn [bind] in *.
  destruct (py_float float_of_str raw) as [value|e].
  - exists value; split; [reflexivity|].
    unfold value_ok.
    destruct (mem field ["current_staff"; "queries_per_day"]).
    { destruct (negb (is_integer value) || fle value (float_of_Z 0));
        [no_errors Herrs|reflexivity]. }
    destruct (mem field ["average_query_time"; "shift_hours"]).
    { destruct (fle value (float_of_Z 0)); [no_errors Herrs|reflexivity]. }
    destruct (mem field percentage_fields); [|reflexivity].
    destruct (flt value (float_of_Z 0) || flt (float_of_Z 100) value);
      [no_errors Herrs|reflexivity].
  - destruct e; no_errors Herrs.
Qed.

(** Every record of a batch that passed validation is valid. *)
Lemma validated_record (teams : list dict) (rep : list string) (team : dict) :
  validate_data float_of_str teams = Ok (rep, []) ->
  In team teams ->
  record_valid float_of_str team.
Proof.
  intros Hval Hin.
  assert (Hne : teams <> []) by (intros ->; contradiction).
  rewrite (validate_data_nonempty float_of_str teams Hne) in Hval.
  destruct (all_value_errors float_of_str teams) as [verrs|e] eqn:Hverrs;
    [|discriminate].
  cbv zeta in Hval. unfold bind in Hval.
  injection Hval as _ Herrs.
  apply app_eq_nil in Herrs as [Hmissing ->].
  assert (Hkeys : forall field, In field valid_fields -> has_key field team = true).
  { intros field Hfield.
    apply (forallb_In _ teams); [|assumption].
    apply missing_errors_nil.
    exact (flat_map_eq_nil (missing_errors teams) valid_fields Hmissing field Hfield). }
  split.
  - apply Hkeys; simpl; auto.
  - intros field Hfield.
    destruct (in_enumerate teams team Hin) as [i Hi].
    unfold all_value_errors in Hverrs.
    destruct (map_res _ (enumerate teams)) as [ds|e] eqn:Hrows; [|discriminate].
    injection Hverrs as Hds.
    pose proof (map_res_concat_nil _ _ _ Hrows Hds (i, team) Hi) as Hrow.
    unfold row_errors in Hrow.
    destruct (map_res _ numeric_fields) as [dd|e] eqn:Hcols; [|discriminate].
    injection Hrow as Hdd.
    apply (value_errors_nil i).
    + assumption.
    + apply Hkeys. simpl in Hfield |- *. tauto.
    + apply (map_res_concat_nil _ _ _ Hcols Hdd field Hfield).
Qed.

End ValidatedRecords.

(** ** Dictionaries *)

Lemma mem_cons (k k' : string) (seen : list string) :
  mem k (k' :: seen) = String.eqb k k' || mem k seen.
Proof. reflexivity. Qed.

Lemma in_items_from (seen : list string) (d : dict) (k : string) (v : PyVal) :
  In (k, v) (items_from seen d) -> mem k seen = false /\ get d k = Some v.
Proof.
  revert seen; induction d as [|[k' v'] d IH]; simpl; intros seen Hin;
    [contradiction|].
  destruct (mem k' seen) eqn:Hseen.
  - destruct (IH _ Hin) as [Hk Hget]. split; [assumption|].
    destruct (String.eqb_spec k k') as [->|_]; [congruence|assumption].
  - destruct Hin as [Heq|Hin].
    + injection Heq as -> ->. now rewrite String.eqb_refl.
    + destruct (IH _ Hin) as [Hk Hget]. rewrite mem_cons in Hk.
      apply orb_false_elim in Hk as [Hkk Hk]. now rewrite Hkk.
Qed.

Lemma get_items_from (seen : list string) (d : dict) (k : string) :
  mem k seen = false -> get (items_from seen d) k = get d k.
Proof.
  revert seen; induction d as [|[k' v'] d IH]; simpl; intros seen Hk;
    [reflexivity|].
  destruct (mem k' seen) eqn:Hseen.
  - destruct (String.eqb_spec k k') as [->|_]; [congruence|now apply IH].
  - simpl. destruct (String.eqb k k') eqn:Hkk; [reflexivity|].
    apply IH. now rewrite mem_cons, Hkk.
Qed.

Lemma get_items (d : dict) (k : string) : get (items d) k = get d k.
Proof. now apply get_items_from. Qed.

Lemma in_items_get (d : dict) (k : string) (v : PyVal) :
  In (k, v) (items d) -> get d k = Some v.
Proof. intros Hin. now apply in_items_from in Hin. Qed.

(** ** The metrics of a valid record *)

Lemma metrics_of_ext {F : Type} `{PyNumber F} (item1 item2 : string -> Res F)
    (tid : Res PyVal) :
  (forall k, In k numeric_fields -> item1 k = item2 k) ->
  metrics_of item1 tid = metrics_of item2 tid.
Proof.
  intros Hext. unfold metrics_of.
  rewrite !Hext by (simpl; tauto).
  reflexivity.
Qed.

Section ValidMetrics.

Variable float_of_str : string -> option float.

Local Abbreviation convert := (convert_item float_of_str).

Lemma map_res_convert (l : list (string * PyVal)) :
  (forall k v, In (k, v) l -> mem k numeric_fields = true ->
     exists x, py_float float_of_str v = Ok x) ->
  exists team_data,
    map_res convert l = Ok team_data
    /\ forall k,
         get team_data k =
         match get l k with
         | Some v =>
             Some (if mem k numeric_fields
                   then match py_float float_of_str v with
                        | Ok x => PyFloat x
                        | Raise _ => v
                        end
                   else v)
         | None => None
         end.
Proof.
  induction l as [|[k0 v0] l IH]; intros Hnum.
  - exists []. split; reflexivity.
  - destruct IH as [td [Hmap Hget]].
    { intros k v Hin; apply Hnum; now right. }
    cbn [map_res]. rewrite Hmap. unfold convert_item.
    destruct (mem k0 numeric_fields) eqn:Hk0.
    + destruct (Hnum k0 v0 (or_introl eq_refl) Hk0) as [x Hx]. rewrite Hx.
      cbn [bind]. eexists; split; [reflexivity|].
      intros k; cbn [get]. destruct (String.eqb_spec k k0) as [->|_].
      * now rewrite Hk0, Hx.
      * apply Hget.
    + cbn [bind]. eexists; split; [reflexivity|].
      intros k; cbn [get]. destruct (String.eqb_spec k k0) as [->|_].
      * now rewrite Hk0.
      * apply Hget.
Qed.

(** On a valid record [calculate_metrics] is the formula chain over the
    six converted numbers. *)
Lemma calculate_metrics_valid (team : dict) :
  record_valid float_of_str team ->
  exists tid cs q t h a r,
    get team "team_id" = Some tid
    /\ (field_float float_of_str team "current_staff" = Ok cs
        /\ value_ok "current_staff" cs = true)
    /\ (field_float float_of_str team "queries_per_day" = Ok q
        /\ value_ok "queries_per_day" q = true)
    /\ (field_float float_of_str team "average_query_time" = Ok t
        /\ value_ok "average_query_time" t = true)
    /\ (field_float float_of_str team "shift_hours" = Ok h
        /\ value_ok "shift_hours" h = true)
    /\ (field_float float_of_str team "available_capacity" = Ok a
        /\ value_ok "available_capacity" a = true)
    /\ (field_float float_of_str team "remote_infrastructure_efficiency" = Ok r
        /\ value_ok "remote_infrastructure_efficiency" r = true)
    /\ calculate_metrics float_of_str team
       = metrics_of (record_item cs q t h a r) (Ok tid).
Proof.
  intros [Hid Hnum].
  unfold has_key in Hid.
  destruct (get team "team_id") as [tid|] eqn:Htid; [clear Hid|discriminate].
  destruct (Hnum "current_staff") as [cs Hcs]; [simpl; tauto|].
  destruct (Hnum "queries_per_day") as [q Hq]; [simpl; tauto|].
  destruct (Hnum "average_query_time") as [t Ht]; [simpl; tauto|].
  destruct (Hnum "shift_hours") as [h Hh]; [simpl; tauto|].
  destruct (Hnum "available_capacity") as [a Ha]; [simpl; tauto|].
  destruct (Hnum "remote_infrastructure_efficiency") as [r Hr]; [simpl; tauto|].
  exists tid, cs, q, t, h, a, r.
  split; [reflexivity|].
  repeat (split; [assumption|]).
  destruct (map_res_convert (items team)) as [td [Hmap Hget]].
  { intros k v Hin Hk. apply in_items_get in Hin.
    assert (Hfield : In k numeric_fields).
    { unfold mem in Hk. apply existsb_exists in Hk as [k' [Hin' Heq]].
      apply String.eqb_eq in Heq. now subst. }
    destruct (Hnum k Hfield) as [x [Hx _]].
    unfold field_float, getitem in Hx. rewrite Hin in Hx. now exists x. }
  assert (Hitem : forall k x,
             In k numeric_fields ->
             field_float float_of_str team k = Ok x ->
             (v <- getitem td k ;; as_float v) = Ok x).
  { intros k x Hk Hx. unfold getitem. rewrite Hget, get_items.
    unfold field_float, getitem in Hx.
    destruct (get team k) as [v|]; [|discriminate].
    cbn [bind] in Hx. rewrite Hx.
    replace (mem k numeric_fields) with true; [reflexivity|].
    symmetry. apply existsb_exists. exists k. split; [assumption|].
    apply String.eqb_refl. }
  unfold calculate_metrics. fold convert. rewrite Hmap. cbn [bind].
  replace (getitem td "team_id") with (@Ok PyVal tid).
  - apply metrics_of_ext. intros k Hk.
    simpl in Hk.
    destruct Hk as [<-|[<-|[<-|[<-|[<-|[<-|[]]]]]]]; cbv beta.
    + now rewrite (Hitem _ cs) by (simpl; tauto).
    + now rewrite (Hitem _ q) by (simpl; tauto).
    + now rewrite (Hitem _ t) by (simpl; tauto).
    + now rewrite (Hitem _ h) by (simpl; tauto).
    + now rewrite (Hitem _ a) by (simpl; tauto).
    + now rewrite (Hitem _ r) by (simpl; tauto).
  - unfold getitem. rewrite Hget, get_items, Htid. reflexivity.
Qed.

End ValidMetrics.

(** ** The formula chain on floats *)

Lemma fle_false_feq (x y : float) : fle x y = false -> feq x y = false.
Proof.
  unfold fle, feq, SFleb, SFeqb.
  destruct (SFcompare x y) as [[]|]; congruence.
Qed.

Lemma positive_nonzero (field : string) (x : float) :
  In field positive_fields -> value_ok field x = true ->
  feq x (float_of_Z 0) = false.
Proof.
  intros Hfield Hok. apply fle_false_feq.
  simpl in Hfield.
  destruct Hfield as [<-|[<-|[<-|[<-|[]]]]]; unfold value_ok in Hok;
    cbn [mem existsb String.eqb Ascii.eqb Bool.eqb orb andb] in Hok;
    rewrite ?negb_orb in Hok;
    try (apply andb_prop in Hok as [_ Hok]);
    now apply negb_true_iff in Hok.
Qed.

(** With a non-zero [current_staff] the chain raises exactly at a zero
    [agent_capacity] or a zero [required_staff], and otherwise returns
    [float_metrics]. *)
Lemma metrics_of_float (tid : PyVal) (cs q t h a r : float) :
  feq cs (float_of_Z 0) = false ->
  metrics_of (record_item cs q t h a r) (Ok tid)
  = if feq (agent_capacity_of h a) (float_of_Z 0)
       || feq (required_staff_of q t h a) (float_of_Z 0)
    then Raise ZeroDivisionError
    else Ok (float_metrics tid cs q t h a r).
Proof.
  intros Hcs.
  unfold metrics_of, record_item, required_staff_of, agent_capacity_of.
  cbn [String.eqb Ascii.eqb Bool.eqb bind].
  cbn [num_truediv num_mul num_add num_sub num_of_int num_of_decimal PyNumber_float].
  unfold float_truediv at 1. rewrite Hcs. cbn [bind].
  unfold float_truediv at 1.
  change (feq (float_of_Z 100) (float_of_Z 0)) with false. cbn [bind].
  unfold float_truediv.
  destruct (feq (fmul (fmul h (float_of_Z 60)) (fdiv a (float_of_Z 100)))
                (float_of_Z 0)); cbn [bind orb]; [reflexivity|].
  destruct (feq (fdiv (fmul q t)
                      (fmul (fmul h (float_of_Z 60)) (fdiv a (float_of_Z 100))))
                (float_of_Z 0)); cbn [bind]; reflexivity.
Qed.

Lemma float_metrics_formula_chain (tid : PyVal) (cs q t h a r : float) :
  spec_formula_chain (float_metrics tid cs q t h a r).
Proof. unfold spec_formula_chain, float_metrics; cbn; repeat split. Qed.

Lemma float_metrics_status (tid : PyVal) (cs q t h a r : float) :
  let m := float_metrics tid cs q t h a r in
  (meets_thresholds m /\ status m = "Optimal")
  \/ (~ meets_thresholds m /\ status m = "Needs Adjustment").
Proof.
  intros m. unfold meets_thresholds.
  assert (Hopt : status m
                 = if is_optimal (composite_score m) (staffing_efficiency_ratio m)
                        (utilization_rate m)
                   then "Optimal" else "Needs Adjustment") by reflexivity.
  rewrite Hopt. unfold is_optimal.
  cbn [num_le num_of_int num_of_decimal PyNumber_float].
  destruct (fle (float_of_Z 60) (composite_score m));
    destruct (fle (float_of_ratio 9 10) (staffing_efficiency_ratio m));
    destruct (fle (staffing_efficiency_ratio m) (float_of_ratio 11 10));
    destruct (fle (utilization_rate m) (float_of_Z 90));
    cbn [andb]; (left; now auto) || (right; split; [|reflexivity]);
    intros [H1 [[H2 H3] H4]]; discriminate.
Qed.

Section ValidatedMetrics.

Variable float_of_str : string -> option float.

(** What [calculate_metrics] does on a record of a batch that passed
    validation. *)
Lemma calculate_metrics_validated (teams : list dict) (rep : list string)
    (team : dict) :
  validate_data float_of_str teams = Ok (rep, []) ->
  In team teams ->
  exists tid cs q t h a r,
    get team "team_id" = Some tid
    /\ field_float float_of_str team "current_staff" = Ok cs
    /\ field_float float_of_str team "queries_per_day" = Ok q
    /\ field_float float_of_str team "average_query_time" = Ok t
    /\ field_float float_of_str team "shift_hours" = Ok h
    /\ field_float float_of_str team "available_capacity" = Ok a
    /\ field_float float_of_str team "remote_infrastructure_efficiency" = Ok r
    /\ calculate_metrics float_of_str team
       = if feq (agent_capacity_of h a) (float_of_Z 0)
            || feq (required_staff_of q t h a) (float_of_Z 0)
         then Raise ZeroDivisionError
         else Ok (float_metrics tid cs q t h a r).
Proof.
  intros Hval Hin.
  pose proof (validated_record float_of_str teams rep team Hval Hin) as Hrec.
  destruct (calculate_metrics_valid float_of_str team Hrec)
    as (tid & cs & q & t & h & a & r & Htid & [Hcs Hcs'] & [Hq _] & [Ht _]
        & [Hh _] & [Ha _] & [Hr _] & Hcalc).
  exists tid, cs, q, t, h, a, r.
  repeat (split; [assumption|]).
  rewrite Hcalc. apply metrics_of_float.
  apply (positive_nonzero "current_staff"); [simpl; tauto|assumption].
Qed.

(** C2: for a record of a batch that passed validation,
    [calculate_metrics] converts the six numeric fields and applies the
    twelve formulas of the specification in order; the [TeamMetrics] it
    returns retains the six inputs and every intermediate value.  The one
    way it does not return is the [ZeroDivisionError] of a zero
    [agent_capacity] or [required_staff]. *)
Theorem calculate_metrics_formula_chain (teams : list dict) (rep : list string)
    (team : dict) :
  validate_data float_of_str teams = Ok (rep, []) ->
  In team teams ->
  exists cs q t h a r,
    field_float float_of_str team "current_staff" = Ok cs
    /\ field_float float_of_str team "queries_per_day" = Ok q
    /\ field_float float_of_str team "average_query_time" = Ok t
    /\ field_float float_of_str team "shift_hours" = Ok h
    /\ field_float float_of_str team "available_capacity" = Ok a
    /\ field_float float_of_str team "remote_infrastructure_efficiency" = Ok r
    /\ if feq (agent_capacity_of h a) (float_of_Z 0)
          || feq (required_staff_of q t h a) (float_of_Z 0)
       then calculate_metrics float_of_str team = Raise ZeroDivisionError
       else exists m,
           calculate_metrics float_of_str team = Ok m
           /\ current_staff m = cs
           /\ queries_per_day m = q
           /\ average_query_time m = t
           /\ shift_hours m = h
           /\ available_capacity m = a
           /\ remote_infrastructure_efficiency m = r
           /\ spec_formula_chain m.
Proof.
  intros Hval Hin.
  destruct (calculate_metrics_validated teams rep team Hval Hin)
    as (tid & cs & q & t & h & a & r & _ & Hcs & Hq & Ht & Hh & Ha & Hr & Hcalc).
  exists cs, q, t, h, a, r.
  repeat (split; [assumption|]).
  destruct (feq (agent_capacity_of h a) (float_of_Z 0)
            || feq (required_staff_of q t h a) (float_of_Z 0)).
  - assumption.
  - exists (float_metrics tid cs q t h a r).
    split; [assumption|].
    repeat (split; [reflexivity|]).
    apply float_metrics_formula_chain.
Qed.

(** C3: for a record of a batch that passed validation,
    [calculate_metrics] raises exactly at a zero [agent_capacity] or
    [required_staff]; in every other case it returns, and the status it
    gives is "Optimal" if and only if the composite score is at least 60,
    the staffing efficiency ratio lies between 0.9 and 1.1 and the
    utilization rate is at most 90, all three at once. *)
Theorem optimal_iff_thresholds (teams : list dict) (rep : list string)
    (team : dict) :
  validate_data float_of_str teams = Ok (rep, []) ->
  In team teams ->
  exists q t h a,
    field_float float_of_str team "queries_per_day" = Ok q
    /\ field_float float_of_str team "average_query_time" = Ok t
    /\ field_float float_of_str team "shift_hours" = Ok h
    /\ field_float float_of_str team "available_capacity" = Ok a
    /\ if feq (agent_capacity_of h a) (float_of_Z 0)
          || feq (required_staff_of q t h a) (float_of_Z 0)
       then calculate_metrics float_of_str team = Raise ZeroDivisionError
       else exists m,
           calculate_metrics float_of_str team = Ok m
           /\ (status m = "Optimal" <-> meets_thresholds m).
Proof.
  intros Hval Hin.
  destruct (calculate_metrics_validated teams rep team Hval Hin)
    as (tid & cs & q & t & h & a & r & _ & _ & Hq & Ht & Hh & Ha & _ & Hcalc).
  exists q, t, h, a.
  repeat (split; [assumption|]).
  destruct (feq (agent_capacity_of h a) (float_of_Z 0)
            || feq (required_staff_of q t h a) (float_of_Z 0)).
  - assumption.
  - exists (float_metrics tid cs q t h a r). split; [assumption|].
    destruct (float_metrics_status tid cs q t h a r) as [[Hm Hs]|[Hm Hs]];
      rewrite Hs; split; intros H; try assumption; try reflexivity;
      try discriminate; contradiction.
Qed.

(** C4, amended: the status of a record of a batch that passed validation
    is the string "Optimal" when the three thresholds hold and the string
    "Needs Adjustment", with a space, otherwise. *)
Theorem status_optimal_or_needs_adjustment (teams : list dict) (rep : list string)
    (team : dict) :
  validate_data float_of_str teams = Ok (rep, []) ->
  In team teams ->
  (exists m, calculate_metrics float_of_str team = Ok m
             /\ ((meets_thresholds m /\ status m = "Optimal")
                 \/ (~ meets_thresholds m /\ status m = "Needs Adjustment")))
  \/ calculate_metrics float_of_str team = Raise ZeroDivisionError.
Proof.
  intros Hval Hin.
  destruct (calculate_metrics_validated teams rep team Hval Hin)
    as (tid & cs & q & t & h & a & r & _ & _ & _ & _ & _ & _ & _ & Hcalc).
  destruct (feq (agent_capacity_of h a) (float_of_Z 0)
            || feq (required_staff_of q t h a) (float_of_Z 0)).
  - now right.
  - left. exists (float_metrics tid cs q t h a r). split; [assumption|].
    apply float_metrics_status.
Qed.

End ValidatedMetrics.

(** The sample batch of [main] passes validation. *)
Lemma sample_teams_validated :
  validate_data ascii_float_of_str sample_teams
  = Ok (report_lines sample_teams [], []).
Proof. vm_compute. reflexivity. Qed.

Lemma calculate_metrics_formula_chain_witness :
  validate_data ascii_float_of_str sample_teams = Ok (report_lines sample_teams [], [])
  /\ In TeamOmega sample_teams
  /\ exists m, calculate_metrics ascii_float_of_str TeamOmega = Ok m
               /\ current_staff m = float_of_Z 10
               /\ spec_formula_chain m.
Proof.
  assert (Hval : validate_data ascii_float_of_str sample_teams
                 = Ok (report_lines sample_teams [], []))
    by (vm_compute; reflexivity).
  assert (Hin : In TeamOmega sample_teams) by (simpl; tauto).
  split; [exact Hval|]. split; [exact Hin|].
  destruct (calculate_metrics_formula_chain ascii_float_of_str sample_teams _
              TeamOmega Hval Hin)
    as (cs & q & t & h & a & r & Hcs & Hq & Ht & Hh & Ha & Hr & Hchain).
  vm_compute in Hcs, Hq, Ht, Hh, Ha, Hr.
  injection Hcs as <-. injection Hq as <-. injection Ht as <-.
  injection Hh as <-. injection Ha as <-. injection Hr as <-.
  match type of Hchain with
  | if ?c then _ else _ =>
      assert (Hc : c = false) by (vm_compute; reflexivity);
      rewrite Hc in Hchain
  end.
  destruct Hchain as (m & Hm & Hcs & _ & _ & _ & _ & _ & Hspec).
  exists m. split; [exact Hm|]. split; [exact Hcs|exact Hspec].
Defined.

Lemma optimal_iff_thresholds_witness :
  validate_data ascii_float_of_str sample_teams = Ok (report_lines sample_teams [], [])
  /\ In TeamSigma sample_teams
  /\ exists m, calculate_metrics ascii_float_of_str TeamSigma = Ok m
               /\ (status m = "Optimal" <-> meets_thresholds m)
               /\ status m = "Needs Adjustment"
               /\ fle (staffing_efficiency_ratio m) (float_of_ratio 11 10) = false.
Proof.
  assert (Hval : validate_data ascii_float_of_str sample_teams
                 = Ok (report_lines sample_teams [], []))
    by (vm_compute; reflexivity).
  assert (Hin : In TeamSigma sample_teams) by (simpl; tauto).
  split; [exact Hval|]. split; [exact Hin|].
  destruct (optimal_iff_thresholds ascii_float_of_str sample_teams _ TeamSigma
              Hval Hin)
    as (q & t & h & a & Hq & Ht & Hh & Ha & Hstatus).
  vm_compute in Hq, Ht, Hh, Ha.
  injection Hq as <-. injection Ht as <-. injection Hh as <-. injection Ha as <-.
  match type of Hstatus with
  | if ?c then _ else _ =>
      assert (Hc : c = false) by (vm_compute; reflexivity);
      rewrite Hc in Hstatus
  end.
  destruct Hstatus as (m & Hm & Hiff).
  exists m. split; [exact Hm|]. split; [exact Hiff|].
  assert (Hm' : calculate_metrics ascii_float_of_str TeamSigma = Ok m) by exact Hm.
  vm_compute in Hm'. injection Hm' as <-.
  split; vm_compute; reflexivity.
Defined.

Lemma status_optimal_or_needs_adjustment_witness :
  validate_data ascii_float_of_str sample_teams = Ok (report_lines sample_teams [], [])
  /\ In TeamTheta sample_teams
  /\ ((exists m, calculate_metrics ascii_float_of_str TeamTheta = Ok m
                 /\ ((meets_thresholds m /\ status m = "Optimal")
                     \/ (~ meets_thresholds m /\ status m = "Needs Adjustment")))
      \/ calculate_metrics ascii_float_of_str TeamTheta = Raise ZeroDivisionError).
Proof.
  assert (Hval : validate_data ascii_float_of_str sample_teams
                 = Ok (report_lines sample_teams [], []))
    by (vm_compute; reflexivity).
  assert (Hin : In TeamTheta sample_teams) by (simpl; tauto).
  split; [exact Hval|]. split; [exact Hin|].
  exact (status_optimal_or_needs_adjustment ascii_float_of_str sample_teams _
           TeamTheta Hval Hin).
Defined.

(** C4 as stated fails: the record of TeamOmega passes validation, misses
    the thresholds, and its status is not the string "NeedsAdjustment". *)
Lemma status_is_not_NeedsAdjustment :
  validate_data ascii_float_of_str [TeamOmega] = Ok (report_lines [TeamOmega] [], [])
  /\ exists m, calculate_metrics ascii_float_of_str TeamOmega = Ok m
               /\ ~ meets_thresholds m
               /\ status m = "Needs Adjustment"
               /\ status m <> "NeedsAdjustment".
Proof.
  split; [vm_compute; reflexivity|].
  eexists. split; [vm_compute; reflexivity|].
  split; [|split; [reflexivity|discriminate]].
  intros [_ [[_ H] _]]. vm_compute in H. discriminate.
Qed.

(** ** The sample record *)

(** C8, amended: for the record of TeamOmega (10 staff, 150 queries a day
    of 3.0 minutes, shifts of 8 hours, 70 percent capacity, 80 percent
    efficiency) the workload per agent is 45.0, the agent capacity 336.0,
    the utilization rate 13.39 to two places, and the composite score
    84.625. *)
Theorem sample_record_metrics :
  forall float_of_str : string -> option float,
  exists m,
    calculate_metrics float_of_str TeamOmega = Ok m
    /\ workload_per_agent m = float_of_Z 45
    /\ agent_capacity m = float_of_Z 336
    /\ rounds_to (utilization_rate m) (1339 # 100)
    /\ composite_score m = float_of_ratio 677 8
    /\ (float_to_Q (composite_score m) == 677 # 8)%Q.
Proof.
  intros float_of_str. eexists. split; [vm_compute; reflexivity|].
  repeat split; try (vm_compute; reflexivity).
  vm_compute. discriminate.
Qed.

(** C8 as stated fails: the composite score of that record is not 62.26
    to two places. *)
Lemma sample_composite_score_is_not_62_26 :
  exists m,
    calculate_metrics ascii_float_of_str TeamOmega = Ok m
    /\ ~ rounds_to (composite_score m) (6226 # 100).
Proof.
  eexists. split; [vm_compute; reflexivity|].
  intros [_ H]. vm_compute in H. apply H. reflexivity.
Qed.

(** ** The round trip of steps 1 and 2 *)

(** C9 as stated fails: for one query of one minute shared by 49 agents
    the record passes validation, and the workload per agent times the
    staff is not the workload of step 1. *)
Lemma workload_round_trip_fails :
  validate_data ascii_float_of_str [odd_staff_team]
  = Ok (report_lines [odd_staff_team] [], [])
  /\ exists m,
      calculate_metrics ascii_float_of_str odd_staff_team = Ok m
      /\ feq (fmul (workload_per_agent m) (current_staff m)) (workload_step1 m) = false
      /\ fmul (workload_per_agent m) (current_staff m) <> workload_step1 m.
Proof.
  split; [vm_compute; reflexivity|].
  eexists. split; [vm_compute; reflexivity|].
  split; [vm_compute; reflexivity|].
  vm_compute. discriminate.
Qed.

(** The round trip fails by underflow too: the workload of step 1 is the
    smallest positive float, its half rounds to zero, and the product with
    the staff is zero. *)
Lemma workload_round_trip_underflows :
  validate_data ascii_float_of_str [underflow_team]
  = Ok (report_lines [underflow_team] [], [])
  /\ exists m,
      calculate_metrics ascii_float_of_str underflow_team = Ok m
      /\ workload_step1 m = S754_finite false 1 (-1074)
      /\ fmul (workload_per_agent m) (current_staff m) = S754_zero false
      /\ feq (fmul (workload_per_agent m) (current_staff m)) (workload_step1 m) = false.
Proof.
  split; [vm_compute; reflexivity|].
  eexists. split; [vm_compute; reflexivity|].
  repeat split; vm_compute; reflexivity.
Qed.

(** And by overflow: the workload of step 1 is the largest float, its
    third is rounded up, and three times that is infinite. *)
Lemma workload_round_trip_overflows :
  validate_data ascii_float_of_str [overflow_trip_team]
  = Ok (report_lines [overflow_trip_team] [], [])
  /\ exists m,
      calculate_metrics ascii_float_of_str overflow_trip_team = Ok m
      /\ workload_step1 m = S754_finite false 9007199254740991 971
      /\ fmul (workload_per_agent m) (current_staff m) = S754_infinity false.
Proof.
  split; [vm_compute; reflexivity|].
  eexists. split; [vm_compute; reflexivity|].
  split; vm_compute; reflexivity.
Qed.

(** *** Products and quotients that are binary64 numbers

    A mantissa [m] with exponent [e] stands for [m * 2 ^ e].  When the
    exact product or quotient of two binary64 numbers is a binary64 number
    itself, [SFmul] and [SFdiv] return it: the rounding has nothing to
    round. *)

Lemma digits2_pos_bounds (m : positive) :
  (2 ^ (Zpos (digits2_pos m) - 1) <= Zpos m < 2 ^ Zpos (digits2_pos m))%Z.
Proof.
  induction m as [m IH|m IH|]; cbn [digits2_pos].
  - rewrite Pos2Z.inj_succ.
    replace (Z.succ (Zpos (digits2_pos m)) - 1)%Z
      with (Z.succ (Zpos (digits2_pos m) - 1)) by lia.
    rewrite !Z.pow_succ_r by lia. lia.
  - rewrite Pos2Z.inj_succ.
    replace (Z.succ (Zpos (digits2_pos m)) - 1)%Z
      with (Z.succ (Zpos (digits2_pos m) - 1)) by lia.
    rewrite !Z.pow_succ_r by lia. lia.
  - simpl. lia.
Qed.

Section ExactOperations.

Local Open Scope Z_scope.

Lemma digits2_pos_unique (m : positive) (k : Z) :
  2 ^ (k - 1) <= Zpos m < 2 ^ k -> Zpos (digits2_pos m) = k.
Proof.
  intros [Hlo Hhi]. pose proof (digits2_pos_bounds m) as [Dlo Dhi].
  set (d := Zpos (digits2_pos m)) in *.
  assert (Hd : 0 < d) by (subst d; lia).
  assert (Hk : 0 < k).
  { destruct (Z.lt_trichotomy k 0) as [Hn|[->|Hp]]; [|simpl in Hhi; lia|assumption].
    rewrite (Z.pow_neg_r 2 k) in Hhi by assumption. lia. }
  destruct (Z.lt_trichotomy d k) as [Hlt|[Heq|Hgt]]; [|assumption|].
  - exfalso. assert (2 ^ d <= 2 ^ (k - 1)) by (apply Z.pow_le_mono_r; lia). lia.
  - exfalso. assert (2 ^ k <= 2 ^ (d - 1)) by (apply Z.pow_le_mono_r; lia). lia.
Qed.

(** The number of bits of a mantissa shifted left. *)
Lemma digits2_pos_shift (m p : positive) (n : Z) :
  0 <= n -> Zpos p = Zpos m * 2 ^ n ->
  Zpos (digits2_pos p) = Zpos (digits2_pos m) + n.
Proof.
  intros Hn Hp. apply digits2_pos_unique. rewrite Hp.
  pose proof (digits2_pos_bounds m) as [Dlo Dhi].
  replace (Zpos (digits2_pos m) + n - 1) with (Zpos (digits2_pos m) - 1 + n) by lia.
  rewrite !Z.pow_add_r by lia.
  assert (0 < 2 ^ n) by (apply Z.pow_pos_nonneg; lia).
  split; [apply Z.mul_le_mono_nonneg_r; lia|apply Z.mul_lt_mono_pos_r; lia].
Qed.

(** The product of two mantissas has at least one bit less than both
    together, and no more than both together. *)
Lemma digits2_pos_mul (m1 m2 : positive) :
  Zpos (digits2_pos m1) + Zpos (digits2_pos m2) - 1
  <= Zpos (digits2_pos (m1 * m2))
  <= Zpos (digits2_pos m1) + Zpos (digits2_pos m2).
Proof.
  pose proof (digits2_pos_bounds m1) as [L1 H1].
  pose proof (digits2_pos_bounds m2) as [L2 H2].
  pose proof (digits2_pos_bounds (m1 * m2)) as [L H].
  rewrite Pos2Z.inj_mul in L, H.
  set (d1 := Zpos (digits2_pos m1)) in *. set (d2 := Zpos (digits2_pos m2)) in *.
  set (d := Zpos (digits2_pos (m1 * m2))) in *.
  assert (0 < d1) by (subst d1; lia). assert (0 < d2) by (subst d2; lia).
  assert (0 < d) by (subst d; lia).
  assert (Hlow : 2 ^ (d1 - 1 + (d2 - 1)) <= Zpos m1 * Zpos m2).
  { rewrite Z.pow_add_r by lia. apply Z.mul_le_mono_nonneg; try lia;
      apply Z.pow_nonneg; lia. }
  assert (Hhigh : Zpos m1 * Zpos m2 < 2 ^ (d1 + d2)).
  { rewrite Z.pow_add_r by lia. apply Z.mul_lt_mono_nonneg; lia. }
  split.
  - destruct (Z.le_gt_cases (d1 + d2 - 1) d) as [|Hlt]; [assumption|exfalso].
    assert (2 ^ d <= 2 ^ (d1 - 1 + (d2 - 1))) by (apply Z.pow_le_mono_r; lia). lia.
  - destruct (Z.le_gt_cases d (d1 + d2)) as [|Hlt]; [assumption|exfalso].
    assert (2 ^ (d1 + d2) <= 2 ^ (d - 1)) by (apply Z.pow_le_mono_r; lia). lia.
Qed.

(** Shifting out [n] zero bits is exact. *)
Lemma iter_shr_1_exact (n : positive) :
  forall m : Z,
    iter_pos shr_1 n {| shr_m := m * 2 ^ Zpos n; shr_r := false; shr_s := false |}
    = {| shr_m := m; shr_r := false; shr_s := false |}.
Proof.
  assert (Hone : forall m : Z,
             shr_1 {| shr_m := m * 2; shr_r := false; shr_s := false |}
             = {| shr_m := m; shr_r := false; shr_s := false |}).
  { intros [|p|p]; [reflexivity| |];
      rewrite Z.mul_comm; reflexivity. }
  induction n as [n IH|n IH|]; intros m; cbn [iter_pos].
  - replace (m * 2 ^ Zpos n~1) with (m * 2 ^ Zpos n * 2 ^ Zpos n * 2).
    + now rewrite Hone, !IH.
    + replace (Zpos n~1) with (Zpos n + Zpos n + 1) by lia.
      rewrite !Z.pow_add_r by lia. change (2 ^ 1) with 2. ring.
  - replace (m * 2 ^ Zpos n~0) with (m * 2 ^ Zpos n * 2 ^ Zpos n).
    + now rewrite !IH.
    + replace (Zpos n~0) with (Zpos n + Zpos n) by lia.
      rewrite !Z.pow_add_r by lia. ring.
  - apply Hone.
Qed.

Lemma shr_exact (m e n : Z) :
  0 <= n ->
  shr {| shr_m := m * 2 ^ n; shr_r := false; shr_s := false |} e n
  = ({| shr_m := m; shr_r := false; shr_s := false |}, e + n).
Proof.
  intros Hn. destruct n as [|n|n]; [| |lia].
  - now rewrite Z.mul_1_r, Z.add_0_r.
  - cbn [shr]. now rewrite iter_shr_1_exact.
Qed.

(** Rounding a number that is a binary64 number gives that number. *)
Lemma binary_round_aux_exact (s : bool) (m : positive) (e n : Z) :
  0 <= n ->
  bounded prec emax m (e + n) = true ->
  binary_round_aux prec emax s (Zpos m * 2 ^ n) e loc_Exact
  = S754_finite s m (e + n).
Proof.
  intros Hn Hb. unfold bounded in Hb. apply andb_prop in Hb as [Hcan Hmax].
  unfold canonical_mantissa in Hcan. apply Z.eqb_eq in Hcan.
  unfold binary_round_aux, shr_fexp. cbn [shr_record_of_loc].
  assert (Hpos : exists p, Zpos m * 2 ^ n = Zpos p).
  { assert (0 < 2 ^ n) by (apply Z.pow_pos_nonneg; lia).
    destruct (Zpos m * 2 ^ n) eqn:E; try lia. now eexists. }
  destruct Hpos as [p Hp].
  assert (Hd : Zdigits2 (Zpos m * 2 ^ n) = Zpos (digits2_pos m) + n).
  { rewrite Hp. cbn [Zdigits2]. now apply digits2_pos_shift. }
  rewrite Hd.
  replace (Zpos (digits2_pos m) + n + e) with (Zpos (digits2_pos m) + (e + n)) by lia.
  rewrite Hcan.
  replace (e + n - e) with n by lia.
  rewrite shr_exact by assumption.
  cbn [shr_m loc_of_shr_record round_nearest_even shr_record_of_loc Zdigits2].
  rewrite Hcan, Z.sub_diag. cbn [shr shr_m].
  now rewrite Hmax.
Qed.

(** What it means for [(m, e)] to be a binary64 number. *)
Lemma bounded_canonical (m : positive) (e : Z) :
  bounded prec emax m e = true ->
  e = Z.max (Zpos (digits2_pos m) + e - 53) (-1074) /\ e <= 971.
Proof.
  unfold bounded, canonical_mantissa, fexp, emin, prec, emax.
  intros H. apply andb_prop in H as [Hcan Hmax].
  apply Z.eqb_eq in Hcan. apply Z.leb_le in Hmax. split; [now symmetry|exact Hmax].
Qed.

(** Two scalings of the same equation between multiples of powers of two. *)
Lemma pow2_rescale (A B a b a' b' : Z) :
  0 <= a -> 0 <= b -> 0 <= a' -> 0 <= b' -> a - b = a' - b' ->
  A * 2 ^ a = B * 2 ^ b -> A * 2 ^ a' = B * 2 ^ b'.
Proof.
  intros Ha Hb Ha' Hb' Hd Heq.
  destruct (Z.le_gt_cases a a') as [Hle|Hgt].
  - replace a' with (a + (a' - a)) by lia. replace b' with (b + (a' - a)) by lia.
    rewrite !Z.pow_add_r by lia. rewrite !Z.mul_assoc, Heq. reflexivity.
  - replace a with (a' + (a - a')) in Heq by lia.
    replace b with (b' + (a - a')) in Heq by lia.
    rewrite !Z.pow_add_r, !Z.mul_assoc in Heq by lia.
    apply Z.mul_reg_r in Heq; [assumption|].
    apply Z.pow_nonzero; lia.
Qed.

(** The bits and exponent of both sides of such an equation add up to
    the same. *)
Lemma pow2_magnitude (p q : positive) (a b : Z) :
  0 <= a -> 0 <= b -> Zpos p * 2 ^ a = Zpos q * 2 ^ b ->
  Zpos (digits2_pos p) + a = Zpos (digits2_pos q) + b.
Proof.
  intros Ha Hb Heq.
  assert (Hpos : exists r, Zpos p * 2 ^ a = Zpos r).
  { assert (0 < 2 ^ a) by (apply Z.pow_pos_nonneg; lia).
    destruct (Zpos p * 2 ^ a) eqn:E; try lia. now eexists. }
  destruct Hpos as [r Hr].
  rewrite <- (digits2_pos_shift p r a Ha (eq_sym Hr)).
  rewrite Heq in Hr.
  now rewrite <- (digits2_pos_shift q r b Hb (eq_sym Hr)).
Qed.

(** A product that is a binary64 number is computed exactly. *)
Lemma SFmul_exact (sx sy : bool) (mx my mz : positive) (ex ey ez E : Z) :
  bounded prec emax mx ex = true ->
  bounded prec emax my ey = true ->
  bounded prec emax mz ez = true ->
  E <= ex + ey -> E <= ez ->
  Zpos mx * Zpos my * 2 ^ (ex + ey - E) = Zpos mz * 2 ^ (ez - E) ->
  SFmul prec emax (S754_finite sx mx ex) (S754_finite sy my ey)
  = S754_finite (xorb sx sy) mz ez.
Proof.
  intros Hx Hy Hz HE1 HE2 Heq.
  pose proof (bounded_canonical _ _ Hx) as [Cx _].
  pose proof (bounded_canonical _ _ Hy) as [Cy _].
  pose proof (bounded_canonical _ _ Hz) as [Cz _].
  pose proof (digits2_pos_mul mx my) as Hd.
  rewrite <- Pos2Z.inj_mul in Heq.
  pose proof (pow2_magnitude (mx * my) mz (ex + ey - E) (ez - E)
                ltac:(lia) ltac:(lia) Heq) as Hmag.
  assert (Hn : 0 <= ez - (ex + ey)) by lia.
  cbn [SFmul].
  assert (Hm : Zpos (mx * my) = Zpos mz * 2 ^ (ez - (ex + ey))).
  { rewrite <- (Z.mul_1_r (Zpos (mx * my))). change 1 with (2 ^ 0).
    apply (pow2_rescale _ _ (ex + ey - E) (ez - E)); first [lia|exact Heq]. }
  rewrite Hm.
  rewrite binary_round_aux_exact; try assumption.
  - f_equal. lia.
  - now replace (ex + ey + (ez - (ex + ey))) with ez by lia.
Qed.

Lemma new_location_exact (nb_steps : Z) : new_location nb_steps 0 = loc_Exact.
Proof. unfold new_location. now destruct (Z.even nb_steps). Qed.

(** A quotient that is a binary64 number is computed exactly. *)
Lemma SFdiv_exact (sx sy : bool) (mx my mz : positive) (ex ey ez E : Z) :
  bounded prec emax mx ex = true ->
  bounded prec emax my ey = true ->
  bounded prec emax mz ez = true ->
  E <= ez + ey -> E <= ex ->
  Zpos mz * Zpos my * 2 ^ (ez + ey - E) = Zpos mx * 2 ^ (ex - E) ->
  SFdiv prec emax (S754_finite sx mx ex) (S754_finite sy my ey)
  = S754_finite (xorb sx sy) mz ez.
Proof.
  intros Hx Hy Hz HE1 HE2 Heq.
  pose proof (bounded_canonical _ _ Hx) as [Cx _].
  pose proof (bounded_canonical _ _ Hy) as [Cy _].
  pose proof (bounded_canonical _ _ Hz) as [Cz _].
  pose proof (digits2_pos_mul mz my) as Hd.
  rewrite <- Pos2Z.inj_mul in Heq.
  pose proof (pow2_magnitude (mz * my) mx (ez + ey - E) (ex - E)
                ltac:(lia) ltac:(lia) Heq) as Hmag.
  cbn [SFdiv]. unfold SFdiv_core_binary. cbn [Zdigits2].
  unfold fexp, emin, prec, emax.
  set (e' := Z.min (Z.max (Zpos (digits2_pos mx) + ex - (Zpos (digits2_pos my) + ey) - 53)
                          (3 - 1024 - 53))
                   (ex - ey)).
  assert (Hs : 0 <= ex - ey - e') by (subst e'; lia).
  assert (Hk : 0 <= ez - e') by (subst e'; lia).
  assert (Hm' : match ex - ey - e' with
                | Zpos _ => Z.shiftl (Zpos mx) (ex - ey - e')
                | Z0 => Zpos mx
                | Zneg _ => 0
                end = Zpos mz * 2 ^ (ez - e') * Zpos my).
  { assert (Hsh : Zpos mx * 2 ^ (ex - ey - e') = Zpos mz * 2 ^ (ez - e') * Zpos my).
    { rewrite <- Z.mul_assoc, (Z.mul_comm (2 ^ _) (Zpos my)), Z.mul_assoc.
      rewrite <- Pos2Z.inj_mul. symmetry.
      apply (pow2_rescale _ _ (ez + ey - E) (ex - E)); first [lia|exact Heq]. }
    destruct (ex - ey - e') as [|s|s] eqn:Es; [| |lia].
    - now rewrite Z.mul_1_r in Hsh.
    - now rewrite Z.shiftl_mul_pow2 by lia. }
  rewrite Hm'.
  pose proof (Z.div_eucl_eq (Zpos mz * 2 ^ (ez - e') * Zpos my) (Zpos my) ltac:(lia)) as Hde.
  pose proof (Z.mod_mul (Zpos mz * 2 ^ (ez - e')) (Zpos my) ltac:(lia)) as Hmod.
  pose proof (Z.div_mul (Zpos mz * 2 ^ (ez - e')) (Zpos my) ltac:(lia)) as Hdiv.
  unfold Z.modulo in Hmod. unfold Z.div in Hdiv.
  destruct (Z.div_eucl (Zpos mz * 2 ^ (ez - e') * Zpos my) (Zpos my)) as [q r].
  cbn [fst snd] in Hmod, Hdiv. subst q r.
  rewrite new_location_exact.
  change (binary_round_aux 53 1024) with (binary_round_aux prec emax).
  rewrite binary_round_aux_exact; try assumption.
  - f_equal. lia.
  - now replace (e' + (ez - e')) with ez by lia.
Qed.

(** The value of a finite float as a signed integer times a power of two,
    at any exponent [E] below its own. *)
Lemma float_to_Q_scaled (s : bool) (m : positive) (e E : Z) :
  E <= e ->
  (float_to_Q (S754_finite s m e)
   == inject_Z (cond_Zopp s (Zpos m * 2 ^ (e - E))) * inject_Z 2 ^ E)%Q.
Proof.
  intros HE.
  assert (H2 : ~ (inject_Z 2 == 0)%Q) by discriminate.
  assert (Hv : ((if (0 <=? e)%Z then inject_Z (Zpos m * 2 ^ e)
                 else Qmake (Zpos m) (Z.to_pos (2 ^ (- e))))
                == inject_Z (Zpos m * 2 ^ (e - E)) * inject_Z 2 ^ E)%Q).
  { assert (Hr : (inject_Z (Zpos m * 2 ^ (e - E)) * inject_Z 2 ^ E
                  == inject_Z (Zpos m) * inject_Z 2 ^ e)%Q).
    { rewrite (inject_Z_mult (Zpos m)), (Zpower_Qpower 2 (e - E)) by lia.
      rewrite <- Qmult_assoc, <- Qpower_plus by assumption.
      now replace (e - E + E) with e by lia. }
    rewrite Hr.
    destruct (Z.leb_spec 0 e) as [He|He].
    - now rewrite (inject_Z_mult (Zpos m)), (Zpower_Qpower 2 e) by lia.
    - rewrite Qmake_Qdiv.
      assert (Hp : 0 < 2 ^ (- e)) by (apply Z.pow_pos_nonneg; lia).
      rewrite Z2Pos.id by assumption.
      rewrite (Zpower_Qpower 2 (- e)) by lia.
      rewrite Qpower_opp. unfold Qdiv. now rewrite Qinv_involutive. }
  cbn [float_to_Q]. destruct s; cbn [cond_Zopp].
  - rewrite Hv, inject_Z_opp. ring.
  - exact Hv.
Qed.

Lemma float_to_Q_finite_nonzero (s : bool) (m : positive) (e : Z) :
  ~ (float_to_Q (S754_finite s m e) == 0)%Q.
Proof.
  rewrite (float_to_Q_scaled s m e e) by lia.
  rewrite Z.sub_diag, Z.mul_1_r.
  intros H. apply Qmult_integral in H as [H|H].
  - change 0%Q with (inject_Z 0) in H.
    apply (proj1 (inject_Z_injective _ _)) in H.
    destruct s; cbn [cond_Zopp] in H; lia.
  - revert H. apply Qpower_not_0. discriminate.
Qed.

(** An equation between the values of finite floats, in integers. *)
Lemma float_product_eq (sw sc sW : bool) (mw mc mW : positive) (ew ec eW E : Z) :
  E <= ew + ec -> E <= eW ->
  (float_to_Q (S754_finite sw mw ew) * float_to_Q (S754_finite sc mc ec)
   == float_to_Q (S754_finite sW mW eW))%Q ->
  sW = xorb sw sc
  /\ Zpos mw * Zpos mc * 2 ^ (ew + ec - E) = Zpos mW * 2 ^ (eW - E).
Proof.
  intros HE1 HE2 Heq.
  assert (H2 : ~ (inject_Z 2 == 0)%Q) by discriminate.
  rewrite (float_to_Q_scaled sw mw ew ew), (float_to_Q_scaled sc mc ec ec),
    (float_to_Q_scaled sW mW eW E) in Heq by lia.
  rewrite !Z.sub_diag, !Z.mul_1_r in Heq.
  assert (Hl : (inject_Z (cond_Zopp sw (Zpos mw)) * inject_Z 2 ^ ew
                * (inject_Z (cond_Zopp sc (Zpos mc)) * inject_Z 2 ^ ec)
                == inject_Z (cond_Zopp sw (Zpos mw) * cond_Zopp sc (Zpos mc)
                             * 2 ^ (ew + ec - E)) * inject_Z 2 ^ E)%Q).
  { rewrite !inject_Z_mult, Zpower_Qpower by lia.
    replace (inject_Z 2 ^ ew * (inject_Z (cond_Zopp sc (Zpos mc)) * inject_Z 2 ^ ec))%Q
      with (inject_Z 2 ^ ew * (inject_Z (cond_Zopp sc (Zpos mc)) * inject_Z 2 ^ ec))%Q
      by reflexivity.
    transitivity (inject_Z (cond_Zopp sw (Zpos mw)) * inject_Z (cond_Zopp sc (Zpos mc))
                  * (inject_Z 2 ^ (ew + ec - E) * inject_Z 2 ^ E))%Q; [|ring].
    rewrite <- Qpower_plus by assumption.
    replace (ew + ec - E + E) with (ew + ec) by lia.
    rewrite Qpower_plus by assumption. ring. }
  rewrite Hl in Heq.
  apply Qmult_inj_r in Heq; [|now apply Qpower_not_0].
  apply (proj1 (inject_Z_injective _ _)) in Heq.
  assert (HX : 0 < 2 ^ (ew + ec - E)) by (apply Z.pow_pos_nonneg; lia).
  assert (HY : 0 < 2 ^ (eW - E)) by (apply Z.pow_pos_nonneg; lia).
  assert (HP : 0 < Zpos mw * Zpos mc * 2 ^ (ew + ec - E)).
  { apply Z.mul_pos_pos; [lia|assumption]. }
  assert (HQ : 0 < Zpos mW * 2 ^ (eW - E)).
  { apply Z.mul_pos_pos; [lia|assumption]. }
  revert Heq HP HQ.
  generalize (2 ^ (ew + ec - E)) (2 ^ (eW - E)). intros X Y.
  destruct sw, sc, sW; cbn [cond_Zopp xorb]; intros Heq HP HQ;
    (split; [first [reflexivity | exfalso; lia] | lia]).
Qed.

Lemma feq_refl_finite (x : float) :
  is_finite x = true -> feq x x = true.
Proof.
  destruct x as [s|s| |s m e]; try discriminate; intros _.
  - reflexivity.
  - unfold feq, SFeqb, SFcompare.
    destruct s; rewrite Z.compare_refl, ?Pos.compare_cont_refl; reflexivity.
Qed.

(** When the quotient of two binary64 numbers is a binary64 number, the
    division finds it and the multiplication leads back. *)
Lemma exact_quotient_round_trip (W cs w : float) (sc : bool) (mc : positive) (ec : Z) :
  cs = S754_finite sc mc ec ->
  valid_binary prec emax W = true ->
  valid_binary prec emax cs = true ->
  valid_binary prec emax w = true ->
  is_finite W = true ->
  is_finite w = true ->
  (float_to_Q w * float_to_Q cs == float_to_Q W)%Q ->
  feq (fdiv W cs) w = true /\ feq (fmul (fdiv W cs) cs) W = true.
Proof.
  intros -> HW Hcs Hw FW Fw Heq.
  destruct W as [sW|sW| |sW mW eW]; try discriminate;
    destruct w as [sw|sw| |sw mw ew]; try discriminate.
  - split; reflexivity.
  - exfalso. change (float_to_Q (S754_zero sW)) with 0%Q in Heq.
    apply Qmult_integral in Heq as [H|H]; revert H; apply float_to_Q_finite_nonzero.
  - exfalso. change (float_to_Q (S754_zero sw)) with 0%Q in Heq.
    rewrite Qmult_0_l in Heq.
    symmetry in Heq. revert Heq. apply float_to_Q_finite_nonzero.
  - cbn [valid_binary] in HW, Hcs, Hw.
    destruct (float_product_eq sw sc sW mw mc mW ew ec eW (Z.min (ew + ec) eW)
                ltac:(lia) ltac:(lia) Heq) as [Hs Hm].
    assert (Hdiv : fdiv (S754_finite sW mW eW) (S754_finite sc mc ec)
                   = S754_finite sw mw ew).
    { unfold fdiv.
      rewrite (SFdiv_exact sW sc mW mc mw eW ec ew (Z.min (ew + ec) eW))
        by first [assumption | lia].
      f_equal. subst sW. now destruct sw, sc. }
    rewrite Hdiv. split; [now apply feq_refl_finite|].
    unfold fmul.
    rewrite (SFmul_exact sw sc mw mc mW ew ec eW (Z.min (ew + ec) eW))
      by first [assumption | lia].
    rewrite <- Hs. now apply feq_refl_finite.
Qed.

End ExactOperations.

(** *** Rounded products and quotients

    Rounding cuts a mantissa down to 53 bits and keeps it or adds one:
    above the subnormal range the result is within one part in [2 ^ 52]
    of the exact value, unless it overflows. *)

Section RoundedOperations.

Local Open Scope Z_scope.

Lemma shr_1_m (mrs : shr_record) :
  0 <= shr_m mrs -> shr_m (shr_1 mrs) = shr_m mrs / 2.
Proof.
  destruct mrs as [[|[p|p|]|p] r s]; cbn [shr_1 shr_m]; intros H; try lia;
    try reflexivity.
  - rewrite Pos2Z.inj_xI. Z.div_mod_to_equations. lia.
  - rewrite Pos2Z.inj_xO. Z.div_mod_to_equations. lia.
Qed.

Lemma iter_shr_1_m (n : positive) :
  forall mrs, 0 <= shr_m mrs ->
    shr_m (iter_pos shr_1 n mrs) = shr_m mrs / 2 ^ Zpos n.
Proof.
  induction n as [n IH|n IH|]; intros mrs Hm; cbn [iter_pos].
  - assert (H1 : 0 <= shr_m (shr_1 mrs)).
    { rewrite shr_1_m by assumption. apply Z.div_pos; lia. }
    assert (H2 : 0 <= shr_m (iter_pos shr_1 n (shr_1 mrs))).
    { rewrite IH by assumption. apply Z.div_pos; [assumption|].
      apply Z.pow_pos_nonneg; lia. }
    rewrite IH, IH, shr_1_m by assumption.
    assert (Hp : 0 < 2 ^ Zpos n) by (apply Z.pow_pos_nonneg; lia).
    rewrite !Z.div_div by lia.
    f_equal. replace (Zpos n~1) with (1 + Zpos n + Zpos n) by lia.
    rewrite !Z.pow_add_r by lia. change (2 ^ 1) with 2. ring.
  - assert (H2 : 0 <= shr_m (iter_pos shr_1 n mrs)).
    { rewrite IH by assumption. apply Z.div_pos; [assumption|].
      apply Z.pow_pos_nonneg; lia. }
    rewrite IH, IH by assumption.
    assert (Hp : 0 < 2 ^ Zpos n) by (apply Z.pow_pos_nonneg; lia).
    rewrite !Z.div_div by lia.
    f_equal. replace (Zpos n~0) with (Zpos n + Zpos n) by lia.
    rewrite !Z.pow_add_r by lia. ring.
  - now apply shr_1_m.
Qed.

Lemma shr_m_shr (mrs : shr_record) (e n : Z) :
  0 <= n -> 0 <= shr_m mrs ->
  shr_m (fst (shr mrs e n)) = shr_m mrs / 2 ^ n /\ snd (shr mrs e n) = e + n.
Proof.
  intros Hn Hm. destruct n as [|n|n]; [| |lia]; cbn [shr fst snd].
  - rewrite Z.div_1_r. split; [reflexivity|lia].
  - split; [now apply iter_shr_1_m|reflexivity].
Qed.

Lemma shr_m_of_loc (m : Z) (l : location) : shr_m (shr_record_of_loc m l) = m.
Proof. destruct l as [|[]]; reflexivity. Qed.

Lemma round_nearest_even_cases (m : Z) (l : location) :
  round_nearest_even m l = m \/ round_nearest_even m l = m + 1.
Proof.
  destruct l as [|[]]; cbn [round_nearest_even]; auto.
  destruct (Z.even m); auto.
Qed.

(** The mantissa cut down to 53 bits. *)
Lemma cut_mantissa (m : positive) :
  53 <= Zpos (digits2_pos m) ->
  2 ^ 52 <= Zpos m / 2 ^ (Zpos (digits2_pos m) - 53) < 2 ^ 53.
Proof.
  intros Hd. pose proof (digits2_pos_bounds m) as [Hlo Hhi].
  set (d := Zpos (digits2_pos m)) in *.
  assert (Hp : 0 < 2 ^ (d - 53)) by (apply Z.pow_pos_nonneg; lia).
  split.
  - apply Z.div_le_lower_bound; [assumption|].
    rewrite <- Z.pow_add_r by lia. now replace (d - 53 + 52) with (d - 1) by lia.
  - apply Z.div_lt_upper_bound; [assumption|].
    rewrite <- Z.pow_add_r by lia. now replace (d - 53 + 53) with d by lia.
Qed.

(** What rounding gives for a mantissa of at least 53 bits above the
    subnormal range: the mantissa cut down to 53 bits, or one more. *)
Lemma binary_round_aux_outcome (s : bool) (m : positive) (e : Z) (l : location) :
  53 <= Zpos (digits2_pos m) ->
  -1074 <= Zpos (digits2_pos m) + e - 53 ->
  binary_round_aux prec emax s (Zpos m) e l = S754_infinity s
  \/ exists m'' e'',
       binary_round_aux prec emax s (Zpos m) e l = S754_finite s m'' e''
       /\ bounded prec emax m'' e'' = true
       /\ 2 ^ 52 <= Zpos m'' < 2 ^ 53
       /\ e + (Zpos (digits2_pos m) - 53) <= e''
       /\ (Zpos m'' * 2 ^ (e'' - (e + (Zpos (digits2_pos m) - 53)))
           = Zpos m / 2 ^ (Zpos (digits2_pos m) - 53)
           \/ Zpos m'' * 2 ^ (e'' - (e + (Zpos (digits2_pos m) - 53)))
              = Zpos m / 2 ^ (Zpos (digits2_pos m) - 53) + 1).
Proof.
  intros Hd He. pose proof (cut_mantissa m Hd) as HM.
  set (d := Zpos (digits2_pos m)) in *.
  set (n := d - 53) in *. set (M := Zpos m / 2 ^ n) in *.
  unfold binary_round_aux, shr_fexp. cbn [Zdigits2]. fold d.
  assert (Hf1 : fexp prec emax (d + e) - e = n).
  { unfold fexp, emin, prec, emax. subst n. lia. }
  rewrite Hf1.
  pose proof (shr_m_shr (shr_record_of_loc (Zpos m) l) e n ltac:(subst n; lia)) as Hshr.
  rewrite shr_m_of_loc in Hshr. specialize (Hshr ltac:(lia)).
  destruct (shr (shr_record_of_loc (Zpos m) l) e n) as [mrs' e'].
  cbn [fst snd] in Hshr. destruct Hshr as [Hm' ->]. fold M in Hm'. rewrite Hm'.
  destruct (round_nearest_even_cases M (loc_of_shr_record mrs')) as [HR|HR];
    rewrite HR; clear HR.
  - (* the mantissa is kept *)
    destruct M as [|r|r] eqn:EM; [lia| |lia].
    cbn [shr_record_of_loc Zdigits2].
    assert (Hdr : Zpos (digits2_pos r) = 53) by (apply digits2_pos_unique; lia).
    rewrite Hdr.
    assert (Hf2 : fexp prec emax (53 + (e + n)) - (e + n) = 0).
    { unfold fexp, emin, prec, emax. subst n. lia. }
    rewrite Hf2. cbn [shr shr_m].
    destruct (e + n <=? emax - prec) eqn:Hmax; [right|now left].
    exists r, (e + n). split; [reflexivity|].
    split; [|split; [lia|split; [lia|left]]].
    + unfold bounded, canonical_mantissa. rewrite Hdr, Hmax, andb_true_r.
      apply Z.eqb_eq. unfold fexp, emin, prec, emax. subst n. lia.
    + now rewrite Z.sub_diag, Z.mul_1_r.
  - (* the mantissa is increased *)
    destruct (Z.eq_dec (M + 1) (2 ^ 53)) as [Hcarry|Hnc].
    + rewrite Hcarry. change (2 ^ 53) with (Zpos (2 ^ 53)%positive).
      cbn [shr_record_of_loc Zdigits2].
      change (Zpos (digits2_pos (2 ^ 53))) with 54.
      assert (Hf2 : fexp prec emax (54 + (e + n)) - (e + n) = 1).
      { unfold fexp, emin, prec, emax. subst n. lia. }
      rewrite Hf2.
      change (shr {| shr_m := Zpos (2 ^ 53); shr_r := false; shr_s := false |}
                (e + n) 1)
        with ({| shr_m := Zpos (2 ^ 52); shr_r := false; shr_s := false |}, e + n + 1).
      cbn [shr_m].
      destruct (e + n + 1 <=? emax - prec) eqn:Hmax; [right|now left].
      exists (2 ^ 52)%positive, (e + n + 1). split; [reflexivity|].
      split; [|split; [|split; [lia|right]]].
      * unfold bounded, canonical_mantissa. rewrite Hmax, andb_true_r.
        change (Zpos (digits2_pos (2 ^ 52))) with 53.
        apply Z.eqb_eq. unfold fexp, emin, prec, emax. subst n. lia.
      * split; [reflexivity|reflexivity].
      * replace (e + n + 1 - (e + n)) with 1 by lia.
        reflexivity.
    + destruct (M + 1) as [|r|r] eqn:ER; [lia| |lia].
      cbn [shr_record_of_loc Zdigits2].
      assert (Hdr : Zpos (digits2_pos r) = 53) by (apply digits2_pos_unique; lia).
      rewrite Hdr.
      assert (Hf2 : fexp prec emax (53 + (e + n)) - (e + n) = 0).
      { unfold fexp, emin, prec, emax. subst n. lia. }
      rewrite Hf2. cbn [shr shr_m].
      destruct (e + n <=? emax - prec) eqn:Hmax; [right|now left].
      exists r, (e + n). split; [reflexivity|].
      split; [|split; [lia|split; [lia|right]]].
      * unfold bounded, canonical_mantissa. rewrite Hdr, Hmax, andb_true_r.
        apply Z.eqb_eq. unfold fexp, emin, prec, emax. subst n. lia.
      * now rewrite Z.sub_diag, Z.mul_1_r.
Qed.

Lemma pow2_pos (e : Z) : (0 < pow2 e)%Q.
Proof. apply Qpower_0_lt. reflexivity. Qed.

Lemma pow2_add (a b : Z) : (pow2 (a + b) == pow2 a * pow2 b)%Q.
Proof. apply Qpower_plus. discriminate. Qed.

Lemma pow2_Z (e : Z) : 0 <= e -> (pow2 e == inject_Z (2 ^ e))%Q.
Proof. intros He. unfold pow2. now rewrite Zpower_Qpower. Qed.

(** The quotient of two integers lies between its integer part and the
    next integer. *)
Lemma Zdiv_Q_bounds (a b : Z) :
  0 < b ->
  (inject_Z (a / b) <= inject_Z a / inject_Z b
   /\ inject_Z a / inject_Z b < inject_Z (a / b) + 1)%Q.
Proof.
  intros Hb.
  assert (HbQ : (0 < inject_Z b)%Q).
  { change 0%Q with (inject_Z 0). rewrite <- Zlt_Qlt. exact Hb. }
  split.
  - apply Qle_shift_div_l; [assumption|].
    rewrite <- inject_Z_mult, <- Zle_Qle.
    rewrite Z.mul_comm. apply Z.mul_div_le. assumption.
  - apply Qlt_shift_div_r; [assumption|].
    change 1%Q with (inject_Z 1).
    rewrite <- inject_Z_plus, <- inject_Z_mult, <- Zlt_Qlt.
    rewrite Z.mul_comm. apply Z.mul_succ_div_gt. assumption.
Qed.

(** A mantissa of 53 bits that is the integer part of [a / b], or one
    more, stands for [a / b] up to one part in [2 ^ 52]. *)
Lemma rounded_close (m : positive) (e E a b : Z) :
  0 < b -> E <= e -> 2 ^ 52 <= a / b ->
  Zpos m * 2 ^ (e - E) = a / b \/ Zpos m * 2 ^ (e - E) = a / b + 1 ->
  (Qabs (inject_Z (Zpos m) * pow2 e - inject_Z a / inject_Z b * pow2 E)
   <= inject_Z a / inject_Z b * pow2 E * (1 # 2 ^ 52))%Q.
Proof.
  intros Hb HE HM HV.
  destruct (Zdiv_Q_bounds a b Hb) as [Hlo Hhi].
  pose proof (pow2_pos E) as HP.
  assert (Hbig : (inject_Z (2 ^ 52) <= inject_Z (a / b))%Q)
    by (rewrite <- Zle_Qle; exact HM).
  assert (Hval : (inject_Z (Zpos m) * pow2 e
                  == inject_Z (Zpos m * 2 ^ (e - E)) * pow2 E)%Q).
  { rewrite inject_Z_mult, <- pow2_Z by lia.
    rewrite <- Qmult_assoc, <- pow2_add.
    now replace (e - E + E) with e by lia. }
  rewrite Hval.
  set (x := (inject_Z a / inject_Z b)%Q) in *.
  set (V := inject_Z (Zpos m * 2 ^ (e - E))).
  assert (HD : (- (x * (1 # 2 ^ 52)) <= V - x /\ V - x <= x * (1 # 2 ^ 52))%Q).
  { assert (HVc : (V == inject_Z (a / b) \/ V == inject_Z (a / b) + 1)%Q).
    { subst V. destruct HV as [-> | ->]; [now left|right].
      now rewrite inject_Z_plus. }
    change (inject_Z (2 ^ 52)) with (4503599627370496 # 1)%Q in Hbig.
    change (1 # 2 ^ 52)%Q with (1 # 4503599627370496)%Q.
    destruct HVc as [HVc|HVc]; rewrite HVc; split; lra. }
  destruct HD as [HD1 HD2].
  apply Qabs_Qle_condition. split.
  - setoid_replace (- (x * pow2 E * (1 # 2 ^ 52)))%Q
      with (- (x * (1 # 2 ^ 52)) * pow2 E)%Q by ring.
    setoid_replace (V * pow2 E - x * pow2 E)%Q with ((V - x) * pow2 E)%Q by ring.
    apply Qmult_le_compat_r; [assumption|]. now apply Qlt_le_weak.
  - setoid_replace (x * pow2 E * (1 # 2 ^ 52))%Q
      with (x * (1 # 2 ^ 52) * pow2 E)%Q by ring.
    setoid_replace (V * pow2 E - x * pow2 E)%Q with ((V - x) * pow2 E)%Q by ring.
    apply Qmult_le_compat_r; [assumption|]. now apply Qlt_le_weak.
Qed.

Lemma magnitude_pos (m : positive) (e : Z) : (0 < magnitude m e)%Q.
Proof.
  unfold magnitude. apply Qmult_lt_0_compat; [|apply pow2_pos].
  change 0%Q with (inject_Z 0). rewrite <- Zlt_Qlt. lia.
Qed.

(** A product above the subnormal range is computed up to one part in
    [2 ^ 52], unless it overflows. *)
Lemma SFmul_close (sx sy : bool) (mx my : positive) (ex ey : Z) :
  53 <= Zpos (digits2_pos (mx * my)) ->
  -1074 <= Zpos (digits2_pos (mx * my)) + (ex + ey) - 53 ->
  SFmul prec emax (S754_finite sx mx ex) (S754_finite sy my ey)
  = S754_infinity (xorb sx sy)
  \/ exists m e,
       SFmul prec emax (S754_finite sx mx ex) (S754_finite sy my ey)
       = S754_finite (xorb sx sy) m e
       /\ bounded prec emax m e = true
       /\ 2 ^ 52 <= Zpos m < 2 ^ 53
       /\ (Qabs (magnitude m e - magnitude mx ex * magnitude my ey)
           <= magnitude mx ex * magnitude my ey * (1 # 2 ^ 52))%Q.
Proof.
  intros Hd He. cbn [SFmul].
  destruct (binary_round_aux_outcome (xorb sx sy) (mx * my) (ex + ey) loc_Exact Hd He)
    as [Hinf|(m & e & Hfin & Hb & Hn & HE & HV)]; [now left|right].
  exists m, e. repeat (split; [assumption|]).
  set (n := Zpos (digits2_pos (mx * my)) - 53) in *.
  assert (Hn0 : 0 <= n) by (subst n; lia).
  assert (Hp : 0 < 2 ^ n) by (apply Z.pow_pos_nonneg; lia).
  pose proof (cut_mantissa (mx * my) Hd) as [HM _]. fold n in HM.
  pose proof (rounded_close m e (ex + ey + n) (Zpos (mx * my)) (2 ^ n) Hp HE HM HV)
    as Hclose.
  assert (Hx : (inject_Z (Zpos (mx * my)) / inject_Z (2 ^ n) * pow2 (ex + ey + n)
                == magnitude mx ex * magnitude my ey)%Q).
  { unfold magnitude. rewrite Pos2Z.inj_mul, inject_Z_mult.
    rewrite !pow2_add, <- (pow2_Z n) by assumption.
    field. apply Qnot_eq_sym, Qlt_not_eq, pow2_pos. }
  unfold magnitude at 1. now rewrite Hx in Hclose.
Qed.

Lemma digits2_pos_lower (p : positive) (k : Z) :
  0 <= k -> 2 ^ k <= Zpos p -> k + 1 <= Zpos (digits2_pos p).
Proof.
  intros Hk Hp. pose proof (digits2_pos_bounds p) as [_ Hhi].
  destruct (Z.le_gt_cases (k + 1) (Zpos (digits2_pos p))) as [|Hlt]; [assumption|].
  exfalso.
  assert (2 ^ Zpos (digits2_pos p) <= 2 ^ k) by (apply Z.pow_le_mono_r; lia).
  lia.
Qed.

(** A quotient above the subnormal range is computed up to one part in
    [2 ^ 52], unless it overflows. *)
Lemma SFdiv_close (sx sy : bool) (m1 m2 : positive) (e1 e2 : Z) :
  bounded prec emax m1 e1 = true ->
  bounded prec emax m2 e2 = true ->
  (pow2 (-1022) * magnitude m2 e2 <= magnitude m1 e1)%Q ->
  SFdiv prec emax (S754_finite sx m1 e1) (S754_finite sy m2 e2)
  = S754_infinity (xorb sx sy)
  \/ exists m e,
       SFdiv prec emax (S754_finite sx m1 e1) (S754_finite sy m2 e2)
       = S754_finite (xorb sx sy) m e
       /\ bounded prec emax m e = true
       /\ 2 ^ 52 <= Zpos m < 2 ^ 53
       /\ (Qabs (magnitude m e - magnitude m1 e1 / magnitude m2 e2)
           <= magnitude m1 e1 / magnitude m2 e2 * (1 # 2 ^ 52))%Q.
Proof.
  intros H1 H2 Hnormal.
  pose proof (bounded_canonical _ _ H1) as [C1 _].
  pose proof (bounded_canonical _ _ H2) as [C2 _].
  pose proof (digits2_pos_bounds m1) as [L1 U1].
  pose proof (digits2_pos_bounds m2) as [L2 U2].
  cbn [SFdiv]. unfold SFdiv_core_binary. cbn [Zdigits2].
  unfold fexp, emin, prec, emax.
  set (d1 := Zpos (digits2_pos m1)) in *. set (d2 := Zpos (digits2_pos m2)) in *.
  set (e' := Z.min (Z.max (d1 + e1 - (d2 + e2) - 53) (3 - 1024 - 53)) (e1 - e2)).
  set (s := e1 - e2 - e').
  assert (Hs : 0 <= s) by (subst s e'; lia).
  assert (Hm' : match s with
                | Zpos _ => Z.shiftl (Zpos m1) s
                | Z0 => Zpos m1
                | Zneg _ => 0
                end = Zpos m1 * 2 ^ s).
  { destruct s as [|p|p] eqn:Es; [| |lia].
    - now rewrite Z.mul_1_r.
    - now rewrite Z.shiftl_mul_pow2 by lia. }
  rewrite Hm'. clear Hm'.
  assert (Hq : fst (Z.div_eucl (Zpos m1 * 2 ^ s) (Zpos m2)) = Zpos m1 * 2 ^ s / Zpos m2)
    by reflexivity.
  destruct (Z.div_eucl (Zpos m1 * 2 ^ s) (Zpos m2)) as [q r]. cbn [fst] in Hq.
  assert (Hps : 0 < 2 ^ s) by (apply Z.pow_pos_nonneg; lia).
  (* the hypothesis in integers *)
  assert (Hint : 0 <= -1022 - e' -> 2 ^ (-1022 - e') * Zpos m2 <= Zpos m1 * 2 ^ s).
  { intros Ht. rewrite Zle_Qle, !inject_Z_mult, <- !pow2_Z by lia.
    unfold magnitude in Hnormal.
    apply (Qmult_le_r _ _ (pow2 (e' + e2))); [apply pow2_pos|].
    setoid_replace (pow2 (-1022 - e') * inject_Z (Zpos m2) * pow2 (e' + e2))%Q
      with (pow2 (-1022 - e' + e') * (inject_Z (Zpos m2) * pow2 e2))%Q
      by (rewrite !pow2_add; ring).
    setoid_replace (inject_Z (Zpos m1) * pow2 s * pow2 (e' + e2))%Q
      with (inject_Z (Zpos m1) * pow2 (s + (e' + e2)))%Q
      by (rewrite !pow2_add; ring).
    replace (-1022 - e' + e') with (-1022) by lia.
    replace (s + (e' + e2)) with e1 by (subst s; lia).
    exact Hnormal. }
  (* the quotient has at least 53 bits *)
  assert (Hq52 : 2 ^ 52 <= q).
  { subst q. apply Z.div_le_lower_bound; [lia|].
    destruct (Z.le_gt_cases e' (-1074)) as [Hlow|Hhigh].
    - specialize (Hint ltac:(lia)).
      assert (2 ^ 52 <= 2 ^ (-1022 - e')) by (apply Z.pow_le_mono_r; lia).
      nia.
    - assert (Hs' : 53 - d1 + d2 <= s) by (subst s e'; lia).
      assert (Hpow : 2 ^ (52 + d2) <= 2 ^ (d1 - 1) * 2 ^ s).
      { rewrite <- Z.pow_add_r by (subst d1; lia).
        apply Z.pow_le_mono_r; lia. }
      rewrite Z.pow_add_r in Hpow by (subst d2; lia).
      assert (0 < 2 ^ 52) by reflexivity.
      nia. }
  destruct q as [|qp|qp]; [lia| |lia].
  assert (Hd : 53 <= Zpos (digits2_pos qp)).
  { apply (digits2_pos_lower qp 52); [lia|assumption]. }
  assert (He : -1074 <= Zpos (digits2_pos qp) + e' - 53).
  { destruct (Z.le_gt_cases 0 (-1022 - e')) as [Ht|Ht]; [|lia].
    specialize (Hint Ht).
    assert (Hqt : 2 ^ (-1022 - e') <= Zpos qp).
    { rewrite Hq. apply Z.div_le_lower_bound; lia. }
    pose proof (digits2_pos_lower qp (-1022 - e') Ht Hqt). lia. }
  change (binary_round_aux 53 1024) with (binary_round_aux prec emax).
  destruct (binary_round_aux_outcome (xorb sx sy) qp e' (new_location (Zpos m2) r) Hd He)
    as [Hinf|(m & e & Hfin & Hb & Hn & HE & HV)]; [now left|right].
  exists m, e. repeat (split; [assumption|]).
  set (n := Zpos (digits2_pos qp) - 53) in *.
  assert (Hn0 : 0 <= n) by (subst n; lia).
  assert (Hp : 0 < 2 ^ n) by (apply Z.pow_pos_nonneg; lia).
  pose proof (cut_mantissa qp Hd) as [HM _]. fold n in HM.
  assert (Hdd : Zpos qp / 2 ^ n = Zpos m1 * 2 ^ s / (Zpos m2 * 2 ^ n)).
  { rewrite Hq. apply Z.div_div; lia. }
  rewrite Hdd in HM, HV.
  pose proof (rounded_close m e (e' + n) (Zpos m1 * 2 ^ s) (Zpos m2 * 2 ^ n)
                ltac:(lia) HE HM HV) as Hclose.
  assert (Hx : (inject_Z (Zpos m1 * 2 ^ s) / inject_Z (Zpos m2 * 2 ^ n) * pow2 (e' + n)
                == magnitude m1 e1 / magnitude m2 e2)%Q).
  { unfold magnitude. rewrite !inject_Z_mult, <- !pow2_Z by assumption.
    replace e1 with (s + e' + e2) by (subst s; lia).
    rewrite !pow2_add.
    assert (Hm2 : ~ (inject_Z (Zpos m2) == 0)%Q) by discriminate.
    pose proof (pow2_pos n) as Pn. pose proof (pow2_pos e2) as P2.
    field. repeat split; try assumption;
      apply Qnot_eq_sym, Qlt_not_eq; assumption. }
  unfold magnitude at 1. now rewrite Hx in Hclose.
Qed.

Lemma float_to_Q_magnitude (s : bool) (m : positive) (e : Z) :
  (float_to_Q (S754_finite s m e)
   == if s then - magnitude m e else magnitude m e)%Q.
Proof.
  rewrite (float_to_Q_scaled s m e e) by lia.
  rewrite Z.sub_diag, Z.mul_1_r. unfold magnitude, pow2.
  destruct s; cbn [cond_Zopp]; [|reflexivity].
  rewrite inject_Z_opp. ring.
Qed.

Lemma Qabs_float_to_Q (s : bool) (m : positive) (e : Z) :
  (Qabs (float_to_Q (S754_finite s m e)) == magnitude m e)%Q.
Proof.
  rewrite float_to_Q_magnitude. pose proof (magnitude_pos m e) as Hp.
  destruct s.
  - rewrite Qabs_opp. apply Qabs_pos. now apply Qlt_le_weak.
  - apply Qabs_pos. now apply Qlt_le_weak.
Qed.

(** Dividing by a number that is at least 1 and multiplying by it again
    leads back up to the rounding of the two operations, when the quotient
    does not underflow and the product does not overflow. *)
Lemma round_trip_close (W : float) (sc : bool) (mc : positive) (ec : Z) :
  let cs := S754_finite sc mc ec in
  1 <= Zpos (digits2_pos mc) + ec ->
  valid_binary prec emax W = true ->
  valid_binary prec emax cs = true ->
  (pow2 (-1022) * Qabs (float_to_Q cs) <= Qabs (float_to_Q W))%Q ->
  is_finite (fmul (fdiv W cs) cs) = true ->
  (Qabs (float_to_Q (fmul (fdiv W cs) cs) - float_to_Q W)
   <= Qabs (float_to_Q W) * (1 # 2 ^ 50))%Q.
Proof.
  intros cs Hone HW Hcs Hnormal Hfin. subst cs.
  rewrite Qabs_float_to_Q in Hnormal.
  pose proof (magnitude_pos mc ec) as Pc.
  pose proof (pow2_pos (-1022)) as Pn.
  assert (Hpos : (0 < Qabs (float_to_Q W))%Q).
  { eapply Qlt_le_trans; [|exact Hnormal]. now apply Qmult_lt_0_compat. }
  destruct W as [sW|sW| |sW mW eW];
    try (cbn in Hpos; now apply Qlt_irrefl in Hpos).
  rewrite Qabs_float_to_Q in Hnormal, Hpos |- *.
  cbn [valid_binary] in HW, Hcs.
  unfold fmul, fdiv in *.
  destruct (SFdiv_close sW sc mW mc eW ec HW Hcs Hnormal)
    as [Hinf|(m & e & Hdiv & Hb & Hn & Hclose1)].
  { rewrite Hinf in Hfin. discriminate. }
  rewrite Hdiv in Hfin |- *.
  pose proof (bounded_canonical _ _ Hb) as [Cm _].
  pose proof (digits2_pos_mul m mc) as [Hdm _].
  assert (Hdig : Zpos (digits2_pos m) = 53) by (apply digits2_pos_unique; lia).
  destruct (SFmul_close (xorb sW sc) sc m mc e ec ltac:(lia) ltac:(lia))
    as [Hinf|(m3 & e3 & Hmul & _ & _ & Hclose2)].
  { rewrite Hinf in Hfin. discriminate. }
  rewrite Hmul.
  replace (xorb (xorb sW sc) sc) with sW by now destruct sW, sc.
  pose proof (magnitude_pos mW eW) as PW.
  set (AW := magnitude mW eW) in *. set (Ac := magnitude mc ec) in *.
  set (Aw := magnitude m e) in *. set (A3 := magnitude m3 e3) in *.
  assert (Hdiff : (Qabs (float_to_Q (S754_finite sW m3 e3)
                         - float_to_Q (S754_finite sW mW eW))
                   == Qabs (A3 - AW))%Q).
  { rewrite !float_to_Q_magnitude. fold A3 AW. destruct sW; [|reflexivity].
    setoid_replace (- A3 - - AW)%Q with (- (A3 - AW))%Q by ring.
    apply Qabs_opp. }
  rewrite Hdiff.
  (* the quotient times the divisor *)
  assert (HB : (Qabs (Aw * Ac - AW) <= AW * (1 # 2 ^ 52))%Q).
  { setoid_replace (Aw * Ac - AW)%Q with ((Aw - AW / Ac) * Ac)%Q
      by (field; apply Qnot_eq_sym, Qlt_not_eq; exact Pc).
    rewrite Qabs_Qmult, (Qabs_pos Ac) by now apply Qlt_le_weak.
    setoid_replace (AW * (1 # 2 ^ 52))%Q with (AW / Ac * (1 # 2 ^ 52) * Ac)%Q
      by (field; apply Qnot_eq_sym, Qlt_not_eq; exact Pc).
    apply Qmult_le_compat_r; [exact Hclose1|now apply Qlt_le_weak]. }
  apply Qabs_Qle_condition in HB as [HB1 HB2].
  apply Qabs_Qle_condition in Hclose2 as [HC1 HC2].
  apply Qabs_Qle_condition.
  change (1 # 2 ^ 52)%Q with (1 # 4503599627370496)%Q in *.
  change (1 # 2 ^ 50)%Q with (1 # 1125899906842624)%Q.
  generalize dependent (Aw * Ac)%Q. intros B HB1 HB2 HC1 HC2.
  split; lra.
Qed.

End RoundedOperations.

Lemma value_ok_staff_finite (cs : float) :
  value_ok "current_staff" cs = true ->
  exists sc mc ec, cs = S754_finite sc mc ec.
Proof.
  unfold value_ok. cbn [mem existsb String.eqb Ascii.eqb Bool.eqb orb].
  destruct cs as [[]|[]| |s m e]; try (vm_compute; discriminate).
  intros _. now exists s, m, e.
Qed.

(** A positive integer is at least 1. *)
Lemma value_ok_staff_at_least_1 (cs : float) :
  value_ok "current_staff" cs = true ->
  exists mc ec, cs = S754_finite false mc ec
                /\ (1 <= Zpos (digits2_pos mc) + ec)%Z.
Proof.
  unfold value_ok. cbn [mem existsb String.eqb Ascii.eqb Bool.eqb orb].
  destruct cs as [[]|[]| |s m e]; try (vm_compute; discriminate).
  rewrite negb_orb, negb_involutive. intros H. apply andb_prop in H as [Hint Hpos].
  destruct s; [vm_compute in Hpos; discriminate|].
  exists m, e. split; [reflexivity|].
  cbn [is_integer] in Hint. apply orb_prop in Hint as [He|Hdiv].
  - apply Z.leb_le in He. lia.
  - apply Z.eqb_eq in Hdiv.
    destruct (Z.le_gt_cases 0 e) as [He|He]; [lia|].
    assert (Hp : (0 < 2 ^ (- e))%Z) by (apply Z.pow_pos_nonneg; lia).
    assert (Hle : (2 ^ (- e) <= Zpos m)%Z).
    { apply Z.mod_divide in Hdiv; [|lia]. apply Z.divide_pos_le; [lia|assumption]. }
    pose proof (digits2_pos_lower m (- e) ltac:(lia) Hle). lia.
Qed.

Section RoundTrip.

Variable float_of_str : string -> option float.

(** When the quotient of step 2 is exact, that is, the workload of step 1
    is finite and some binary64 number [w] times the staff is that
    workload as real numbers, the workload per agent is [w] and the
    workload per agent times the staff is the workload of step 1. *)
Lemma workload_round_trip_when_exact (teams : list dict) (rep : list string)
    (team : dict) (m : TeamMetrics float) (w : float) :
  validate_data float_of_str teams = Ok (rep, []) ->
  In team teams ->
  calculate_metrics float_of_str team = Ok m ->
  valid_binary prec emax (workload_step1 m) = true ->
  valid_binary prec emax (current_staff m) = true ->
  valid_binary prec emax w = true ->
  is_finite (workload_step1 m) = true ->
  is_finite w = true ->
  (float_to_Q w * float_to_Q (current_staff m) == float_to_Q (workload_step1 m))%Q ->
  feq (workload_per_agent m) w = true
  /\ feq (fmul (workload_per_agent m) (current_staff m)) (workload_step1 m) = true.
Proof.
  intros Hval Hin Hcalc HW Hcs Hw FW Fw Heq.
  pose proof (validated_record float_of_str teams rep team Hval Hin) as Hrec.
  destruct (calculate_metrics_valid float_of_str team Hrec)
    as (tid & cs & q & t & h & a & r & _ & [_ Hok] & _ & _ & _ & _ & _ & Hchain).
  rewrite Hchain in Hcalc.
  rewrite metrics_of_float in Hcalc
    by (apply (positive_nonzero "current_staff"); [simpl; tauto|assumption]).
  destruct (feq (agent_capacity_of h a) (float_of_Z 0)
            || feq (required_staff_of q t h a) (float_of_Z 0)); [discriminate|].
  injection Hcalc as <-.
  destruct (value_ok_staff_finite cs Hok) as (sc & mc & ec & Ecs).
  change (workload_per_agent (float_metrics tid cs q t h a r))
    with (fdiv (fmul q t) cs).
  change (workload_step1 (float_metrics tid cs q t h a r)) with (fmul q t) in *.
  change (current_staff (float_metrics tid cs q t h a r)) with cs in *.
  now apply (exact_quotient_round_trip (fmul q t) cs w sc mc ec).
Qed.

(** C9, amended: for a record of a batch that passed validation on which
    [calculate_metrics] returns, the workload per agent times the staff is
    the workload of step 1 up to the rounding of the division and of the
    multiplication: when the quotient of the workload by the staff is not
    below [2 ^ -1022], the smallest normal binary64 number, and the
    product does not overflow, the two differ by no more than
    [2 ^ -50] times the workload.  All numbers are binary64 numbers as
    Python holds them ([valid_binary]). *)
Theorem workload_round_trip_within_rounding (teams : list dict) (rep : list string)
    (team : dict) (m : TeamMetrics float) :
  validate_data float_of_str teams = Ok (rep, []) ->
  In team teams ->
  calculate_metrics float_of_str team = Ok m ->
  valid_binary prec emax (workload_step1 m) = true ->
  valid_binary prec emax (current_staff m) = true ->
  (pow2 (-1022) * Qabs (float_to_Q (current_staff m))
   <= Qabs (float_to_Q (workload_step1 m)))%Q ->
  is_finite (fmul (workload_per_agent m) (current_staff m)) = true ->
  (Qabs (float_to_Q (fmul (workload_per_agent m) (current_staff m))
         - float_to_Q (workload_step1 m))
   <= Qabs (float_to_Q (workload_step1 m)) * (1 # 2 ^ 50))%Q.
Proof.
  intros Hval Hin Hcalc HW Hcs Hnormal Hfin.
  pose proof (validated_record float_of_str teams rep team Hval Hin) as Hrec.
  destruct (calculate_metrics_valid float_of_str team Hrec)
    as (tid & cs & q & t & h & a & r & _ & [_ Hok] & _ & _ & _ & _ & _ & Hchain).
  rewrite Hchain in Hcalc.
  rewrite metrics_of_float in Hcalc
    by (apply (positive_nonzero "current_staff"); [simpl; tauto|assumption]).
  destruct (feq (agent_capacity_of h a) (float_of_Z 0)
            || feq (required_staff_of q t h a) (float_of_Z 0)); [discriminate|].
  injection Hcalc as <-.
  destruct (value_ok_staff_at_least_1 cs Hok) as (mc & ec & -> & Hone).
  change (workload_per_agent (float_metrics tid (S754_finite false mc ec) q t h a r))
    with (fdiv (fmul q t) (S754_finite false mc ec)) in *.
  change (workload_step1 (float_metrics tid (S754_finite false mc ec) q t h a r))
    with (fmul q t) in *.
  change (current_staff (float_metrics tid (S754_finite false mc ec) q t h a r))
    with (S754_finite false mc ec) in *.
  now apply (round_trip_close (fmul q t) false mc ec).
Qed.

End RoundTrip.


(** The record of TeamOmega: 450 minutes shared by 10 agents are 45 each. *)
Lemma workload_round_trip_when_exact_example :
  validate_data ascii_float_of_str sample_teams = Ok (report_lines sample_teams [], [])
  /\ In TeamOmega sample_teams
  /\ exists m,
      calculate_metrics ascii_float_of_str TeamOmega = Ok m
      /\ workload_step1 m = float_of_Z 450
      /\ current_staff m = float_of_Z 10
      /\ valid_binary prec emax (float_of_Z 450) = true
      /\ valid_binary prec emax (float_of_Z 10) = true
      /\ valid_binary prec emax (float_of_Z 45) = true
      /\ (float_to_Q (float_of_Z 45) * float_to_Q (float_of_Z 10)
          == float_to_Q (float_of_Z 450))%Q
      /\ feq (workload_per_agent m) (float_of_Z 45) = true
      /\ feq (fmul (workload_per_agent m) (current_staff m)) (workload_step1 m) = true.
Proof.
  assert (Hval : validate_data ascii_float_of_str sample_teams
                 = Ok (report_lines sample_teams [], []))
    by (vm_compute; reflexivity).
  assert (Hin : In TeamOmega sample_teams) by (simpl; tauto).
  split; [exact Hval|]. split; [exact Hin|].
  eexists. split; [vm_compute; reflexivity|].
  do 6 (split; [vm_compute; reflexivity|]).
  eapply (workload_round_trip_when_exact ascii_float_of_str sample_teams _ TeamOmega _
            (float_of_Z 45) Hval Hin); vm_compute; reflexivity.
Defined.

Lemma workload_round_trip_within_rounding_witness :
  validate_data ascii_float_of_str [odd_staff_team]
  = Ok (report_lines [odd_staff_team] [], [])
  /\ In odd_staff_team [odd_staff_team]
  /\ exists m,
      calculate_metrics ascii_float_of_str odd_staff_team = Ok m
      /\ workload_step1 m = float_of_Z 1
      /\ current_staff m = float_of_Z 49
      /\ valid_binary prec emax (float_of_Z 1) = true
      /\ valid_binary prec emax (float_of_Z 49) = true
      /\ (pow2 (-1022) * Qabs (float_to_Q (float_of_Z 49))
          <= Qabs (float_to_Q (float_of_Z 1)))%Q
      /\ is_finite (fmul (workload_per_agent m) (current_staff m)) = true
      /\ fmul (workload_per_agent m) (current_staff m) <> workload_step1 m
      /\ (Qabs (float_to_Q (fmul (workload_per_agent m) (current_staff m))
                - float_to_Q (workload_step1 m))
          <= Qabs (float_to_Q (workload_step1 m)) * (1 # 2 ^ 50))%Q.
Proof.
  assert (Hval : validate_data ascii_float_of_str [odd_staff_team]
                 = Ok (report_lines [odd_staff_team] [], []))
    by (vm_compute; reflexivity).
  assert (Hin : In odd_staff_team [odd_staff_team]) by (simpl; tauto).
  split; [exact Hval|]. split; [exact Hin|].
  eexists. split; [vm_compute; reflexivity|].
  do 4 (split; [vm_compute; reflexivity|]).
  split; [vm_compute; discriminate|].
  split; [vm_compute; reflexivity|].
  split; [vm_compute; discriminate|].
  eapply (workload_round_trip_within_rounding ascii_float_of_str [odd_staff_team] _
            odd_staff_team _ Hval Hin);
    [vm_compute; reflexivity..|vm_compute; discriminate|vm_compute; reflexivity].
Defined.

(** ** Values the validator does not survive *)

(** C5 fails on the code: a record whose [current_staff] is [None] (a JSON
    [null], or the cell a short CSV row lacks) makes [float] raise a
    [TypeError], which the [except ValueError] of [validate_data] does not
    catch: the validator raises instead of returning its two lists. *)
Theorem validate_data_raises_on_null :
  forall float_of_str : string -> option float,
    validate_data float_of_str [null_staff_team] = Raise TypeError.
Proof. intros float_of_str. vm_compute. reflexivity. Qed.

Lemma map_res_ok {A B : Type} (f : A -> Res B) (l : list A) :
  (forall a, In a l -> exists b, f a = Ok b) -> exists bs, map_res f l = Ok bs.
Proof.
  induction l as [|x l IH]; intros Hok; simpl.
  - now exists [].
  - destruct (Hok x (or_introl eq_refl)) as [b ->].
    destruct IH as [bs ->]; [intros a Ha; apply Hok; now right|].
    now exists (b :: bs).
Qed.

Lemma in_enumerate_r {A : Type} (l : list A) (i : nat) (a : A) :
  In (i, a) (enumerate l) -> In a l.
Proof. apply in_combine_r. Qed.

Section Convertible.

Variable float_of_str : string -> option float.

Lemma value_errors_convertible (i : nat) (team : dict) (field : string) :
  (forall v, get team field = Some v -> float_convertible v = true) ->
  exists errs, value_errors float_of_str i team field = Ok errs.
Proof.
  intros Hconv. unfold value_errors, check_value.
  destruct (get team field) as [raw|]; [|now eexists].
  specialize (Hconv raw eq_refl).
  destruct raw as [ |b|z|x|s|l|d]; try discriminate; cbn [py_float];
    cbn [float_convertible] in Hconv; rewrite ?Hconv;
    try destruct (float_of_str s);
    repeat match goal with
           | |- context [if ?c then _ else _] => destruct c
           end;
    cbn [bind]; now eexists.
Qed.

(** With such values in the numeric fields the validator returns: the
    only exceptions it lets through come from values [float] rejects with
    another error than [ValueError]. *)
Lemma validate_data_returns_on_convertible (teams : list dict) :
  (forall team field v,
      In team teams -> In field numeric_fields ->
      get team field = Some v -> float_convertible v = true) ->
  exists rep errs, validate_data float_of_str teams = Ok (rep, errs).
Proof.
  intros Hconv. destruct teams as [|team0 rest].
  - now do 2 eexists.
  - rewrite validate_data_nonempty by discriminate.
    unfold all_value_errors.
    destruct (map_res_ok (fun '(i, team) => row_errors float_of_str i team)
                (enumerate (team0 :: rest))) as [ds ->].
    + intros [i team] Hin. apply in_enumerate_r in Hin.
      unfold row_errors.
      destruct (map_res_ok (value_errors float_of_str i team) numeric_fields)
        as [dd ->].
      * intros field Hfield. apply value_errors_convertible.
        intros v; now apply Hconv.
      * now eexists.
    + cbn [bind]. now do 2 eexists.
Qed.

End Convertible.

(** ** Zero capacity *)

Lemma float_of_Z_0 : float_of_Z 0 = S754_zero false.
Proof. reflexivity. Qed.

Lemma feq_zero (x : float) :
  feq x (float_of_Z 0) = true -> exists s, x = S754_zero s.
Proof.
  rewrite float_of_Z_0.
  destruct x as [s|[]| |[] m e]; try (intros H; discriminate H).
  intros _; now exists s.
Qed.

Lemma agent_capacity_zero (h a : float) :
  feq a (float_of_Z 0) = true ->
  is_finite (fmul h (float_of_Z 60)) = true ->
  feq (agent_capacity_of h a) (float_of_Z 0) = true.
Proof.
  intros Ha Hfin. destruct (feq_zero a Ha) as [s ->].
  unfold agent_capacity_of.
  assert (Hfrac : exists s', fdiv (S754_zero s) (float_of_Z 100) = S754_zero s')
    by (now eexists).
  destruct Hfrac as [s' ->].
  destruct (fmul h (float_of_Z 60)) as [sc|sc| |sc m e]; try discriminate;
    reflexivity.
Qed.

(** ** The pipeline *)

Lemma py_bind_lift_ok {A B : Type} (a : A) (k : A -> Py B) :
  py_bind (lift (Ok a)) k = k a.
Proof. unfold py_bind, lift. now destruct (k a). Qed.

Lemma py_bind_lift_calls {A B : Type} (c : Py A) (k : A -> Res B) :
  snd (py_bind c (fun a => lift (k a))) = snd c.
Proof.
  destruct c as [[a|e] calls]; cbn [py_bind lift snd]; [|reflexivity].
  apply app_nil_r.
Qed.

Lemma py_bind_ret_calls {A B : Type} (c : Py A) (k : A -> B) :
  snd (py_bind c (fun a => py_ret (k a))) = snd c.
Proof. apply (py_bind_lift_calls c (fun a => Ok (k a))). Qed.

Lemma py_bind_raise {A B : Type} (c : Py A) (k : A -> Py B) (e : exn) :
  fst c = Raise e -> fst (py_bind c k) = Raise e.
Proof. destruct c as [[a|e'] calls]; cbn; congruence. Qed.

Section Pipeline.

Variable float_of_str : string -> option float.
Variable py_str : PyVal -> string.
Variable parse_data : string -> list dict + string.

Local Abbreviation calc := (call_calculate_metrics float_of_str).
Local Abbreviation report := (generate_report float_of_str py_str).
Local Abbreviation process := (process_input float_of_str py_str parse_data).

Lemma map_py_first_call (team : dict) (rest : list dict) :
  hd_error (snd (map_py calc (team :: rest))) = Some (CalcMetrics team).
Proof.
  cbn [map_py]. unfold call_calculate_metrics at 1, py_bind.
  destruct (calculate_metrics float_of_str team); [|reflexivity].
  destruct (map_py calc rest) as [[ms|e] calls]; reflexivity.
Qed.

Lemma map_py_raises (teams : list dict) :
  (forall team, In team teams ->
     (exists m, calculate_metrics float_of_str team = Ok m)
     \/ calculate_metrics float_of_str team = Raise ZeroDivisionError) ->
  (exists team, In team teams
                /\ calculate_metrics float_of_str team = Raise ZeroDivisionError) ->
  fst (map_py calc teams) = Raise ZeroDivisionError.
Proof.
  induction teams as [|team0 rest IH]; intros Hall [team [Hin Hraise]];
    [contradiction|].
  cbn [map_py]. unfold call_calculate_metrics at 1.
  destruct (Hall team0 (or_introl eq_refl)) as [[m Hm]|Hz]; rewrite ?Hm, ?Hz;
    [|reflexivity].
  assert (Hrest : fst (map_py calc rest) = Raise ZeroDivisionError).
  { apply IH; [intros t Ht; apply Hall; now right|].
    destruct Hin as [<-|Hin]; [congruence|eauto]. }
  unfold py_bind at 1.
  match goal with
  | |- context [py_bind (map_py calc rest) ?k] =>
      pose proof (py_bind_raise (map_py calc rest) k _ Hrest) as Hbind;
      destruct (py_bind (map_py calc rest) k) as [r calls]
  end.
  exact Hbind.
Qed.

Lemma generate_report_calls (teams : list dict) :
  snd (report teams) = snd (map_py calc teams).
Proof. unfold generate_report. apply py_bind_lift_calls. Qed.

(** What [process_input] does once the batch is parsed and validated. *)
Lemma process_input_validated (input : string) (teams : list dict)
    (rep errs : list string) :
  parse_data input = inl teams ->
  validate_data float_of_str teams = Ok (rep, errs) ->
  process input
  = match errs with
    | _ :: _ => py_ret (join nl rep)
    | [] =>
        py_bind (report teams)
          (fun final_report => py_ret (join nl rep +:+ nl +:+ nl +:+ final_report))
    end.
Proof.
  intros Hparse Hval. unfold process_input.
  rewrite Hparse, Hval, py_bind_lift_ok. reflexivity.
Qed.

(** The gate of [process_input]: once the batch is parsed and the
    validator has returned, a non-empty error list makes the pipeline
    return the validation report and nothing else, without one call to
    [calculate_metrics]; for a non-empty batch that report lists every
    collected error.  A call to [calculate_metrics] happens only when the
    error list is empty, and then the first record is passed to it. *)
Theorem process_input_gate (input : string) (teams : list dict)
    (rep errs : list string) :
  parse_data input = inl teams ->
  validate_data float_of_str teams = Ok (rep, errs) ->
  (errs <> [] ->
     process input = (Ok (join nl rep), [])
     /\ (teams <> [] -> forall e, In e errs -> In ("- " +:+ e) rep))
  /\ (snd (process input) <> [] -> errs = [])
  /\ (errs = [] ->
        exists team0,
          hd_error teams = Some team0
          /\ hd_error (snd (process input)) = Some (CalcMetrics team0)).
Proof.
  intros Hparse Hval.
  pose proof (process_input_validated input teams rep errs Hparse Hval) as Hrun.
  split; [|split].
  - intros Herrs. split.
    + destruct errs; [congruence|exact Hrun].
    + intros Hne e He.
      rewrite (validate_data_nonempty float_of_str teams Hne) in Hval.
      destruct (all_value_errors float_of_str teams) as [verrs|ex];
        [|discriminate].
      cbn [bind] in Hval. cbv zeta in Hval. injection Hval as <- <-.
      unfold report_lines.
      do 5 (apply in_or_app; right).
      match goal with
      | |- In _ (summary_lines ?l) => destruct l as [|e0 l'] eqn:Hl
      end; [contradiction|].
      unfold summary_lines. apply in_or_app; right. apply in_or_app; left.
      now apply (in_map (fun error => "- " +:+ error)).
  - intros Hcalls. destruct errs as [|e errs]; [reflexivity|].
    rewrite Hrun in Hcalls. now contradiction Hcalls.
  - intros ->. destruct teams as [|team0 rest]; [discriminate|].
    exists team0. split; [reflexivity|].
    rewrite Hrun, py_bind_ret_calls, generate_report_calls.
    apply map_py_first_call.
Qed.

(** C7, amended: a record of a batch that passed validation whose
    available capacity converts to zero, and whose shift hours times 60
    stay finite, has a zero agent capacity; [calculate_metrics] raises
    [ZeroDivisionError], an [ArithmeticError], on it, and [process_input]
    lets the error through and returns no report. *)
Theorem zero_capacity_raises (input : string) (teams : list dict)
    (rep : list string) (team : dict) (h a : float) :
  parse_data input = inl teams ->
  validate_data float_of_str teams = Ok (rep, []) ->
  In team teams ->
  field_float float_of_str team "shift_hours" = Ok h ->
  field_float float_of_str team "available_capacity" = Ok a ->
  feq a (float_of_Z 0) = true ->
  is_finite (fmul h (float_of_Z 60)) = true ->
  feq (agent_capacity_of h a) (float_of_Z 0) = true
  /\ calculate_metrics float_of_str team = Raise ZeroDivisionError
  /\ is_ArithmeticError ZeroDivisionError = true
  /\ fst (process input) = Raise ZeroDivisionError.
Proof.
  intros Hparse Hval Hin Hh Ha Hzero Hfin.
  pose proof (agent_capacity_zero h a Hzero Hfin) as Hcap.
  assert (Hraise : calculate_metrics float_of_str team = Raise ZeroDivisionError).
  { destruct (calculate_metrics_validated float_of_str teams rep team Hval Hin)
      as (tid & cs & q & t & h' & a' & r & _ & _ & _ & _ & Hh' & Ha' & _ & Hcalc).
    rewrite Hh in Hh'. rewrite Ha in Ha'.
    injection Hh' as <-. injection Ha' as <-.
    now rewrite Hcap in Hcalc. }
  repeat split; try assumption.
  rewrite (process_input_validated input teams rep [] Hparse Hval).
  apply py_bind_raise. unfold generate_report.
  apply py_bind_raise. apply map_py_raises.
  - intros team' Hin'.
    destruct (calculate_metrics_validated float_of_str teams rep team' Hval Hin')
      as (tid & cs & q & t & h' & a' & r & _ & _ & _ & _ & _ & _ & _ & Hcalc).
    rewrite Hcalc.
    destruct (feq (agent_capacity_of h' a') (float_of_Z 0)
              || feq (required_staff_of q t h' a') (float_of_Z 0));
      [now right|left; now eexists].
  - exists team. now split.
Qed.

End Pipeline.

Lemma process_input_gate_witness :
  invalid_parse_data "input" = inl invalid_batch
  /\ validate_data ascii_float_of_str invalid_batch
     = Ok (report_lines invalid_batch invalid_batch_errors, invalid_batch_errors)
  /\ process_input ascii_float_of_str id_str invalid_parse_data "input"
     = (Ok (join nl (report_lines invalid_batch invalid_batch_errors)), [])
  /\ In ("- " +:+ hd "" invalid_batch_errors)
        (report_lines invalid_batch invalid_batch_errors).
Proof.
  assert (Hparse : invalid_parse_data "input" = inl invalid_batch) by reflexivity.
  assert (Hval : validate_data ascii_float_of_str invalid_batch
                 = Ok (report_lines invalid_batch invalid_batch_errors,
                       invalid_batch_errors))
    by (vm_compute; reflexivity).
  split; [exact Hparse|]. split; [exact Hval|].
  destruct (process_input_gate ascii_float_of_str id_str invalid_parse_data
              "input" invalid_batch _ _ Hparse Hval) as [Hgate _].
  destruct Hgate as [Hrun Hrep]; [discriminate|].
  split; [exact Hrun|].
  apply Hrep; [discriminate|now left].
Defined.

(** C1 fails on the code at the empty batch: the validator collects the
    error "No teams found in the input data." and returns before its
    summary section, so the report [process_input] returns, the four lines
    of the structure check, does not contain the error it answers for. *)
Theorem empty_batch_error_is_not_reported :
  forall (float_of_str : string -> option float) (py_str : PyVal -> string)
         (input : string),
  exists rep,
    validate_data float_of_str []
    = Ok (rep, ["ERROR: No teams found in the input data."])
    /\ process_input float_of_str py_str empty_parse_data input
       = (Ok (join nl rep), [])
    /\ (forall line, In line rep -> str_in "No teams found" line = false)
    /\ str_in "No teams found" (join nl rep) = false.
Proof.
  intros float_of_str py_str input. eexists.
  split; [reflexivity|]. split; [reflexivity|]. split; [|reflexivity].
  intros line [<-|[<-|[<-|[<-|[]]]]]; reflexivity.
Qed.

Lemma zero_capacity_raises_witness :
  zero_capacity_parse_data "input" = inl zero_capacity_batch
  /\ validate_data ascii_float_of_str zero_capacity_batch
     = Ok (report_lines zero_capacity_batch [], [])
  /\ In zero_capacity_team zero_capacity_batch
  /\ field_float ascii_float_of_str zero_capacity_team "shift_hours"
     = Ok (float_of_Z 8)
  /\ field_float ascii_float_of_str zero_capacity_team "available_capacity"
     = Ok (float_of_Z 0)
  /\ feq (float_of_Z 0) (float_of_Z 0) = true
  /\ is_finite (fmul (float_of_Z 8) (float_of_Z 60)) = true
  /\ calculate_metrics ascii_float_of_str zero_capacity_team
     = Raise ZeroDivisionError
  /\ fst (process_input ascii_float_of_str id_str zero_capacity_parse_data "input")
     = Raise ZeroDivisionError.
Proof.
  assert (Hparse : zero_capacity_parse_data "input" = inl zero_capacity_batch)
    by reflexivity.
  assert (Hval : validate_data ascii_float_of_str zero_capacity_batch
                 = Ok (report_lines zero_capacity_batch [], []))
    by (vm_compute; reflexivity).
  assert (Hin : In zero_capacity_team zero_capacity_batch) by (simpl; tauto).
  assert (Hh : field_float ascii_float_of_str zero_capacity_team "shift_hours"
               = Ok (float_of_Z 8)) by (vm_compute; reflexivity).
  assert (Ha : field_float ascii_float_of_str zero_capacity_team
                 "available_capacity" = Ok (float_of_Z 0))
    by (vm_compute; reflexivity).
  assert (Hzero : feq (float_of_Z 0) (float_of_Z 0) = true) by reflexivity.
  assert (Hfin : is_finite (fmul (float_of_Z 8) (float_of_Z 60)) = true)
    by (vm_compute; reflexivity).
  repeat (split; [assumption|]).
  destruct (zero_capacity_raises ascii_float_of_str id_str zero_capacity_parse_data
              "input" zero_capacity_batch _ zero_capacity_team _ _
              Hparse Hval Hin Hh Ha Hzero Hfin) as (_ & Hcalc & _ & Hrun).
  split; assumption.
Defined.

(** C7 as stated fails: with no available capacity and shift hours whose
    product with 60 overflows, the record passes validation, the agent
    capacity is not zero but NaN, no error is raised, and the metrics and
    the report carry NaN. *)
Lemma overflowing_shift_gives_nan :
  validate_data ascii_float_of_str [overflow_team]
  = Ok (report_lines [overflow_team] [], [])
  /\ field_float ascii_float_of_str overflow_team "available_capacity"
     = Ok (float_of_Z 0)
  /\ (exists m,
        calculate_metrics ascii_float_of_str overflow_team = Ok m
        /\ is_nan (agent_capacity m) = true
        /\ is_nan (utilization_rate m) = true
        /\ is_nan (composite_score m) = true
        /\ is_nan (staffing_efficiency_ratio m) = true)
  /\ exists text,
      fst (process_input ascii_float_of_str id_str overflow_parse_data "input")
      = Ok text
      /\ str_in "Final Utilization Rate: nan%" text = true.
Proof.
  split; [vm_compute; reflexivity|].
  split; [vm_compute; reflexivity|].
  split.
  - eexists. split; [vm_compute; reflexivity|]. repeat split.
  - eexists. split; vm_compute; reflexivity.
Qed.

(** ** Searching the error strings *)

Lemma char_absent_append (c : ascii) (s1 s2 : string) :
  char_absent c (s1 +:+ s2) = char_absent c s1 && char_absent c s2.
Proof.
  induction s1 as [|a s1 IH]; simpl; [reflexivity|].
  now rewrite IH, andb_assoc.
Qed.

Lemma prefix_cons_ne (c a : ascii) (n s : string) :
  Ascii.eqb c a = false -> String.prefix (String c n) (String a s) = false.
Proof.
  intros Hne. simpl. destruct (ascii_dec c a) as [->|_]; [|reflexivity].
  now rewrite Ascii.eqb_refl in Hne.
Qed.

Lemma str_in_step (needle : string) (a : ascii) (s : string) :
  str_in needle (String a s)
  = String.prefix needle (String a s) || str_in needle s.
Proof. reflexivity. Qed.

(** A needle cannot start where its first character does not occur. *)
Lemma str_in_absent (c : ascii) (n hay : string) :
  char_absent c hay = true -> str_in (String c n) hay = false.
Proof.
  induction hay as [|a hay IH]; intros Habs; [reflexivity|].
  cbn [char_absent] in Habs. apply andb_prop in Habs as [Hne Habs].
  apply negb_true_iff in Hne.
  now rewrite str_in_step, prefix_cons_ne, IH.
Qed.

Lemma str_in_skip (c : ascii) (n pre rest : string) :
  char_absent c pre = true ->
  str_in (String c n) (pre +:+ rest) = str_in (String c n) rest.
Proof.
  induction pre as [|a pre IH]; intros Habs; [reflexivity|].
  cbn [char_absent] in Habs. apply andb_prop in Habs as [Hne Habs].
  apply negb_true_iff in Hne.
  cbn [append]. now rewrite str_in_step, prefix_cons_ne, IH.
Qed.

(** Two quoted names of which one starts the other are the same name. *)
Lemma prefix_quoted (f g rest : string) :
  char_absent "'" f = true -> char_absent "'" g = true ->
  String.prefix (f +:+ "'") (g +:+ String "'" rest) = true -> f = g.
Proof.
  revert g; induction f as [|a f IH]; intros [|b g] Hf Hg Hpre.
  - reflexivity.
  - cbn [char_absent] in Hg. apply andb_prop in Hg as [Hb _].
    apply negb_true_iff in Hb.
    cbn [append] in Hpre. now rewrite prefix_cons_ne in Hpre.
  - cbn [char_absent] in Hf. apply andb_prop in Hf as [Ha _].
    apply negb_true_iff in Ha. rewrite Ascii.eqb_sym in Ha.
    cbn [append] in Hpre. now rewrite prefix_cons_ne in Hpre.
  - cbn [char_absent] in Hf, Hg.
    apply andb_prop in Hf as [_ Hf]. apply andb_prop in Hg as [_ Hg].
    cbn [append String.prefix] in Hpre.
    destruct (ascii_dec a b) as [->|_]; [|discriminate].
    f_equal. now apply IH.
Qed.

Lemma digits_absent (d : Decimal.uint) :
  char_absent "I" (NilEmpty.string_of_uint d) = true
  /\ char_absent "'" (NilEmpty.string_of_uint d) = true.
Proof. induction d; simpl; auto. Qed.

Lemma str_nat_absent (n : nat) :
  char_absent "I" (str_nat n) = true /\ char_absent "'" (str_nat n) = true.
Proof. apply digits_absent. Qed.

(** The field names hold neither an [I] nor a quote. *)
Lemma valid_field_plain (field : string) :
  In field valid_fields ->
  char_absent "I" field = true /\ char_absent "'" field = true.
Proof.
  intros Hin. simpl in Hin.
  repeat (destruct Hin as [<-|Hin]; [split; reflexivity|]). contradiction.
Qed.

Lemma numeric_field_valid (field : string) :
  In field numeric_fields -> In field valid_fields.
Proof. intros Hin; now right. Qed.

Lemma needle_not_in_missing (f g : string) (i : nat) :
  char_absent "I" g = true ->
  str_in (invalid_value_needle f) (missing_field_error g i) = false.
Proof.
  intros Hg. unfold invalid_value_needle, missing_field_error.
  cbn [append]. apply str_in_absent.
  change (char_absent "I"
            ("ERROR: Missing required field '" +:+ g +:+ "' in row " +:+
             str_nat (i + 1) +:+ ".") = true).
  rewrite !char_absent_append, Hg. now rewrite (proj1 (str_nat_absent _)).
Qed.

Lemma needle_not_in_type_error (f g : string) (i : nat) :
  char_absent "I" g = true ->
  str_in (invalid_value_needle f) (invalid_type_error g i) = false.
Proof.
  intros Hg. unfold invalid_value_needle, invalid_type_error.
  set (tail := g +:+ "' in row " +:+ str_nat (i + 1) +:+ ". Expected a numeric value.").
  assert (Htail : char_absent "I" tail = true).
  { unfold tail. rewrite !char_absent_append, Hg.
    now rewrite (proj1 (str_nat_absent _)). }
  change (str_in (String "I" ("nvalid value for '" +:+ f +:+ "'"))
            ("ERROR: " +:+ String "I" ("nvalid data type for '" +:+ tail)) = false).
  rewrite str_in_skip by reflexivity.
  rewrite str_in_step.
  change (String.prefix (String "I" ("nvalid value for '" +:+ f +:+ "'"))
            (String "I" ("nvalid data type for '" +:+ tail))) with false.
  cbn [orb]. apply str_in_absent.
  now rewrite char_absent_append, Htail.
Qed.

Lemma needle_not_in_other_value_error (f g expected : string) (i : nat) :
  char_absent "I" g = true -> char_absent "'" g = true ->
  char_absent "'" f = true ->
  char_absent "I" expected = true ->
  f <> g ->
  str_in (invalid_value_needle f) (invalid_value_error g i expected) = false.
Proof.
  intros Hg Hgq Hfq Hexp Hne. unfold invalid_value_needle, invalid_value_error.
  set (rest := " in row " +:+ str_nat (i + 1) +:+ ". Expected " +:+ expected +:+ ".").
  assert (Hrest : char_absent "I" rest = true).
  { unfold rest. rewrite !char_absent_append, Hexp.
    now rewrite (proj1 (str_nat_absent _)). }
  change (str_in (String "I" ("nvalid value for '" +:+ f +:+ "'"))
            ("ERROR: " +:+ String "I" ("nvalid value for '" +:+ g +:+ String "'" rest))
          = false).
  rewrite str_in_skip by reflexivity.
  rewrite str_in_step.
  change (String.prefix (String "I" ("nvalid value for '" +:+ f +:+ "'"))
            (String "I" ("nvalid value for '" +:+ g +:+ String "'" rest)))
    with (String.prefix (f +:+ "'") (g +:+ String "'" rest)).
  destruct (String.prefix (f +:+ "'") (g +:+ String "'" rest)) eqn:Hpre.
  - now apply prefix_quoted in Hpre.
  - cbn [orb]. apply str_in_absent.
    rewrite !char_absent_append, Hg. cbn [char_absent]. now rewrite Hrest.
Qed.

(** ** The per-field status lines *)

Lemma in_concat_map_res {A : Type} (f : A -> Res (list string)) (l : list A)
    (ds : list (list string)) (e : string) :
  map_res f l = Ok ds -> In e (List.concat ds) ->
  exists a d, In a l /\ f a = Ok d /\ In e d.
Proof.
  revert ds; induction l as [|x l IH]; simpl; intros ds Hmap Hin.
  - injection Hmap as <-. contradiction.
  - destruct (f x) as [d|ex] eqn:Hx; simpl in Hmap; [|discriminate].
    destruct (map_res f l) as [ds'|ex] eqn:Hl; simpl in Hmap; [|discriminate].
    injection Hmap as <-. simpl in Hin. apply in_app_or in Hin as [Hin|Hin].
    + exists x, d. auto.
    + destruct (IH ds' eq_refl Hin) as (a & d' & Ha & Hfa & He).
      exists a, d'. auto.
Qed.

Lemma existsb_false {A : Type} (f : A -> bool) (l : list A) :
  (forall a, In a l -> f a = false) -> existsb f l = false.
Proof.
  induction l as [|x l IH]; intros Hall; simpl; [reflexivity|].
  rewrite (Hall x (or_introl eq_refl)). apply IH.
  intros a Ha; apply Hall; now right.
Qed.

Lemma nth_error_skip {A : Type} (pre l : list A) (m n : nat) :
  List.length pre = m -> nth_error (pre ++ l) (m + n) = nth_error l n.
Proof. intros <-. induction pre; simpl; auto. Qed.

(** Where the status lines stand in the report. *)
Lemma report_lines_status (teams : list dict) (errs : list string) (k : nat)
    (kind field : string) :
  nth_error status_fields k = Some (kind, field) ->
  nth_error (report_lines teams errs) (13 + k)
  = Some (status_text kind field errs).
Proof.
  intros Hk. unfold report_lines.
  change (13 + k) with (5 + (7 + (1 + k))).
  rewrite (nth_error_skip _ _ 5) by reflexivity.
  rewrite (nth_error_skip _ _ 7) by reflexivity.
  rewrite (nth_error_skip _ _ 1) by reflexivity.
  rewrite nth_error_app1
    by (apply nth_error_Some; rewrite nth_error_map, Hk; discriminate).
  now rewrite nth_error_map, Hk.
Qed.

Lemma status_text_spelled (kind field : string) (errs : list string) :
  status_text kind field errs
  = " - " +:+ field +:+ " (" +:+ kind +:+ "): " +:+
    (if existsb (str_in ("Invalid value for '" +:+ field +:+ "'")) errs
     then "not valid" else "validated").
Proof.
  unfold status_text, invalid_value_needle.
  destruct (existsb _ errs); reflexivity.
Qed.

Section StatusLines.

Variable float_of_str : string -> option float.

(** An error of the value check is a type error for a value [float]
    rejects, or a range error for a value it accepts. *)
Lemma value_errors_cases (i : nat) (team : dict) (g : string) (d : list string)
    (e : string) :
  value_errors float_of_str i team g = Ok d -> In e d ->
  (e = invalid_type_error g i
   /\ exists v, get team g = Some v /\ py_float float_of_str v = Raise ValueError)
  \/ (exists expected v x,
        e = invalid_value_error g i expected
        /\ get team g = Some v /\ py_float float_of_str v = Ok x
        /\ char_absent "I" expected = true).
Proof.
  unfold value_errors, check_value.
  destruct (get team g) as [v|]; cbn [bind].
  2:{ intros Hd; injection Hd as <-. contradiction. }
  destruct (py_float float_of_str v) as [x|ex] eqn:Hv.
  - repeat match goal with
           | |- context [if ?c then _ else _] => destruct c
           end;
      cbn [bind errors_append validation_errors empty_state app];
      intros Hd; injection Hd as <-; intros Hin;
      try contradiction;
      (destruct Hin as [<-|[]]; right; eexists; exists v, x;
       repeat split; reflexivity || exact Hv).
  - destruct ex; cbn [bind errors_append validation_errors empty_state app];
      try discriminate.
    intros Hd; injection Hd as <-. intros [<-|[]].
    left. split; [reflexivity|]. now exists v.
Qed.

(** C10: on a non-empty batch, line [13 + k] of the report is the status
    line of the [k]-th numeric field, and it says "validated" exactly when
    no collected error contains ["Invalid value for '<field>'"].  Hence a
    field that is missing, or whose value is not numeric, in every record
    is shown as validated although the error list is not empty. *)
Theorem status_lines_follow_needle (teams : list dict) (rep errs : list string) :
  teams <> [] ->
  validate_data float_of_str teams = Ok (rep, errs) ->
  (forall k kind field,
      nth_error status_fields k = Some (kind, field) ->
      nth_error rep (13 + k)
      = Some (" - " +:+ field +:+ " (" +:+ kind +:+ "): " +:+
              (if existsb (str_in ("Invalid value for '" +:+ field +:+ "'")) errs
               then "not valid" else "validated")))
  /\ (forall field,
        In field numeric_fields ->
        (forall team, In team teams ->
           get team field = None
           \/ exists v, get team field = Some v
                        /\ py_float float_of_str v = Raise ValueError) ->
        errs <> []
        /\ existsb (str_in ("Invalid value for '" +:+ field +:+ "'")) errs = false).
Proof.
  intros Hne Hval. split.
  - rewrite (validate_data_nonempty float_of_str teams Hne) in Hval.
    destruct (all_value_errors float_of_str teams) as [verrs|ex]; [|discriminate].
    cbn [bind] in Hval. cbv zeta in Hval. injection Hval as <- <-.
    intros k kind field Hk.
    rewrite (report_lines_status _ _ k kind field Hk).
    now rewrite status_text_spelled.
  - intros field Hfield Hbad. split.
    + intros ->.
      destruct teams as [|team0 rest]; [congruence|].
      destruct (validated_record float_of_str _ rep team0 Hval (or_introl eq_refl))
        as [_ Hnum].
      destruct (Hnum field Hfield) as [x [Hx _]].
      unfold field_float, getitem in Hx.
      destruct (Hbad team0 (or_introl eq_refl)) as [Hnone|[v [Hv Hraise]]].
      * rewrite Hnone in Hx. discriminate.
      * rewrite Hv in Hx. cbn [bind] in Hx. congruence.
    + rewrite (validate_data_nonempty float_of_str teams Hne) in Hval.
      destruct (all_value_errors float_of_str teams) as [verrs|ex] eqn:Hverrs;
        [|discriminate].
      cbn [bind] in Hval. cbv zeta in Hval. injection Hval as _ <-.
      apply existsb_false. intros e He.
      change ("Invalid value for '" +:+ field +:+ "'")
        with (invalid_value_needle field).
      apply in_app_or in He as [He|He].
      * change (In e (flat_map (missing_errors teams) valid_fields)) in He.
        apply in_flat_map in He as [g [Hg He]].
        unfold missing_errors in He.
        apply in_flat_map in He as [[i team] [_ He]].
        destruct (negb (has_key g team)); [|contradiction].
        destruct He as [<-|[]].
        apply needle_not_in_missing. now apply valid_field_plain.
      * unfold all_value_errors in Hverrs.
        destruct (map_res _ (enumerate teams)) as [ds|ex] eqn:Hrows;
          [|discriminate].
        injection Hverrs as <-.
        destruct (in_concat_map_res _ _ _ _ Hrows He)
          as ([i team] & d & Hin & Hrow & Hed).
        apply in_enumerate_r in Hin.
        unfold row_errors in Hrow.
        destruct (map_res _ numeric_fields) as [dd|ex] eqn:Hcols; [|discriminate].
        injection Hrow as <-.
        destruct (in_concat_map_res _ _ _ _ Hcols Hed)
          as (g & d' & Hg & Hge & Hed').
        pose proof (valid_field_plain g (numeric_field_valid g Hg)) as [HgI Hgq].
        pose proof (valid_field_plain field (numeric_field_valid field Hfield))
          as [_ Hfq].
        destruct (value_errors_cases i team g d' e Hge Hed')
          as [[-> _]|(expected & v & x & -> & Hv & Hx & Hexp)].
        -- now apply needle_not_in_type_error.
        -- apply needle_not_in_other_value_error; try assumption.
           intros <-.
           destruct (Hbad team Hin) as [Hnone|[v' [Hv' Hraise]]]; congruence.
Qed.

End StatusLines.

Lemma status_lines_follow_needle_witness :
  [unparsed_team] <> []
  /\ validate_data ascii_float_of_str [unparsed_team]
     = Ok (report_lines [unparsed_team] unparsed_errors, unparsed_errors)
  /\ nth_error (report_lines [unparsed_team] unparsed_errors) 14
     = Some " - queries_per_day (positive integer): validated"
  /\ unparsed_errors <> [].
Proof.
  assert (Hne : [unparsed_team] <> []) by discriminate.
  assert (Hval : validate_data ascii_float_of_str [unparsed_team]
                 = Ok (report_lines [unparsed_team] unparsed_errors,
                       unparsed_errors))
    by (vm_compute; reflexivity).
  split; [exact Hne|]. split; [exact Hval|].
  destruct (status_lines_follow_needle ascii_float_of_str [unparsed_team] _ _
              Hne Hval) as [Hlines Hfields].
  destruct (Hfields "queries_per_day") as [Herrs Hneedle].
  - simpl; tauto.
  - intros team [<-|[]]. right. exists (PyStr "many").
    split; [reflexivity|vm_compute; reflexivity].
  - split; [|exact Herrs].
    pose proof (Hlines 1 "positive integer" "queries_per_day" eq_refl) as Hline.
    rewrite Hneedle in Hline. exact Hline.
Defined.

(** ** The sample run of [main] *)

(** On the sample batch the pipeline calls [calculate_metrics] once per
    team, in order, and returns a report. *)
Example sample_run :
  exists text,
    process_input ascii_float_of_str id_str sample_parse_data "sample"
    = (Ok text, map CalcMetrics sample_teams).
Proof. eexists. vm_compute. reflexivity. Qed.

(** * Beyond the specification

    Properties the code shows of itself: what the validator accepts and
    reports, what the metrics and the report depend on and how they fail,
    and the parts around them: the detection of the input format, the
    templates and the feedback. *)

(** ** What the validator accepts and reports *)

Lemma in_enumerate_from_nth {A : Type} (l : list A) (k i : nat) (a : A) :
  In (i, a) (combine (seq k (List.length l)) l)
  <-> k <= i /\ nth_error l (i - k) = Some a.
Proof.
  revert k; induction l as [|x l IH]; intros k; simpl.
  - split; [contradiction|]. intros [_ H]. destruct (i - k); discriminate.
  - rewrite IH. split.
    + intros [Heq|[Hle Hnth]].
      * injection Heq as <- <-. split; [lia|]. now rewrite Nat.sub_diag.
      * split; [lia|]. replace (i - k) with (S (i - S k)) by lia. exact Hnth.
    + intros [Hle Hnth]. destruct (i - k) as [|n] eqn:Hik.
      * left. injection Hnth as <-. f_equal. lia.
      * right. split; [lia|]. replace (i - S k) with n by lia. exact Hnth.
Qed.

Lemma in_enumerate_nth {A : Type} (l : list A) (i : nat) (a : A) :
  In (i, a) (enumerate l) <-> nth_error l i = Some a.
Proof.
  unfold enumerate. rewrite in_enumerate_from_nth, Nat.sub_0_r.
  split; [tauto|]. intros H; split; [lia|exact H].
Qed.

Section Errors.

Variable float_of_str : string -> option float.

(** The value check of one field of one row, in closed form. *)
Lemma value_errors_spec (i : nat) (team : dict) (field : string) :
  In field numeric_fields ->
  value_errors float_of_str i team field
  = match get team field with
    | None => Ok []
    | Some v =>
        match py_float float_of_str v with
        | Ok x =>
            Ok (if value_ok field x then []
                else [invalid_value_error field i (expected_text field)])
        | Raise ValueError => Ok [invalid_type_error field i]
        | Raise e => Raise e
        end
    end.
Proof.
  intros Hfield. unfold value_errors, check_value, value_ok, expected_text.
  destruct (get team field) as [v|]; [|reflexivity].
  destruct (py_float float_of_str v) as [x|[]]; try reflexivity.
  simpl in Hfield.
  destruct Hfield as [<-|[<-|[<-|[<-|[<-|[<-|[]]]]]]];
    cbn [mem existsb String.eqb Ascii.eqb Bool.eqb orb andb percentage_fields];
    match goal with
    | |- context [if ?c then Ok (errors_append _ _) else _] => destruct c
    end; reflexivity.
Qed.

End Errors.

Lemma map_res_all_nil {A : Type} (f : A -> Res (list string)) (l : list A) :
  (forall a, In a l -> f a = Ok []) ->
  exists ds, map_res f l = Ok ds /\ List.concat ds = [].
Proof.
  induction l as [|x l IH]; intros Hall; simpl.
  - now exists [].
  - rewrite (Hall x (or_introl eq_refl)).
    destruct IH as [ds [-> Hds]]; [intros a Ha; apply Hall; now right|].
    exists ([] :: ds). split; [reflexivity|exact Hds].
Qed.

Lemma map_res_raise {A B : Type} (f : A -> Res B) (l : list A) (e : exn) :
  map_res f l = Raise e -> exists a, In a l /\ f a = Raise e.
Proof.
  induction l as [|x l IH]; simpl; [discriminate|].
  destruct (f x) as [b|ex] eqn:Hx; simpl.
  - destruct (map_res f l) as [bs|ex]; simpl; [discriminate|].
    intros H; injection H as ->. destruct (IH eq_refl) as [a [Ha Hfa]].
    exists a; auto.
  - intros H; injection H as ->. exists x; auto.
Qed.

Lemma map_res_raises {A B : Type} (f : A -> Res B) (l : list A) (a : A) (e : exn) :
  In a l -> f a = Raise e -> exists e', map_res f l = Raise e'.
Proof.
  induction l as [|x l IH]; simpl; [contradiction|].
  intros [->|Ha] Hfa.
  - rewrite Hfa. now eexists.
  - destruct (f x) as [b|ex]; simpl; [|now eexists].
    destruct (IH Ha Hfa) as [e' ->]. now eexists.
Qed.

Lemma map_res_in_concat {A : Type} (f : A -> Res (list string)) (l : list A)
    (ds : list (list string)) (a : A) (d : list string) (x : string) :
  map_res f l = Ok ds -> In a l -> f a = Ok d -> In x d -> In x (List.concat ds).
Proof.
  revert ds; induction l as [|y l IH]; simpl; intros ds Hmap Ha Hfa Hx;
    [contradiction|].
  destruct (f y) as [dy|ex] eqn:Hy; simpl in Hmap; [|discriminate].
  destruct (map_res f l) as [ds'|ex] eqn:Hl; simpl in Hmap; [|discriminate].
  injection Hmap as <-. simpl. apply in_or_app.
  destruct Ha as [->|Ha].
  - left. congruence.
  - right. now apply IH.
Qed.

Lemma flat_map_all_nil {A B : Type} (f : A -> list B) (l : list A) :
  (forall a, In a l -> f a = []) -> flat_map f l = [].
Proof.
  induction l as [|x l IH]; intros Hall; simpl; [reflexivity|].
  rewrite (Hall x (or_introl eq_refl)). apply IH.
  intros a Ha; apply Hall; now right.
Qed.

Lemma mem_In (k : string) (l : list string) : mem k l = true <-> In k l.
Proof.
  unfold mem. rewrite existsb_exists. split.
  - intros [k' [Hin Heq]]. apply String.eqb_eq in Heq. now subst.
  - intros Hin. exists k. split; [assumption|apply String.eqb_refl].
Qed.

Section Verdict.

Variable float_of_str : string -> option float.

Lemma validate_data_raise (teams : list dict) (e : exn) :
  validate_data float_of_str teams = Raise e ->
  exists i team field v,
    nth_error teams i = Some team /\ In field numeric_fields
    /\ get team field = Some v /\ py_float float_of_str v = Raise e
    /\ e <> ValueError.
Proof.
  intros Hval. destruct teams as [|team0 rest]; [discriminate|].
  rewrite validate_data_nonempty in Hval by discriminate.
  unfold all_value_errors in Hval.
  destruct (map_res _ (enumerate (team0 :: rest))) as [ds|ex] eqn:Hrows;
    [discriminate|].
  injection Hval as ->.
  apply map_res_raise in Hrows as [[i team] [Hin Hrow]].
  apply in_enumerate_nth in Hin.
  unfold row_errors in Hrow.
  destruct (map_res _ numeric_fields) as [dd|ex] eqn:Hcols; [discriminate|].
  injection Hrow as ->.
  apply map_res_raise in Hcols as [field [Hfield Hcol]].
  rewrite (value_errors_spec float_of_str i team field Hfield) in Hcol.
  destruct (get team field) as [v|] eqn:Hv; [|discriminate].
  exists i, team, field, v.
  destruct (py_float float_of_str v) as [x|ex]; [discriminate|].
  destruct ex; try discriminate; injection Hcol as <-;
    repeat split; auto; discriminate.
Qed.

Lemma record_valid_fields (team : dict) :
  record_valid float_of_str team ->
  forall field, In field valid_fields -> has_key field team = true.
Proof.
  intros [Hid Hnum] field [<-|Hfield]; [exact Hid|].
  destruct (Hnum field Hfield) as [x [Hx _]].
  unfold field_float, getitem in Hx. unfold has_key.
  destruct (get team field); [reflexivity|discriminate].
Qed.

Lemma row_errors_valid (i : nat) (team : dict) :
  record_valid float_of_str team -> row_errors float_of_str i team = Ok [].
Proof.
  intros [_ Hnum]. unfold row_errors.
  destruct (map_res_all_nil (value_errors float_of_str i team) numeric_fields)
    as [ds [-> Hds]]; [|cbn [bind]; now rewrite Hds].
  intros field Hfield. rewrite value_errors_spec by assumption.
  destruct (Hnum field Hfield) as [x [Hx Hok]].
  unfold field_float, getitem in Hx.
  destruct (get team field) as [v|]; [|discriminate].
  cbn [bind] in Hx. now rewrite Hx, Hok.
Qed.

Lemma validate_data_valid (teams : list dict) :
  teams <> [] ->
  (forall team, In team teams -> record_valid float_of_str team) ->
  validate_data float_of_str teams = Ok (report_lines teams [], []).
Proof.
  intros Hne Hall. rewrite validate_data_nonempty by assumption.
  unfold all_value_errors.
  destruct (map_res_all_nil (fun '(i, team) => row_errors float_of_str i team)
              (enumerate teams)) as [ds [-> Hds]].
  { intros [i team] Hin. apply row_errors_valid, Hall.
    now apply in_enumerate_r in Hin. }
  cbn [bind]. rewrite Hds. cbv zeta.
  rewrite (flat_map_all_nil (missing_errors teams) valid_fields); [reflexivity|].
  intros field Hfield. apply missing_errors_nil, forallb_forall.
  intros team Hin. now apply record_valid_fields; [apply Hall|].
Qed.

(** X1: the validator returns an empty error list exactly on the
    non-empty batches all of whose records are valid: each has an
    identifier and, for each of the six numeric fields, a value that [float]
    accepts and that lies in the field's range. *)
Theorem validator_accepts_exactly_valid_batches (teams : list dict) :
  (exists rep, validate_data float_of_str teams = Ok (rep, []))
  <-> (teams <> [] /\ forall team, In team teams -> record_valid float_of_str team).
Proof.
  split.
  - intros [rep Hval]. split.
    + intros ->. discriminate.
    + intros team Hin. exact (validated_record float_of_str teams rep team Hval Hin).
  - intros [Hne Hall]. eexists. now apply validate_data_valid.
Qed.

End Verdict.

Lemma map_res_ok_in {A B : Type} (f : A -> Res B) (l : list A) (bs : list B) (a : A) :
  map_res f l = Ok bs -> In a l -> exists b, f a = Ok b.
Proof.
  revert bs; induction l as [|x l IH]; simpl; intros bs Hmap Ha; [contradiction|].
  destruct (f x) as [b|ex] eqn:Hx; simpl in Hmap; [|discriminate].
  destruct (map_res f l) as [bs'|ex]; simpl in Hmap; [|discriminate].
  destruct Ha as [<-|Ha]; [now exists b|]. now apply (IH bs').
Qed.

Lemma map_res_ext_in {A B : Type} (f g : A -> Res B) (l : list A) :
  (forall a, In a l -> f a = g a) -> map_res f l = map_res g l.
Proof.
  induction l as [|x l IH]; intros Hext; simpl; [reflexivity|].
  rewrite (Hext x (or_introl eq_refl)), IH; [reflexivity|].
  intros a Ha; apply Hext; now right.
Qed.

Lemma float_convertible_false (float_of_str : string -> option float) (v : PyVal) :
  float_convertible v = false <->
  exists e, py_float float_of_str v = Raise e /\ e <> ValueError.
Proof.
  split.
  - destruct v as [ |b|z|x|s|l|d]; cbn [float_convertible py_float]; intros H;
      try discriminate; rewrite ?H;
      (exists TypeError + exists OverflowError); split; (reflexivity || discriminate).
  - intros [e [He Hne]].
    destruct v as [ |b|z|x|s|l|d]; cbn [float_convertible py_float] in *;
      try reflexivity; try discriminate.
    + destruct (is_finite (float_of_Z z)); [discriminate|reflexivity].
    + destruct (float_of_str s); [discriminate|]. congruence.
Qed.

Section Reported.

Variable float_of_str : string -> option float.

(** The errors of a non-empty batch, when the validator returns. *)
Lemma validate_data_errors (teams : list dict) (rep errs : list string) :
  teams <> [] ->
  validate_data float_of_str teams = Ok (rep, errs) ->
  exists verrs,
    all_value_errors float_of_str teams = Ok verrs
    /\ errs = flat_map (missing_errors teams) valid_fields ++ verrs
    /\ rep = report_lines teams errs.
Proof.
  intros Hne Hval. rewrite validate_data_nonempty in Hval by assumption.
  destruct (all_value_errors float_of_str teams) as [verrs|e]; [|discriminate].
  cbn [bind] in Hval. cbv zeta in Hval. injection Hval as <- <-.
  now exists verrs.
Qed.

Lemma value_errors_of_row (teams : list dict) (verrs : list string) (i : nat)
    (team : dict) (field : string) :
  all_value_errors float_of_str teams = Ok verrs ->
  nth_error teams i = Some team -> In field numeric_fields ->
  exists d, value_errors float_of_str i team field = Ok d
            /\ forall e, In e d -> In e verrs.
Proof.
  intros Hall Hnth Hfield. unfold all_value_errors in Hall.
  destruct (map_res _ (enumerate teams)) as [ds|ex] eqn:Hrows; [|discriminate].
  injection Hall as <-.
  apply in_enumerate_nth in Hnth.
  destruct (map_res_ok_in _ _ _ _ Hrows Hnth) as [drow Hrow].
  pose proof Hrow as Hrow'. unfold row_errors in Hrow'.
  destruct (map_res _ numeric_fields) as [dd|ex] eqn:Hcols; [|discriminate].
  injection Hrow' as <-.
  destruct (map_res_ok_in _ _ _ _ Hcols Hfield) as [d Hd].
  exists d. split; [exact Hd|]. intros e He.
  apply (map_res_in_concat _ _ _ (i, team) (List.concat dd) e Hrows Hnth Hrow).
  exact (map_res_in_concat _ _ _ field d e Hcols Hfield Hd He).
Qed.

(** X2: when the validator returns, every fault of every record is in its
    error list, with the row and the field: a field of the schema the
    record lacks (and then the report marks the field as missing), a value
    that [float] rejects, a value out of the field's range. *)
Theorem every_problem_is_reported (teams : list dict) (rep errs : list string)
    (i : nat) (team : dict) (field : string) :
  validate_data float_of_str teams = Ok (rep, errs) ->
  nth_error teams i = Some team ->
  In field valid_fields ->
  match get team field with
  | None =>
      In ("ERROR: Missing required field '" +:+ field +:+ "' in row " +:+
          str_nat (i + 1) +:+ ".") errs
      /\ In (" - " +:+ field +:+ ": missing") rep
  | Some v =>
      In field numeric_fields ->
      match py_float float_of_str v with
      | Ok x =>
          value_ok field x = false ->
          In ("ERROR: Invalid value for '" +:+ field +:+ "' in row " +:+
              str_nat (i + 1) +:+ ". Expected " +:+ expected_text field +:+ ".") errs
      | Raise _ =>
          In ("ERROR: Invalid data type for '" +:+ field +:+ "' in row " +:+
              str_nat (i + 1) +:+ ". Expected a numeric value.") errs
      end
  end.
Proof.
  intros Hval Hnth Hfield.
  assert (Hne : teams <> []) by (intros ->; destruct i; discriminate).
  destruct (validate_data_errors teams rep errs Hne Hval) as (verrs & Hverrs & -> & ->).
  destruct (get team field) as [v|] eqn:Hv.
  - intros Hnum.
    destruct (value_errors_of_row teams verrs i team field Hverrs Hnth Hnum)
      as [d [Hd Hin]].
    rewrite value_errors_spec, Hv in Hd by assumption.
    destruct (py_float float_of_str v) as [x|ex].
    + intros Hok. rewrite Hok in Hd. injection Hd as <-.
      apply in_or_app; right. apply Hin. now left.
    + destruct ex; try discriminate. injection Hd as <-.
      apply in_or_app; right. apply Hin. now left.
  - assert (Hkey : has_key field team = false) by (unfold has_key; now rewrite Hv).
    split.
    + apply in_or_app; left. apply in_flat_map. exists field. split; [assumption|].
      unfold missing_errors. apply in_flat_map. exists (i, team).
      split; [now apply in_enumerate_nth|]. rewrite Hkey. now left.
    + unfold report_lines. apply in_or_app; right. apply in_or_app; left.
      apply in_map_iff. exists field. split; [|assumption].
      unfold required_line.
      destruct (forallb (has_key field) teams) eqn:Hall; [|reflexivity].
      rewrite forallb_forall in Hall.
      rewrite Hall in Hkey; [discriminate|]. eapply nth_error_In; eauto.
Qed.

(** X3: every error the validator lists for a non-empty batch is genuine:
    it names a row and a field of the schema, and the record of that row
    lacks the field, or holds a value [float] rejects with a [ValueError],
    or a value out of the field's range. *)
Theorem every_error_is_genuine (teams : list dict) (rep errs : list string)
    (e : string) :
  teams <> [] ->
  validate_data float_of_str teams = Ok (rep, errs) ->
  In e errs ->
  exists i team field,
    nth_error teams i = Some team /\ In field valid_fields
    /\ ((e = "ERROR: Missing required field '" +:+ field +:+ "' in row " +:+
             str_nat (i + 1) +:+ "."
         /\ get team field = None)
        \/ (In field numeric_fields
            /\ exists v,
                get team field = Some v
                /\ ((e = "ERROR: Invalid data type for '" +:+ field +:+ "' in row " +:+
                         str_nat (i + 1) +:+ ". Expected a numeric value."
                     /\ py_float float_of_str v = Raise ValueError)
                    \/ exists x,
                        e = "ERROR: Invalid value for '" +:+ field +:+ "' in row " +:+
                            str_nat (i + 1) +:+ ". Expected " +:+
                            expected_text field +:+ "."
                        /\ py_float float_of_str v = Ok x
                        /\ value_ok field x = false))).
Proof.
  intros Hne Hval He.
  destruct (validate_data_errors teams rep errs Hne Hval) as (verrs & Hverrs & -> & _).
  apply in_app_or in He as [He|He].
  - apply in_flat_map in He as [field [Hfield He]].
    unfold missing_errors in He.
    apply in_flat_map in He as [[i team] [Hin He]].
    apply in_enumerate_nth in Hin.
    destruct (has_key field team) eqn:Hkey; [contradiction|].
    destruct He as [<-|[]].
    exists i, team, field. split; [assumption|]. split; [assumption|].
    left. split; [reflexivity|].
    unfold has_key in Hkey. destruct (get team field); [discriminate|reflexivity].
  - unfold all_value_errors in Hverrs.
    destruct (map_res _ (enumerate teams)) as [ds|ex] eqn:Hrows; [|discriminate].
    injection Hverrs as <-.
    destruct (in_concat_map_res _ _ _ _ Hrows He) as ([i team] & d & Hin & Hrow & Hed).
    apply in_enumerate_nth in Hin.
    unfold row_errors in Hrow.
    destruct (map_res _ numeric_fields) as [dd|ex] eqn:Hcols; [|discriminate].
    injection Hrow as <-.
    destruct (in_concat_map_res _ _ _ _ Hcols Hed) as (field & d' & Hfield & Hd' & Hed').
    rewrite value_errors_spec in Hd' by assumption.
    exists i, team, field. split; [assumption|].
    split; [now apply numeric_field_valid|].
    right. split; [assumption|].
    destruct (get team field) as [v|].
    2:{ injection Hd' as <-. contradiction. }
    exists v. split; [reflexivity|].
    destruct (py_float float_of_str v) as [x|ex].
    + right. exists x. destruct (value_ok field x).
      * injection Hd' as <-. contradiction.
      * injection Hd' as <-. destruct Hed' as [<-|[]]. repeat split.
    + left. destruct ex; try discriminate.
      injection Hd' as <-. destruct Hed' as [<-|[]]. split; reflexivity.
Qed.

(** X4: the report of a non-empty batch ends, from index 19 on (its
    twentieth line), with the summary: the heading, then the success message when there is no
    error, and otherwise every error in the order it was found, each behind
    a dash, between the failure line and the request to resubmit. *)
Theorem report_summary_lists_errors (teams : list dict) (rep errs : list string) :
  teams <> [] ->
  validate_data float_of_str teams = Ok (rep, errs) ->
  skipn 19 rep
  = (nl +:+ "## Validation Summary:")
    :: match errs with
       | [] => ["Data validation is successful!"]
       | _ :: _ =>
           "Validation failed with the following errors:"
           :: map (fun e => "- " +:+ e) errs
           ++ [nl +:+ "Please correct and resubmit this data again."]
       end.
Proof.
  intros Hne Hval.
  destruct (validate_data_errors teams rep errs Hne Hval) as (verrs & _ & _ & ->).
  unfold report_lines, summary_lines.
  destruct errs; reflexivity.
Qed.

(** X5: the validator raises exactly when a numeric field of some record
    holds a value that [float] rejects with another error than
    [ValueError] ([None], a list, an object, an integer beyond the floats),
    and then with a [TypeError] or an [OverflowError]. *)
Theorem validator_raises_exactly_on_unconvertible (teams : list dict) :
  (forall e, validate_data float_of_str teams = Raise e ->
             e = TypeError \/ e = OverflowError)
  /\ ((exists e, validate_data float_of_str teams = Raise e)
      <-> exists team field v,
            In team teams /\ In field numeric_fields
            /\ get team field = Some v /\ float_convertible v = false).
Proof.
  split; [|split].
  - intros e Hval.
    destruct (validate_data_raise float_of_str teams e Hval)
      as (i & team & field & v & _ & _ & _ & Hv & Hne).
    destruct v as [ |b|z|x|s|l|d]; cbn [py_float] in Hv; try discriminate;
      try (injection Hv as <-; now auto).
    + destruct (is_finite (float_of_Z z)); [discriminate|].
      injection Hv as <-; now auto.
    + destruct (float_of_str s); [discriminate|]. congruence.
  - intros [e Hval].
    destruct (validate_data_raise float_of_str teams e Hval)
      as (i & team & field & v & Hnth & Hfield & Hget & Hv & Hne).
    exists team, field, v. repeat split; try assumption.
    + eapply nth_error_In; eauto.
    + apply (float_convertible_false float_of_str). now exists e.
  - intros (team & field & v & Hin & Hfield & Hget & Hconv).
    apply (float_convertible_false float_of_str) in Hconv as [e [He Hne]].
    assert (Hnonempty : teams <> []) by (intros ->; contradiction).
    rewrite validate_data_nonempty by assumption.
    destruct (in_enumerate teams team Hin) as [i Hi].
    assert (Hcol : value_errors float_of_str i team field = Raise e).
    { rewrite value_errors_spec, Hget, He by assumption. now destruct e. }
    destruct (map_res_raises _ numeric_fields field e Hfield Hcol) as [e1 Hcols].
    assert (Hrow : row_errors float_of_str i team = Raise e1)
      by (unfold row_errors; now rewrite Hcols).
    destruct (map_res_raises (fun '(i, team) => row_errors float_of_str i team)
                (enumerate teams) (i, team) e1 Hi Hrow) as [e2 Hrows].
    exists e2. unfold all_value_errors. now rewrite Hrows.
Qed.

End Reported.

Lemma faulty_batch_validated :
  validate_data ascii_float_of_str faulty_batch
  = Ok (report_lines faulty_batch faulty_errors, faulty_errors).
Proof. vm_compute. reflexivity. Qed.

Lemma every_problem_is_reported_witness :
  validate_data ascii_float_of_str faulty_batch
  = Ok (report_lines faulty_batch faulty_errors, faulty_errors)
  /\ nth_error faulty_batch 1 = Some faulty_team
  /\ In "shift_hours" valid_fields
  /\ In "ERROR: Missing required field 'shift_hours' in row 2." faulty_errors
  /\ In " - shift_hours: missing" (report_lines faulty_batch faulty_errors).
Proof.
  assert (Hval : validate_data ascii_float_of_str faulty_batch
                 = Ok (report_lines faulty_batch faulty_errors, faulty_errors))
    by (vm_compute; reflexivity).
  assert (Hnth : nth_error faulty_batch 1 = Some faulty_team) by reflexivity.
  assert (Hfield : In "shift_hours" valid_fields) by (simpl; tauto).
  split; [exact Hval|]. split; [exact Hnth|]. split; [exact Hfield|].
  exact (every_problem_is_reported ascii_float_of_str faulty_batch _ _ 1 faulty_team
           "shift_hours" Hval Hnth Hfield).
Defined.

Lemma every_error_is_genuine_witness :
  faulty_batch <> []
  /\ validate_data ascii_float_of_str faulty_batch
     = Ok (report_lines faulty_batch faulty_errors, faulty_errors)
  /\ In "ERROR: Invalid value for 'available_capacity' in row 2. Expected value between 0 and 100."
        faulty_errors
  /\ exists i team field,
       nth_error faulty_batch i = Some team /\ In field valid_fields.
Proof.
  assert (Hne : faulty_batch <> []) by discriminate.
  assert (Hval : validate_data ascii_float_of_str faulty_batch
                 = Ok (report_lines faulty_batch faulty_errors, faulty_errors))
    by (vm_compute; reflexivity).
  assert (Hin : In "ERROR: Invalid value for 'available_capacity' in row 2. Expected value between 0 and 100."
                   faulty_errors) by (simpl; tauto).
  split; [exact Hne|]. split; [exact Hval|]. split; [exact Hin|].
  destruct (every_error_is_genuine ascii_float_of_str faulty_batch _ _ _ Hne Hval Hin)
    as (i & team & field & Hnth & Hfield & _).
  exists i, team, field. split; [exact Hnth|exact Hfield].
Defined.

Lemma report_summary_lists_errors_witness :
  faulty_batch <> []
  /\ validate_data ascii_float_of_str faulty_batch
     = Ok (report_lines faulty_batch faulty_errors, faulty_errors)
  /\ skipn 19 (report_lines faulty_batch faulty_errors)
     = [nl +:+ "## Validation Summary:";
        "Validation failed with the following errors:";
        "- ERROR: Missing required field 'shift_hours' in row 2.";
        "- ERROR: Invalid data type for 'queries_per_day' in row 2. Expected a numeric value.";
        "- ERROR: Invalid value for 'available_capacity' in row 2. Expected value between 0 and 100.";
        nl +:+ "Please correct and resubmit this data again."].
Proof.
  assert (Hne : faulty_batch <> []) by discriminate.
  assert (Hval : validate_data ascii_float_of_str faulty_batch
                 = Ok (report_lines faulty_batch faulty_errors, faulty_errors))
    by (vm_compute; reflexivity).
  split; [exact Hne|]. split; [exact Hval|].
  exact (report_summary_lists_errors ascii_float_of_str faulty_batch _ _ Hne Hval).
Defined.

(** ** Fields outside the schema *)

Lemma same_fields_has_key (team team' : dict) (field : string) :
  same_fields team team' -> In field valid_fields ->
  has_key field team = has_key field team'.
Proof. intros Hsame Hfield. unfold has_key. now rewrite (Hsame field Hfield). Qed.

Lemma same_fields_forallb (teams teams' : list dict) (field : string) :
  Forall2 same_fields teams teams' -> In field valid_fields ->
  forallb (has_key field) teams = forallb (has_key field) teams'.
Proof.
  intros Hall Hfield. induction Hall as [|team team' teams teams' Hsame _ IH];
    simpl; [reflexivity|].
  now rewrite IH, (same_fields_has_key team team' field).
Qed.

Lemma same_fields_missing (teams teams' : list dict) (field : string) :
  Forall2 same_fields teams teams' -> In field valid_fields ->
  missing_errors teams field = missing_errors teams' field.
Proof.
  intros Hall Hfield. unfold missing_errors, enumerate. generalize 0.
  induction Hall as [|team team' teams teams' Hsame _ IH]; intros k; simpl;
    [reflexivity|].
  now rewrite IH, (same_fields_has_key team team' field).
Qed.

Section SchemaFields.

Variable float_of_str : string -> option float.

Lemma same_fields_value_errors (i : nat) (team team' : dict) (field : string) :
  same_fields team team' -> In field numeric_fields ->
  value_errors float_of_str i team field = value_errors float_of_str i team' field.
Proof.
  intros Hsame Hfield. rewrite !value_errors_spec by assumption.
  now rewrite (Hsame field (numeric_field_valid field Hfield)).
Qed.

Lemma same_fields_row_errors (i : nat) (team team' : dict) :
  same_fields team team' ->
  row_errors float_of_str i team = row_errors float_of_str i team'.
Proof.
  intros Hsame. unfold row_errors.
  rewrite (map_res_ext_in (value_errors float_of_str i team)
             (value_errors float_of_str i team')); [reflexivity|].
  intros field Hfield. now apply same_fields_value_errors.
Qed.

Lemma same_fields_all_value_errors (teams teams' : list dict) :
  Forall2 same_fields teams teams' ->
  all_value_errors float_of_str teams = all_value_errors float_of_str teams'.
Proof.
  intros Hall. unfold all_value_errors, enumerate. generalize 0.
  induction Hall as [|team team' teams teams' Hsame _ IH]; intros k;
    [reflexivity|].
  cbn [List.length seq combine map_res].
  specialize (IH (S k)).
  rewrite (same_fields_row_errors k team team' Hsame).
  destruct (row_errors float_of_str k team') as [d|e]; cbn [bind]; [|reflexivity].
  destruct (map_res _ (combine (seq (S k) (List.length teams)) teams)) as [ds|e];
    destruct (map_res _ (combine (seq (S k) (List.length teams')) teams')) as [ds'|e'];
    cbn [bind List.concat] in *; congruence.
Qed.

(** X6: the validator reads the seven fields of the schema and nothing
    else: two batches whose records agree on them, row by row, get the same
    errors, or the same exception, and reports that differ at most at
    index 3, the line that counts the fields of the first record. *)
Theorem validator_reads_schema_fields_only (teams teams' : list dict) :
  Forall2 same_fields teams teams' ->
  match validate_data float_of_str teams, validate_data float_of_str teams' with
  | Ok (rep, errs), Ok (rep', errs') =>
      errs = errs' /\ forall k, k <> 3 -> nth_error rep k = nth_error rep' k
  | Raise e, Raise e' => e = e'
  | _, _ => False
  end.
Proof.
  intros Hall.
  destruct Hall as [|team team' rest rest' Hsame Hrest].
  { split; reflexivity. }
  assert (Hall : Forall2 same_fields (team :: rest) (team' :: rest'))
    by now constructor.
  rewrite !validate_data_nonempty by discriminate.
  rewrite (same_fields_all_value_errors _ _ Hall).
  destruct (all_value_errors float_of_str (team' :: rest')) as [verrs|e];
    cbn [bind]; [|reflexivity].
  cbv zeta.
  assert (Hmissing : flat_map (missing_errors (team :: rest)) valid_fields
                     = flat_map (missing_errors (team' :: rest')) valid_fields).
  { rewrite !flat_map_concat_map. f_equal. apply map_ext_in.
    intros field Hfield. now apply same_fields_missing. }
  rewrite Hmissing. split; [reflexivity|].
  intros k Hk. unfold report_lines.
  assert (Hreq : map (required_line (team :: rest)) valid_fields
                 = map (required_line (team' :: rest')) valid_fields).
  { apply map_ext_in. intros field Hfield. unfold required_line.
    now rewrite (same_fields_forallb _ _ field Hall Hfield). }
  rewrite Hreq.
  assert (Hlen : List.length (team :: rest) = List.length (team' :: rest'))
    by (eapply Forall2_length; eauto).
  rewrite Hlen.
  do 4 (destruct k as [|k]; [reflexivity || congruence|]).
  reflexivity.
Qed.

Lemma same_fields_field_float (team team' : dict) (field : string) :
  same_fields team team' -> In field valid_fields ->
  field_float float_of_str team field = field_float float_of_str team' field.
Proof.
  intros Hsame Hfield. unfold field_float, getitem.
  now rewrite (Hsame field Hfield).
Qed.

(** X7: on a valid record the metrics depend on the seven fields of the
    schema only: further keys, and the order of the keys, change nothing. *)
Theorem calculate_metrics_reads_schema_fields_only (team team' : dict) :
  same_fields team team' ->
  record_valid float_of_str team ->
  calculate_metrics float_of_str team' = calculate_metrics float_of_str team.
Proof.
  intros Hsame Hvalid.
  assert (Hvalid' : record_valid float_of_str team').
  { destruct Hvalid as [Hid Hnum]. split.
    - rewrite <- (same_fields_has_key team team'); [assumption..|]. now left.
    - intros field Hfield.
      rewrite <- (same_fields_field_float team team' field Hsame
                    (numeric_field_valid field Hfield)).
      now apply Hnum. }
  destruct (calculate_metrics_valid float_of_str team Hvalid)
    as (tid & cs & q & t & h & a & r & Htid & [Hcs _] & [Hq _] & [Ht _]
        & [Hh _] & [Ha _] & [Hr _] & ->).
  destruct (calculate_metrics_valid float_of_str team' Hvalid')
    as (tid' & cs' & q' & t' & h' & a' & r' & Htid' & [Hcs' _] & [Hq' _] & [Ht' _]
        & [Hh' _] & [Ha' _] & [Hr' _] & ->).
  rewrite <- (Hsame "team_id") in Htid' by (simpl; tauto).
  rewrite <- (same_fields_field_float team team') in Hcs', Hq', Ht', Hh', Ha', Hr'
    by (assumption || (simpl; tauto)).
  congruence.
Qed.

End SchemaFields.

Lemma validator_reads_schema_fields_only_witness :
  Forall2 same_fields [TeamOmega] [annotated_team]
  /\ validate_data ascii_float_of_str [TeamOmega]
     = Ok (report_lines [TeamOmega] [], [])
  /\ validate_data ascii_float_of_str [annotated_team]
     = Ok (report_lines [annotated_team] [], [])
  /\ ([] = @nil string
      /\ forall k, k <> 3 ->
           nth_error (report_lines [TeamOmega] []) k
           = nth_error (report_lines [annotated_team] []) k)
  /\ nth_error (report_lines [TeamOmega] []) 3
     = Some " - Number of fields per record: 7"
  /\ nth_error (report_lines [annotated_team] []) 3
     = Some " - Number of fields per record: 8".
Proof.
  assert (Hsame : Forall2 same_fields [TeamOmega] [annotated_team]).
  { constructor; [|constructor]. intros field Hfield. simpl in Hfield.
    repeat (destruct Hfield as [<-|Hfield]; [reflexivity|]). contradiction. }
  assert (Hval : validate_data ascii_float_of_str [TeamOmega]
                 = Ok (report_lines [TeamOmega] [], [])) by (vm_compute; reflexivity).
  assert (Hval' : validate_data ascii_float_of_str [annotated_team]
                  = Ok (report_lines [annotated_team] [], []))
    by (vm_compute; reflexivity).
  split; [exact Hsame|]. split; [exact Hval|]. split; [exact Hval'|].
  pose proof (validator_reads_schema_fields_only ascii_float_of_str _ _ Hsame) as H.
  rewrite Hval, Hval' in H.
  split; [exact H|]. split; reflexivity.
Defined.

Lemma calculate_metrics_reads_schema_fields_only_witness :
  same_fields TeamOmega annotated_team
  /\ record_valid ascii_float_of_str TeamOmega
  /\ calculate_metrics ascii_float_of_str annotated_team
     = calculate_metrics ascii_float_of_str TeamOmega.
Proof.
  assert (Hsame : same_fields TeamOmega annotated_team).
  { intros field Hfield. simpl in Hfield.
    repeat (destruct Hfield as [<-|Hfield]; [reflexivity|]). contradiction. }
  assert (Hvalid : record_valid ascii_float_of_str TeamOmega).
  { split; [reflexivity|]. intros field Hfield. simpl in Hfield.
    repeat (destruct Hfield as [<-|Hfield];
            [eexists; split; vm_compute; reflexivity|]).
    contradiction. }
  split; [exact Hsame|]. split; [exact Hvalid|].
  exact (calculate_metrics_reads_schema_fields_only ascii_float_of_str TeamOmega
           annotated_team Hsame Hvalid).
Defined.

(** ** How the metrics fail *)

(** Where the formula chain can fail: at the lookup of a field, at a
    division, or at the lookup of the identifier. *)
Lemma metrics_of_raise (item : string -> Res float) (tid : Res PyVal) (e : exn) :
  metrics_of item tid = Raise e ->
  (exists k, In k numeric_fields /\ item k = Raise e)
  \/ e = ZeroDivisionError
  \/ tid = Raise e.
Proof.
  unfold metrics_of.
  cbn [num_truediv num_mul num_add num_sub num_of_int num_of_decimal PyNumber_float].
  repeat match goal with
         | |- bind (item ?k) _ = Raise _ -> _ =>
             let H := fresh "Hitem" in
             destruct (item k) eqn:H; cbn [bind];
             [|intros Heq; injection Heq as <-; left; exists k;
               split; [simpl; tauto|assumption]]
         | |- bind (float_truediv ?x ?y) _ = Raise _ -> _ =>
             unfold float_truediv at 1; destruct (feq y (float_of_Z 0));
             cbn [bind]; [intros Heq; injection Heq as <-; now auto|]
         end.
  destruct tid as [v|ex]; cbn [bind]; [discriminate|].
  intros Heq; injection Heq as <-. now auto.
Qed.

(** The formula chain returns only with a non-zero agent capacity. *)
Lemma metrics_of_agent_capacity (item : string -> Res float) (tid : Res PyVal)
    (m : TeamMetrics float) :
  metrics_of item tid = Ok m -> feq (agent_capacity m) (float_of_Z 0) = false.
Proof.
  unfold metrics_of.
  cbn [num_truediv num_mul num_add num_sub num_of_int num_of_decimal PyNumber_float].
  repeat match goal with
         | |- bind (item ?k) _ = Ok _ -> _ =>
             destruct (item k); cbn [bind]; [|discriminate]
         | |- bind (float_truediv ?x ?y) _ = Ok _ -> _ =>
             let H := fresh "Hdiv" in
             unfold float_truediv at 1; destruct (feq y (float_of_Z 0)) eqn:H;
             cbn [bind]; [discriminate|]
         end.
  destruct tid as [v|ex]; cbn [bind]; [|discriminate].
  intros Heq; injection Heq as <-. cbn [agent_capacity]. assumption.
Qed.

Section Failures.

Variable float_of_str : string -> option float.

Lemma map_res_convert_get (l td : list (string * PyVal)) :
  map_res (convert_item float_of_str) l = Ok td ->
  forall k,
    match get l k with
    | None => get td k = None
    | Some v =>
        if mem k numeric_fields
        then exists x, py_float float_of_str v = Ok x /\ get td k = Some (PyFloat x)
        else get td k = Some v
    end.
Proof.
  revert td; induction l as [|[k0 v0] l IH]; intros td Hmap k.
  - injection Hmap as <-. reflexivity.
  - cbn [map_res] in Hmap.
    destruct (convert_item float_of_str (k0, v0)) as [kv|ex] eqn:Hkv;
      cbn [bind] in Hmap; [|discriminate].
    destruct (map_res (convert_item float_of_str) l) as [td'|ex];
      cbn [bind] in Hmap; [|discriminate].
    injection Hmap as <-. specialize (IH td' eq_refl k).
    unfold convert_item in Hkv. cbn [get].
    destruct (mem k0 numeric_fields) eqn:Hk0.
    + destruct (py_float float_of_str v0) as [x|ex] eqn:Hx; cbn [bind] in Hkv;
        [|discriminate].
      injection Hkv as <-. cbn [get].
      destruct (String.eqb_spec k k0) as [->|_]; [|exact IH].
      rewrite Hk0. now exists x.
    + injection Hkv as <-. cbn [get].
      destruct (String.eqb_spec k k0) as [->|_]; [|exact IH].
      now rewrite Hk0.
Qed.

Lemma map_res_convert_raise (l : list (string * PyVal)) (e : exn) :
  map_res (convert_item float_of_str) l = Raise e ->
  exists k v, In (k, v) l /\ mem k numeric_fields = true
              /\ py_float float_of_str v = Raise e.
Proof.
  intros Hmap. apply map_res_raise in Hmap as [[k v] [Hin Hkv]].
  exists k, v. split; [assumption|]. unfold convert_item in Hkv.
  destruct (mem k numeric_fields); [|discriminate]. split; [reflexivity|].
  destruct (py_float float_of_str v); [discriminate|cbn [bind] in Hkv; congruence].
Qed.

Lemma calculate_metrics_unfold (team : dict) :
  calculate_metrics float_of_str team
  = (team_data <- map_res (convert_item float_of_str) (items team) ;;
     metrics_of (fun k => v <- getitem team_data k ;; as_float v)
       (getitem team_data "team_id")).
Proof. reflexivity. Qed.

(** X8: on an arbitrary record [calculate_metrics] raises a [KeyError]
    only for a field of the schema the record lacks, a
    [ZeroDivisionError], or the error [float] raises on the value of a
    numeric field of the record; nothing else. *)
Theorem calculate_metrics_raises_only (team : dict) (e : exn) :
  calculate_metrics float_of_str team = Raise e ->
  (exists k, e = KeyError k /\ In k valid_fields /\ get team k = None)
  \/ e = ZeroDivisionError
  \/ (exists k v, In k numeric_fields /\ get team k = Some v
                  /\ py_float float_of_str v = Raise e).
Proof.
  rewrite calculate_metrics_unfold.
  destruct (map_res (convert_item float_of_str) (items team)) as [td|ex] eqn:Hmap;
    cbn [bind].
  - intros Hraise. pose proof (map_res_convert_get _ _ Hmap) as Hget.
    apply metrics_of_raise in Hraise as [[k [Hk Hitem]]|[->|Htid]].
    + left. specialize (Hget k). rewrite get_items in Hget.
      apply mem_In in Hk as Hmem. unfold getitem in Hitem.
      destruct (get team k) as [v|] eqn:Hv.
      * rewrite Hmem in Hget. destruct Hget as [x [_ Hx]].
        rewrite Hx in Hitem. discriminate.
      * rewrite Hget in Hitem. injection Hitem as <-.
        exists k. split; [reflexivity|]. split; [|assumption].
        now apply numeric_field_valid.
    + now auto.
    + left. specialize (Hget "team_id"). rewrite get_items in Hget.
      unfold getitem in Htid.
      destruct (get team "team_id") as [v|] eqn:Hv.
      * cbn in Hget. rewrite Hget in Htid. discriminate.
      * rewrite Hget in Htid. injection Htid as <-.
        exists "team_id". split; [reflexivity|]. split; [now left|assumption].
  - intros Heq; injection Heq as ->.
    apply map_res_convert_raise in Hmap as (k & v & Hin & Hmem & Hv).
    right; right. exists k, v. split; [now apply mem_In|].
    split; [now apply in_items_get|assumption].
Qed.

End Failures.

Lemma calculate_metrics_raises_only_witness :
  calculate_metrics ascii_float_of_str anonymous_team = Raise (KeyError "team_id")
  /\ ((exists k, KeyError "team_id" = KeyError k /\ In k valid_fields
                 /\ get anonymous_team k = None)
      \/ KeyError "team_id" = ZeroDivisionError
      \/ (exists k v, In k numeric_fields /\ get anonymous_team k = Some v
                      /\ py_float ascii_float_of_str v = Raise (KeyError "team_id"))).
Proof.
  assert (Hraise : calculate_metrics ascii_float_of_str anonymous_team
                   = Raise (KeyError "team_id")) by (vm_compute; reflexivity).
  split; [exact Hraise|].
  exact (calculate_metrics_raises_only ascii_float_of_str anonymous_team _ Hraise).
Defined.

(** ** The metrics of any record *)

(** Whenever the formula chain returns, it returns the record it builds
    from six floats. *)
Lemma metrics_of_ok (item : string -> Res float) (tid : Res PyVal)
    (m : TeamMetrics float) :
  metrics_of item tid = Ok m ->
  exists v cs q t h a r, m = float_metrics v cs q t h a r.
Proof.
  unfold metrics_of.
  cbn [num_truediv num_mul num_add num_sub num_of_int num_of_decimal PyNumber_float].
  repeat match goal with
         | |- bind (item ?k) _ = Ok _ -> _ =>
             destruct (item k); cbn [bind]; [|discriminate]
         | |- bind (float_truediv ?x ?y) _ = Ok _ -> _ =>
             unfold float_truediv at 1; destruct (feq y (float_of_Z 0));
             cbn [bind]; [discriminate|]
         end.
  destruct tid as [v|ex]; cbn [bind]; [|discriminate].
  intros Heq; injection Heq as <-.
  do 7 eexists. reflexivity.
Qed.

Section AnyRecord.

Variable float_of_str : string -> option float.

(** X24: for every record, validated or not, on which [calculate_metrics]
    returns, the values returned satisfy the twelve formulas, the status is
    "Optimal" when the three thresholds hold and "Needs Adjustment"
    otherwise, and the recommendation is the sentence with the composite
    score, the staffing efficiency ratio and the utilization rate to two
    decimals, ended by the clause that belongs to the status. *)
Theorem recommendation_follows_status (team : dict) (m : TeamMetrics float) :
  calculate_metrics float_of_str team = Ok m ->
  spec_formula_chain m
  /\ ((meets_thresholds m /\ status m = "Optimal")
      \/ (~ meets_thresholds m /\ status m = "Needs Adjustment"))
  /\ recommendation m
     = "Based on a Composite Score of " +:+ float_format_f 2 (composite_score m) +:+
       ", a Staffing Efficiency Ratio of " +:+
       float_format_f 2 (staffing_efficiency_ratio m) +:+
       ", and a Utilization Rate of " +:+ float_format_f 2 (utilization_rate m) +:+
       (if String.eqb (status m) "Optimal"
        then "%, the team's scheduling is optimal. The recommendation is to maintain the current workforce distribution."
        else "%, the team's scheduling requires adjustments. Consider reassigning workforce, adjusting shift timings, or enhancing remote infrastructure.").
Proof.
  rewrite calculate_metrics_unfold.
  destruct (map_res _ (items team)) as [td|e]; cbn [bind]; [|discriminate].
  intros Hm. apply metrics_of_ok in Hm as (v & cs & q & t & h & a & r & ->).
  split; [apply float_metrics_formula_chain|].
  split; [apply float_metrics_status|].
  unfold float_metrics. cbn [recommendation status composite_score
                             staffing_efficiency_ratio utilization_rate].
  unfold recommendation_text. cbn [num_format_f PyNumber_float].
  match goal with
  | |- context [if is_optimal ?c ?s ?u then _ else _] => destruct (is_optimal c s u)
  end; reflexivity.
Qed.

End AnyRecord.

Lemma recommendation_follows_status_witness :
  exists m,
    calculate_metrics ascii_float_of_str TeamOmega = Ok m
    /\ status m = "Needs Adjustment"
    /\ recommendation m
       = "Based on a Composite Score of 84.62, a Staffing Efficiency Ratio of 7.47, and a Utilization Rate of 13.39%, the team's scheduling requires adjustments. Consider reassigning workforce, adjusting shift timings, or enhancing remote infrastructure.".
Proof.
  destruct (calculate_metrics ascii_float_of_str TeamOmega) as [m|e] eqn:Hm;
    [|vm_compute in Hm; discriminate Hm].
  exists m. split; [reflexivity|].
  destruct (recommendation_follows_status ascii_float_of_str TeamOmega m Hm)
    as (_ & _ & Hrec).
  rewrite Hrec. vm_compute in Hm. injection Hm as <-.
  split; vm_compute; reflexivity.
Defined.

(** ** Not a number *)

Lemma fmul_nan_l (y : float) : fmul S754_nan y = S754_nan.
Proof. reflexivity. Qed.

Lemma fmul_nan_r (x : float) : fmul x S754_nan = S754_nan.
Proof. now destruct x. Qed.

Lemma fdiv_nan_l (y : float) : fdiv S754_nan y = S754_nan.
Proof. reflexivity. Qed.

Lemma fdiv_nan_r (x : float) : fdiv x S754_nan = S754_nan.
Proof. now destruct x. Qed.

Lemma fsub_nan_l (y : float) : fsub S754_nan y = S754_nan.
Proof. reflexivity. Qed.

Lemma fsub_nan_r (x : float) : fsub x S754_nan = S754_nan.
Proof. now destruct x. Qed.

Lemma fadd_nan_l (y : float) : fadd S754_nan y = S754_nan.
Proof. reflexivity. Qed.

Lemma fadd_nan_r (x : float) : fadd x S754_nan = S754_nan.
Proof. now destruct x. Qed.

Section NotANumber.

Variable float_of_str : string -> option float.

(** X9: shift hours that are NaN pass validation; for such a record of a
    validated batch [calculate_metrics] raises nothing and returns an agent
    capacity, a utilization rate, a composite score and a staffing
    efficiency ratio that are NaN, with the status "Needs Adjustment". *)
Theorem nan_shift_hours_pass_validation (teams : list dict) (rep : list string)
    (team : dict) :
  validate_data float_of_str teams = Ok (rep, []) ->
  In team teams ->
  field_float float_of_str team "shift_hours" = Ok S754_nan ->
  exists m,
    calculate_metrics float_of_str team = Ok m
    /\ is_nan (agent_capacity m) = true
    /\ is_nan (utilization_rate m) = true
    /\ is_nan (composite_score m) = true
    /\ is_nan (staffing_efficiency_ratio m) = true
    /\ status m = "Needs Adjustment".
Proof.
  intros Hval Hin Hnan.
  destruct (calculate_metrics_validated float_of_str teams rep team Hval Hin)
    as (tid & cs & q & t & h & a & r & _ & _ & _ & _ & Hh & _ & _ & Hcalc).
  rewrite Hnan in Hh. injection Hh as <-.
  assert (Hcap : agent_capacity_of S754_nan a = S754_nan) by reflexivity.
  assert (Hreq : required_staff_of q t S754_nan a = S754_nan).
  { unfold required_staff_of. rewrite Hcap. apply fdiv_nan_r. }
  rewrite Hcap, Hreq in Hcalc. cbn [feq SFeqb SFcompare orb] in Hcalc.
  exists (float_metrics tid cs q t S754_nan a r). split; [exact Hcalc|].
  unfold float_metrics.
  cbn [agent_capacity utilization_rate composite_score staffing_efficiency_ratio
       status].
  change (fmul (fmul S754_nan (float_of_Z 60)) (fdiv a (float_of_Z 100)))
    with S754_nan.
  repeat first [rewrite fdiv_nan_r | rewrite fdiv_nan_l | rewrite fmul_nan_r
               | rewrite fmul_nan_l | rewrite fsub_nan_r | rewrite fsub_nan_l
               | rewrite fadd_nan_r | rewrite fadd_nan_l].
  repeat split.
Qed.

End NotANumber.

Lemma nan_shift_hours_pass_validation_witness :
  validate_data ascii_float_of_str [nan_shift_team]
  = Ok (report_lines [nan_shift_team] [], [])
  /\ In nan_shift_team [nan_shift_team]
  /\ field_float ascii_float_of_str nan_shift_team "shift_hours" = Ok S754_nan
  /\ exists m,
      calculate_metrics ascii_float_of_str nan_shift_team = Ok m
      /\ is_nan (agent_capacity m) = true
      /\ is_nan (utilization_rate m) = true
      /\ is_nan (composite_score m) = true
      /\ is_nan (staffing_efficiency_ratio m) = true
      /\ status m = "Needs Adjustment".
Proof.
  assert (Hval : validate_data ascii_float_of_str [nan_shift_team]
                 = Ok (report_lines [nan_shift_team] [], []))
    by (vm_compute; reflexivity).
  assert (Hin : In nan_shift_team [nan_shift_team]) by now left.
  assert (Hnan : field_float ascii_float_of_str nan_shift_team "shift_hours"
                 = Ok S754_nan) by reflexivity.
  split; [exact Hval|]. split; [exact Hin|]. split; [exact Hnan|].
  exact (nan_shift_hours_pass_validation ascii_float_of_str [nan_shift_team] _
           nan_shift_team Hval Hin Hnan).
Defined.

(** ** The report *)

Section Report.

Variable float_of_str : string -> option float.
Variable py_str : PyVal -> string.

Local Abbreviation calc := (call_calculate_metrics float_of_str).
Local Abbreviation report := (generate_report float_of_str py_str).

Lemma calculate_metrics_agent_capacity (team : dict) (m : TeamMetrics float) :
  calculate_metrics float_of_str team = Ok m ->
  feq (agent_capacity m) (float_of_Z 0) = false.
Proof.
  rewrite calculate_metrics_unfold.
  destruct (map_res _ (items team)); cbn [bind]; [|discriminate].
  apply metrics_of_agent_capacity.
Qed.

Lemma team_report_ok (m : TeamMetrics float) :
  feq (agent_capacity m) (float_of_Z 0) = false ->
  exists lines, team_report py_str m = Ok lines /\ List.length lines = 60.
Proof.
  intros Hcap. unfold team_report, float_truediv. rewrite Hcap. cbn [bind].
  eexists. split; reflexivity.
Qed.

(** X12: the division the report repeats for its trace of the
    utilization rate cannot fail on metrics [calculate_metrics] returned,
    for any record: the section of a team is always written, in 60 lines,
    the second naming the team and the 58th its status. *)
Theorem team_report_never_fails (team : dict) (m : TeamMetrics float) :
  calculate_metrics float_of_str team = Ok m ->
  exists lines,
    team_report py_str m = Ok lines
    /\ List.length lines = 60
    /\ nth_error lines 1 = Some ("Team " +:+ py_str (team_id m))
    /\ nth_error lines 57 = Some (" - Status: " +:+ status m).
Proof.
  intros Hm. apply calculate_metrics_agent_capacity in Hm.
  unfold team_report, float_truediv. rewrite Hm. cbn [bind].
  eexists. repeat split.
Qed.

Lemma map_py_all_ok (teams : list dict) :
  (forall team, In team teams -> exists m, calculate_metrics float_of_str team = Ok m) ->
  exists ms,
    map_py calc teams = (Ok ms, map CalcMetrics teams)
    /\ List.length ms = List.length teams
    /\ forall m, In m ms -> feq (agent_capacity m) (float_of_Z 0) = false.
Proof.
  induction teams as [|team rest IH]; intros Hall.
  - exists []. repeat split. intros m [].
  - destruct (Hall team (or_introl eq_refl)) as [m Hm].
    destruct IH as (ms & Hms & Hlen & Hcap); [intros t Ht; apply Hall; now right|].
    exists (m :: ms). split; [|split].
    + cbn [map_py]. unfold call_calculate_metrics at 1. rewrite Hm, Hms.
      unfold py_bind, py_ret. now rewrite app_nil_r.
    + simpl. now rewrite Hlen.
    + intros m' [<-|Hin]; [|now apply Hcap].
      now apply (calculate_metrics_agent_capacity team).
Qed.

Lemma map_py_first_failure (pre post : list dict) (bad : dict) (e : exn) :
  (forall team, In team pre -> exists m, calculate_metrics float_of_str team = Ok m) ->
  calculate_metrics float_of_str bad = Raise e ->
  map_py calc (pre ++ bad :: post) = (Raise e, map CalcMetrics (pre ++ [bad])).
Proof.
  induction pre as [|team pre IH]; intros Hall Hbad.
  - cbn [Datatypes.app map_py]. unfold call_calculate_metrics at 1. now rewrite Hbad.
  - destruct (Hall team (or_introl eq_refl)) as [m Hm].
    cbn [Datatypes.app map_py map]. unfold call_calculate_metrics at 1.
    rewrite Hm, IH; [reflexivity| |assumption].
    intros t Ht; apply Hall; now right.
Qed.

Lemma map_res_team_report (ms : list (TeamMetrics float)) :
  (forall m, In m ms -> feq (agent_capacity m) (float_of_Z 0) = false) ->
  exists sections,
    map_res (team_report py_str) ms = Ok sections
    /\ List.length (List.concat sections) = 60 * List.length ms.
Proof.
  induction ms as [|m ms IH]; intros Hcap.
  - now exists [].
  - destruct (team_report_ok m (Hcap m (or_introl eq_refl))) as [lines [Hlines Hlen]].
    destruct IH as (sections & Hsec & Hlens); [intros m' Hm'; apply Hcap; now right|].
    exists (lines :: sections). split.
    + cbn [map_res]. now rewrite Hlines, Hsec.
    + cbn [List.concat List.length]. rewrite length_app, Hlen, Hlens. lia.
Qed.

Lemma generate_report_ok (teams : list dict) :
  (forall team, In team teams -> exists m, calculate_metrics float_of_str team = Ok m) ->
  exists lines,
    report teams
    = (Ok (join nl
             (["# Workforce Distribution Summary:";
               "Total Teams Evaluated: " +:+ str_nat (List.length teams);
               ""]
              ++ lines
              ++ ["# FEEDBACK AND RATING PROTOCOL";
                  "Would you like detailed calculations for any specific team? Please rate this analysis on a scale of 1-5."])),
       map CalcMetrics teams)
    /\ List.length lines = 60 * List.length teams.
Proof.
  intros Hall.
  destruct (map_py_all_ok teams Hall) as (ms & Hms & Hlen & Hcap).
  destruct (map_res_team_report ms Hcap) as (sections & Hsec & Hlens).
  exists (List.concat sections). split; [|now rewrite Hlens, Hlen].
  unfold generate_report. rewrite Hms. unfold py_bind, lift.
  rewrite Hsec. cbn [bind]. now rewrite app_nil_r.
Qed.

Lemma generate_report_raise (pre post : list dict) (bad : dict) (e : exn) :
  (forall team, In team pre -> exists m, calculate_metrics float_of_str team = Ok m) ->
  calculate_metrics float_of_str bad = Raise e ->
  report (pre ++ bad :: post) = (Raise e, map CalcMetrics (pre ++ [bad])).
Proof.
  intros Hall Hbad. unfold generate_report.
  now rewrite (map_py_first_failure pre post bad e Hall Hbad).
Qed.

(** X13: when the metrics of every team can be computed,
    [generate_report] returns; it has called [calculate_metrics] once per
    team, in order, and its text is the three lines of the summary with the
    number of teams, 60 lines per team and the two lines of the feedback
    request, joined by newlines. *)
Theorem generate_report_returns (teams : list dict) :
  (forall team, In team teams -> exists m, calculate_metrics float_of_str team = Ok m) ->
  exists lines,
    report teams
    = (Ok (join nl
             (["# Workforce Distribution Summary:";
               "Total Teams Evaluated: " +:+ str_nat (List.length teams);
               ""]
              ++ lines
              ++ ["# FEEDBACK AND RATING PROTOCOL";
                  "Would you like detailed calculations for any specific team? Please rate this analysis on a scale of 1-5."])),
       map CalcMetrics teams)
    /\ List.length lines = 60 * List.length teams.
Proof. exact (generate_report_ok teams). Qed.

(** X14: [generate_report] computes the metrics of all teams before it
    writes a line: the first team whose metrics fail ends it with that
    team's exception, after one call per team up to that one; the teams
    behind it are not looked at. *)
Theorem generate_report_stops_at_first_failure (pre post : list dict) (bad : dict)
    (e : exn) :
  (forall team, In team pre -> exists m, calculate_metrics float_of_str team = Ok m) ->
  calculate_metrics float_of_str bad = Raise e ->
  report (pre ++ bad :: post) = (Raise e, map CalcMetrics (pre ++ [bad])).
Proof. exact (generate_report_raise pre post bad e). Qed.

End Report.

Lemma team_report_never_fails_witness :
  exists m,
    calculate_metrics ascii_float_of_str TeamOmega = Ok m
    /\ exists lines,
        team_report id_str m = Ok lines
        /\ List.length lines = 60
        /\ nth_error lines 1 = Some ("Team " +:+ id_str (team_id m))
        /\ nth_error lines 57 = Some (" - Status: " +:+ status m).
Proof.
  destruct (calculate_metrics ascii_float_of_str TeamOmega) as [m|e] eqn:Hm;
    [|vm_compute in Hm; discriminate Hm].
  exists m. split; [reflexivity|].
  exact (team_report_never_fails ascii_float_of_str id_str TeamOmega m Hm).
Defined.

Lemma sample_teams_metrics (team : dict) :
  In team sample_teams ->
  exists m, calculate_metrics ascii_float_of_str team = Ok m.
Proof.
  intros Hin. simpl in Hin.
  repeat (destruct Hin as [<-|Hin]; [eexists; vm_compute; reflexivity|]).
  contradiction.
Defined.

Lemma generate_report_returns_witness :
  (forall team, In team sample_teams ->
     exists m, calculate_metrics ascii_float_of_str team = Ok m)
  /\ exists lines,
      generate_report ascii_float_of_str id_str sample_teams
      = (Ok (join nl
               (["# Workforce Distribution Summary:";
                 "Total Teams Evaluated: 5";
                 ""]
                ++ lines
                ++ ["# FEEDBACK AND RATING PROTOCOL";
                    "Would you like detailed calculations for any specific team? Please rate this analysis on a scale of 1-5."])),
         map CalcMetrics sample_teams)
      /\ List.length lines = 300.
Proof.
  split; [exact sample_teams_metrics|].
  exact (generate_report_returns ascii_float_of_str id_str sample_teams
           sample_teams_metrics).
Defined.

Lemma generate_report_stops_at_first_failure_witness :
  (forall team, In team [TeamOmega] ->
     exists m, calculate_metrics ascii_float_of_str team = Ok m)
  /\ calculate_metrics ascii_float_of_str zero_capacity_team = Raise ZeroDivisionError
  /\ generate_report ascii_float_of_str id_str
       ([TeamOmega] ++ zero_capacity_team :: [TeamSigma])
     = (Raise ZeroDivisionError,
        [CalcMetrics TeamOmega; CalcMetrics zero_capacity_team]).
Proof.
  assert (Hpre : forall team, In team [TeamOmega] ->
                   exists m, calculate_metrics ascii_float_of_str team = Ok m).
  { intros team [<-|[]]. eexists. vm_compute. reflexivity. }
  assert (Hbad : calculate_metrics ascii_float_of_str zero_capacity_team
                 = Raise ZeroDivisionError) by (vm_compute; reflexivity).
  split; [exact Hpre|]. split; [exact Hbad|].
  exact (generate_report_stops_at_first_failure ascii_float_of_str id_str
           [TeamOmega] [TeamSigma] zero_capacity_team ZeroDivisionError Hpre Hbad).
Defined.

(** ** The outcomes of the pipeline *)

Lemma py_float_raise (float_of_str : string -> option float) (v : PyVal) (e : exn) :
  py_float float_of_str v = Raise e ->
  e = ValueError \/ e = TypeError \/ e = OverflowError.
Proof.
  destruct v as [ |b|z|x|s|l|d]; cbn [py_float]; intros H;
    try discriminate; try (injection H as <-; now auto).
  - destruct (is_finite (float_of_Z z)); [discriminate|].
    injection H as <-; now auto.
  - destruct (float_of_str s); [discriminate|]. injection H as <-; now auto.
Qed.

Section Outcomes.

Variable float_of_str : string -> option float.
Variable py_str : PyVal -> string.
Variable parse_data : string -> list dict + string.

Local Abbreviation calc := (call_calculate_metrics float_of_str).
Local Abbreviation report := (generate_report float_of_str py_str).
Local Abbreviation process := (process_input float_of_str py_str parse_data).

(** The two ways the comprehension over the teams can end. *)
Lemma map_py_outcome (teams : list dict) :
  (forall team, In team teams ->
     exists m, calculate_metrics float_of_str team = Ok m)
  \/ exists pre bad post e,
       teams = pre ++ bad :: post
       /\ (forall team, In team pre ->
             exists m, calculate_metrics float_of_str team = Ok m)
       /\ calculate_metrics float_of_str bad = Raise e.
Proof.
  induction teams as [|team rest IH].
  - left. intros team [].
  - destruct (calculate_metrics float_of_str team) as [m|e] eqn:Hm.
    + destruct IH as [Hall|(pre & bad & post & e & -> & Hpre & Hbad)].
      * left. intros t [<-|Ht]; [now exists m|now apply Hall].
      * right. exists (team :: pre), bad, post, e. split; [reflexivity|].
        split; [|assumption].
        intros t [<-|Ht]; [now exists m|now apply Hpre].
    + right. exists [], team, rest, e. split; [reflexivity|].
      split; [intros t []|assumption].
Qed.

(** X15: on a batch that [parse_data] delivered as a list of records,
    [process_input] raises nothing but the [TypeError] or [OverflowError]
    the validator raises, before any call to [calculate_metrics], and the
    [ZeroDivisionError] of the metrics of a validated batch; never a
    [ValueError] or a [KeyError]. *)
Theorem process_input_raises_only (input : string) (teams : list dict) (e : exn) :
  parse_data input = inl teams ->
  fst (process input) = Raise e ->
  ((e = TypeError \/ e = OverflowError)
   /\ validate_data float_of_str teams = Raise e
   /\ snd (process input) = [])
  \/ (e = ZeroDivisionError
      /\ (exists rep, validate_data float_of_str teams = Ok (rep, []))
      /\ snd (process input) <> []).
Proof.
  intros Hparse. unfold process_input. rewrite Hparse.
  destruct (validate_data float_of_str teams) as [[rep errs]|ex] eqn:Hval.
  - rewrite py_bind_lift_ok. destruct errs as [|err errs]; [|discriminate].
    destruct (map_py_outcome teams) as [Hall|(pre & bad & post & e' & -> & Hpre & Hbad)].
    + destruct (generate_report_ok float_of_str py_str teams Hall)
        as (lines & -> & _).
      discriminate.
    + rewrite (generate_report_raise float_of_str py_str
                 pre post bad e' Hpre Hbad).
      cbn [py_bind fst snd]. intros Heq; injection Heq as ->.
      right. split; [|split].
      * assert (Hin : In bad (pre ++ bad :: post))
          by (apply in_or_app; right; now left).
        destruct (calculate_metrics_validated float_of_str _ rep bad Hval Hin)
          as (tid & cs & q & t & h & a & r & _ & _ & _ & _ & _ & _ & _ & Hcalc).
        rewrite Hcalc in Hbad.
        destruct (feq (agent_capacity_of h a) (float_of_Z 0)
                  || feq (required_staff_of q t h a) (float_of_Z 0));
          congruence.
      * now exists rep.
      * rewrite map_app. intros Hnil. apply app_eq_nil in Hnil as [_ Hnil].
        discriminate.
  - cbn [lift py_bind fst snd]. intros Heq; injection Heq as ->.
    left. split; [|split; reflexivity].
    destruct (validate_data_raise float_of_str teams e Hval)
      as (i & team & field & v & _ & _ & _ & Hv & Hne).
    destruct (py_float_raise float_of_str v e Hv) as [->|H]; [congruence|exact H].
Qed.

(** X16: for a batch that is parsed and validated without error, and no
    record of which divides by zero, [process_input] returns the validation
    report, an empty line and the report of [generate_report], after one
    call to [calculate_metrics] per team, in order. *)
Theorem process_input_full_report (input : string) (teams : list dict)
    (rep : list string) :
  parse_data input = inl teams ->
  validate_data float_of_str teams = Ok (rep, []) ->
  (forall team, In team teams ->
     calculate_metrics float_of_str team <> Raise ZeroDivisionError) ->
  exists final_report,
    report teams = (Ok final_report, map CalcMetrics teams)
    /\ process input
       = (Ok (join nl rep +:+ nl +:+ nl +:+ final_report), map CalcMetrics teams).
Proof.
  intros Hparse Hval Hnz.
  assert (Hall : forall team, In team teams ->
                   exists m, calculate_metrics float_of_str team = Ok m).
  { intros team Hin. specialize (Hnz team Hin).
    destruct (calculate_metrics_validated float_of_str teams rep team Hval Hin)
      as (tid & cs & q & t & h & a & r & _ & _ & _ & _ & _ & _ & _ & Hcalc).
    rewrite Hcalc in *.
    destruct (feq (agent_capacity_of h a) (float_of_Z 0)
              || feq (required_staff_of q t h a) (float_of_Z 0));
      [congruence|now eexists]. }
  destruct (generate_report_ok float_of_str py_str teams Hall)
    as (lines & Hrep & _).
  eexists. split; [exact Hrep|].
  rewrite (process_input_validated float_of_str py_str parse_data input teams rep []
             Hparse Hval).
  rewrite Hrep. unfold py_bind, py_ret. now rewrite app_nil_r.
Qed.

End Outcomes.

Lemma process_input_raises_only_witness :
  zero_capacity_parse_data "input" = inl zero_capacity_batch
  /\ fst (process_input ascii_float_of_str id_str zero_capacity_parse_data "input")
     = Raise ZeroDivisionError
  /\ (exists rep, validate_data ascii_float_of_str zero_capacity_batch = Ok (rep, []))
  /\ snd (process_input ascii_float_of_str id_str zero_capacity_parse_data "input")
     <> [].
Proof.
  assert (Hparse : zero_capacity_parse_data "input" = inl zero_capacity_batch)
    by reflexivity.
  assert (Hraise : fst (process_input ascii_float_of_str id_str
                          zero_capacity_parse_data "input")
                   = Raise ZeroDivisionError) by (vm_compute; reflexivity).
  split; [exact Hparse|]. split; [exact Hraise|].
  destruct (process_input_raises_only ascii_float_of_str id_str
              zero_capacity_parse_data "input" zero_capacity_batch
              ZeroDivisionError Hparse Hraise)
    as [[[H|H] _]|[_ H]]; [discriminate H|discriminate H|exact H].
Defined.

Lemma process_input_full_report_witness :
  sample_parse_data "sample" = inl sample_teams
  /\ validate_data ascii_float_of_str sample_teams
     = Ok (report_lines sample_teams [], [])
  /\ (forall team, In team sample_teams ->
        calculate_metrics ascii_float_of_str team <> Raise ZeroDivisionError)
  /\ exists final_report,
      generate_report ascii_float_of_str id_str sample_teams
      = (Ok final_report, map CalcMetrics sample_teams)
      /\ process_input ascii_float_of_str id_str sample_parse_data "sample"
         = (Ok (join nl (report_lines sample_teams []) +:+ nl +:+ nl +:+ final_report),
            map CalcMetrics sample_teams).
Proof.
  assert (Hparse : sample_parse_data "sample" = inl sample_teams) by reflexivity.
  assert (Hval : validate_data ascii_float_of_str sample_teams
                 = Ok (report_lines sample_teams [], []))
    by (vm_compute; reflexivity).
  assert (Hnz : forall team, In team sample_teams ->
                  calculate_metrics ascii_float_of_str team <> Raise ZeroDivisionError).
  { intros team Hin. destruct (sample_teams_metrics team Hin) as [m ->].
    discriminate. }
  split; [exact Hparse|]. split; [exact Hval|]. split; [exact Hnz|].
  exact (process_input_full_report ascii_float_of_str id_str sample_parse_data
           "sample" sample_teams _ Hparse Hval Hnz).
Defined.

(** ** The records that reach the metrics *)

Lemma map_py_calls_in (float_of_str : string -> option float) (teams : list dict)
    (team : dict) :
  In (CalcMetrics team) (snd (map_py (call_calculate_metrics float_of_str) teams)) ->
  In team teams.
Proof.
  induction teams as [|team0 rest IH]; [intros []|].
  cbn [map_py]. unfold call_calculate_metrics at 1.
  destruct (calculate_metrics float_of_str team0) as [m|e]; unfold py_bind at 1.
  - destruct (py_bind (map_py (call_calculate_metrics float_of_str) rest) _)
      as [r calls] eqn:Hbind.
    assert (Hcalls : calls = snd (map_py (call_calculate_metrics float_of_str) rest)).
    { change calls
        with (snd (r, calls)). rewrite <- Hbind. apply py_bind_ret_calls. }
    cbn [snd Datatypes.app]. intros [Heq|Hin].
    + injection Heq as <-. now left.
    + right. apply IH. now rewrite <- Hcalls.
  - cbn [snd]. intros [Heq|[]]. injection Heq as <-. now left.
Qed.

Section Precondition.

Variable float_of_str : string -> option float.
Variable py_str : PyVal -> string.
Variable parse_data : string -> list dict + string.

(** X25: [process_input] passes valid records only to
    [calculate_metrics]: whatever the input, a record of one of its calls
    has an identifier and six numeric fields whose values [float] accepts
    and that lie in their ranges. *)
Theorem calculate_metrics_called_on_valid_records_only (input : string)
    (team : dict) :
  In (CalcMetrics team) (snd (process_input float_of_str py_str parse_data input)) ->
  record_valid float_of_str team.
Proof.
  unfold process_input.
  destruct (parse_data input) as [teams|err]; [|intros []].
  destruct (validate_data float_of_str teams) as [[rep errs]|ex] eqn:Hval;
    [|intros []].
  rewrite py_bind_lift_ok. destruct errs as [|err errs]; [|intros []].
  rewrite py_bind_ret_calls, generate_report_calls. intros Hin.
  apply map_py_calls_in in Hin.
  exact (validated_record float_of_str teams rep team Hval Hin).
Qed.

End Precondition.

Lemma calculate_metrics_called_on_valid_records_only_witness :
  In (CalcMetrics TeamSigma)
     (snd (process_input ascii_float_of_str id_str sample_parse_data "sample"))
  /\ record_valid ascii_float_of_str TeamSigma.
Proof.
  assert (Hin : In (CalcMetrics TeamSigma)
                   (snd (process_input ascii_float_of_str id_str sample_parse_data
                           "sample"))).
  { vm_compute. right. left. reflexivity. }
  split; [exact Hin|].
  exact (calculate_metrics_called_on_valid_records_only ascii_float_of_str id_str
           sample_parse_data "sample" TeamSigma Hin).
Defined.

(** ** Blank space around the input *)

Lemma string_length_ind (P : string -> Prop) :
  (forall s, (forall t, String.length t < String.length s -> P t) -> P s) ->
  forall s, P s.
Proof. intros H s. apply (induction_ltof1 _ String.length). exact H. Qed.

Lemma append_nil_r (s : string) : s +:+ "" = s.
Proof. induction s; simpl; congruence. Qed.

Lemma append_assoc (a b c : string) : (a +:+ b) +:+ c = a +:+ b +:+ c.
Proof. induction a; simpl; congruence. Qed.

Lemma list_ascii_of_string_append (a b : string) :
  list_ascii_of_string (a +:+ b) = list_ascii_of_string a ++ list_ascii_of_string b.
Proof. induction a; simpl; congruence. Qed.

Lemma string_of_list_ascii_app (a b : list ascii) :
  string_of_list_ascii (a ++ b) = string_of_list_ascii a +:+ string_of_list_ascii b.
Proof. induction a; simpl; congruence. Qed.

Lemma reverse_append (a b : string) : reverse (a +:+ b) = reverse b +:+ reverse a.
Proof.
  unfold reverse.
  now rewrite list_ascii_of_string_append, rev_app_distr, string_of_list_ascii_app.
Qed.

Lemma reverse_involutive (s : string) : reverse (reverse s) = s.
Proof.
  unfold reverse.
  now rewrite list_ascii_of_string_of_list_ascii, rev_involutive,
    string_of_list_ascii_of_string.
Qed.

Lemma all_blank_append (a b : string) :
  all_blank (a +:+ b) = all_blank a && all_blank b.
Proof. induction a as [|c a IH]; simpl; [reflexivity|]. now rewrite IH, andb_assoc. Qed.

Lemma all_blank_reverse (w : string) : all_blank (reverse w) = all_blank w.
Proof.
  induction w as [|c w IH]; [reflexivity|].
  change (String c w) with (String c "" +:+ w).
  rewrite reverse_append, !all_blank_append, IH. apply andb_comm.
Qed.

Lemma char_absent_reverse (c : ascii) (s : string) :
  char_absent c (reverse s) = char_absent c s.
Proof.
  induction s as [|a s IH]; [reflexivity|].
  change (String a s) with (String a "" +:+ s).
  rewrite reverse_append, !char_absent_append, IH. apply andb_comm.
Qed.

(** An ASCII blank is not the second or third byte of a longer blank. *)
Lemma is_space_small (c : ascii) : is_space c = true -> nat_of_ascii c <= 32.
Proof.
  unfold is_space. intros H. apply orb_prop in H as [H|H];
    apply andb_prop in H as [_ H]; apply Nat.leb_le in H; lia.
Qed.

Lemma is_space2_blank (c1 c2 : ascii) : is_space c2 = true -> is_space2 c1 c2 = false.
Proof.
  intros H. apply is_space_small in H. unfold is_space2.
  destruct (Nat.eqb_spec (nat_of_ascii c2) 133); [lia|].
  destruct (Nat.eqb_spec (nat_of_ascii c2) 160); [lia|].
  apply andb_false_r.
Qed.

Lemma is_space3_blank (c1 c2 c3 : ascii) :
  is_space c2 = true \/ is_space c3 = true -> is_space3 c1 c2 c3 = false.
Proof.
  intros H. unfold is_space3. cbv zeta.
  destruct H as [H|H]; apply is_space_small in H.
  - destruct (Nat.eqb_spec (nat_of_ascii c2) 154); [lia|].
    destruct (Nat.eqb_spec (nat_of_ascii c2) 128); [lia|].
    destruct (Nat.eqb_spec (nat_of_ascii c2) 129); [lia|].
    now rewrite !andb_false_r.
  - destruct (Nat.eqb_spec (nat_of_ascii c3) 128); [lia|].
    destruct (Nat.eqb_spec (nat_of_ascii c3) 168); [lia|].
    destruct (Nat.eqb_spec (nat_of_ascii c3) 169); [lia|].
    destruct (Nat.eqb_spec (nat_of_ascii c3) 175); [lia|].
    destruct (Nat.eqb_spec (nat_of_ascii c3) 159); [lia|].
    destruct (Nat.leb_spec 128 (nat_of_ascii c3)); [lia|].
    now rewrite !andb_false_r.
Qed.

Section DropBlanks.

Variable sp2 : ascii -> ascii -> bool.
Variable sp3 : ascii -> ascii -> ascii -> bool.

Lemma drop_blanks_prefix (w s : string) :
  all_blank w = true -> drop_blanks sp2 sp3 (w +:+ s) = drop_blanks sp2 sp3 s.
Proof.
  induction w as [|c w IH]; intros Hw; [reflexivity|].
  cbn [all_blank] in Hw. apply andb_prop in Hw as [Hc Hw].
  cbn [append drop_blanks]. rewrite Hc. now apply IH.
Qed.

Lemma drop_blanks_all_blank (w : string) :
  all_blank w = true -> drop_blanks sp2 sp3 w = "".
Proof.
  intros Hw. rewrite <- (append_nil_r w). now rewrite drop_blanks_prefix.
Qed.

(** What is dropped is a prefix. *)
Lemma drop_blanks_suffix (s : string) :
  exists pre, s = pre +:+ drop_blanks sp2 sp3 s.
Proof.
  induction s as [s IH] using string_length_ind.
  destruct s as [|c1 s1]; [now exists ""|].
  cbn [drop_blanks].
  destruct (is_space c1).
  { destruct (IH s1) as [pre Hpre]; [simpl; lia|].
    exists (String c1 pre). cbn [append]. now rewrite <- Hpre. }
  destruct s1 as [|c2 s2]; [now exists ""|].
  destruct (sp2 c1 c2).
  { destruct (IH s2) as [pre Hpre]; [simpl; lia|].
    exists (String c1 (String c2 pre)). cbn [append]. now rewrite <- Hpre. }
  destruct s2 as [|c3 s3]; [now exists ""|].
  destruct (sp3 c1 c2 c3); [|now exists ""].
  destruct (IH s3) as [pre Hpre]; [simpl; lia|].
  exists (String c1 (String c2 (String c3 pre))). cbn [append]. now rewrite <- Hpre.
Qed.

Hypothesis sp2_blank : forall c1 c2, is_space c2 = true -> sp2 c1 c2 = false.
Hypothesis sp3_blank :
  forall c1 c2 c3, is_space c2 = true \/ is_space c3 = true -> sp3 c1 c2 c3 = false.

(** ASCII blanks behind a string do not change what is dropped in front
    of it. *)
Lemma drop_blanks_blank_suffix (s w : string) :
  all_blank w = true ->
  drop_blanks sp2 sp3 (s +:+ w)
  = match drop_blanks sp2 sp3 s with
    | EmptyString => ""
    | String c s' => String c s' +:+ w
    end.
Proof.
  intros Hw. induction s as [s IH] using string_length_ind.
  destruct s as [|c1 s1].
  { cbn [append drop_blanks]. now apply drop_blanks_all_blank. }
  cbn [append drop_blanks].
  destruct (is_space c1) eqn:Hc1.
  { apply IH. simpl; lia. }
  destruct s1 as [|c2 s2].
  { cbn [append]. destruct w as [|c2 w2]; [reflexivity|].
    cbn [all_blank] in Hw. apply andb_prop in Hw as [Hc2 Hw2].
    rewrite (sp2_blank c1 c2 Hc2).
    destruct w2 as [|c3 w3]; [reflexivity|].
    now rewrite (sp3_blank c1 c2 c3 (or_introl Hc2)). }
  cbn [append].
  destruct (sp2 c1 c2) eqn:Hc2.
  { apply IH. simpl; lia. }
  destruct s2 as [|c3 s3].
  { cbn [append]. destruct w as [|c3 w3]; [reflexivity|].
    cbn [all_blank] in Hw. apply andb_prop in Hw as [Hc3 Hw3].
    now rewrite (sp3_blank c1 c2 c3 (or_intror Hc3)). }
  cbn [append].
  destruct (sp3 c1 c2 c3) eqn:Hc3; [|reflexivity].
  apply IH. simpl; lia.
Qed.

End DropBlanks.

Lemma str_rstrip_blank_suffix (s w : string) :
  all_blank w = true -> str_rstrip (s +:+ w) = str_rstrip s.
Proof.
  intros Hw. unfold str_rstrip.
  rewrite reverse_append, drop_blanks_prefix; [reflexivity|].
  now rewrite all_blank_reverse.
Qed.

Lemma str_strip_padding (w1 s w2 : string) :
  all_blank w1 = true -> all_blank w2 = true ->
  str_strip (w1 +:+ s +:+ w2) = str_strip s.
Proof.
  intros Hw1 Hw2. unfold str_strip, str_lstrip.
  rewrite drop_blanks_prefix by assumption.
  rewrite (drop_blanks_blank_suffix _ _ is_space2_blank is_space3_blank) by assumption.
  destruct (drop_blanks is_space2 is_space3 s) as [|c s']; [reflexivity|].
  now apply str_rstrip_blank_suffix.
Qed.

Lemma char_absent_drop_blanks (sp2 : ascii -> ascii -> bool)
    (sp3 : ascii -> ascii -> ascii -> bool) (c : ascii) (s : string) :
  char_absent c s = true -> char_absent c (drop_blanks sp2 sp3 s) = true.
Proof.
  intros Hs. destruct (drop_blanks_suffix sp2 sp3 s) as [pre Hpre].
  rewrite Hpre, char_absent_append in Hs. now apply andb_prop in Hs as [_ Hs].
Qed.

Lemma char_absent_str_strip (c : ascii) (s : string) :
  char_absent c s = true -> char_absent c (str_strip s) = true.
Proof.
  intros Hs. unfold str_strip, str_rstrip, str_lstrip.
  rewrite char_absent_reverse. apply char_absent_drop_blanks.
  rewrite char_absent_reverse. now apply char_absent_drop_blanks.
Qed.

(** X17: ASCII blank space before and after the input does not change
    the format [detect_format] finds. *)
Theorem detect_format_ignores_padding (w1 s w2 : string) :
  all_blank w1 = true -> all_blank w2 = true ->
  detect_format (w1 +:+ s +:+ w2) = detect_format s.
Proof.
  intros Hw1 Hw2. unfold detect_format. now rewrite str_strip_padding.
Qed.

(** X18: a text of one line is never taken for CSV, with or without
    blank space and newlines around it: the newline [detect_format] asks for
    has to stand inside the text.  Such a text is JSON when it starts and
    ends with a brace, and of no format otherwise. *)
Theorem one_line_is_never_csv (w1 line w2 : string) :
  all_blank w1 = true -> all_blank w2 = true ->
  char_absent (ascii_of_nat 10) line = true ->
  detect_format (w1 +:+ line +:+ w2)
  = if startswith (str_strip line) "{" && endswith (str_strip line) "}"
    then Some "json" else None.
Proof.
  intros Hw1 Hw2 Hline. unfold detect_format. rewrite str_strip_padding by assumption.
  cbv zeta. destruct (startswith _ "{" && endswith _ "}"); [reflexivity|].
  replace (str_in nl (str_strip line)) with false; [now rewrite andb_false_r|].
  symmetry. apply (str_in_absent (ascii_of_nat 10) "").
  now apply char_absent_str_strip.
Qed.

Lemma detect_format_ignores_padding_witness :
  all_blank (" " +:+ nl) = true /\ all_blank nl = true
  /\ detect_format ((" " +:+ nl) +:+ "{}" +:+ nl) = detect_format "{}"
  /\ detect_format "{}" = Some "json".
Proof.
  split; [reflexivity|]. split; [reflexivity|].
  split; [|reflexivity].
  apply (detect_format_ignores_padding (" " +:+ nl) "{}" nl); reflexivity.
Defined.

Lemma one_line_is_never_csv_witness :
  all_blank "" = true /\ all_blank nl = true
  /\ char_absent (ascii_of_nat 10) "team_id,current_staff" = true
  /\ detect_format ("" +:+ "team_id,current_staff" +:+ nl) = None.
Proof.
  split; [reflexivity|]. split; [reflexivity|]. split; [reflexivity|].
  rewrite (one_line_is_never_csv "" "team_id,current_staff" nl);
    reflexivity.
Defined.

(** ** What [parse_data] returns *)

Section FrontEndFacts.

Variable E : Type.
Variable json_loads : string -> Loaded E.
Variable Rows : Type.
Variable csv_rows : string -> Rows + string.

Local Abbreviation parse := (parse_data E json_loads Rows csv_rows).

(** X19: [parse_data] returns an error message only together with [None]
    for the teams, and the message starts with "ERROR: Invalid " and so is
    not empty.  Without a message the teams are the rows of the CSV or the
    JSON value found, and that value is [None], so that the pair is
    [(None, None)], exactly when the text is an object with [null] under
    [teams].  [parse_data] raises what [json.loads] raises besides
    [JSONDecodeError], and otherwise only a [TypeError], when [json.loads]
    gave a value that is not an object. *)
Theorem parse_data_outcomes (data_str : string) :
  match parse data_str with
  | Returned teams (Some error) =>
      teams = PyValue PyNone /\ String.prefix "ERROR: Invalid " error = true
  | Returned teams None =>
      ((exists rows,
          detect_format data_str = Some "csv"
          /\ csv_rows data_str = inl rows /\ teams = CsvRows rows)
       \/ (exists data value,
             detect_format data_str = Some "json"
             /\ json_loads data_str = LoadsValue data
             /\ teams_of data = Ok value /\ teams = PyValue value))
      /\ (teams = PyValue PyNone
          <-> exists d,
                detect_format data_str = Some "json"
                /\ json_loads data_str = LoadsValue (PyDict d)
                /\ get d "teams" = Some PyNone)
  | Raised e =>
      e = TypeError
      /\ detect_format data_str = Some "json"
      /\ exists data, json_loads data_str = LoadsValue data
                      /\ forall d, data <> PyDict d
  | LoadsRaised e =>
      detect_format data_str = Some "json"
      /\ json_loads data_str = LoadsRaise e
  end.
Proof.
  unfold parse_data, format_is.
  destruct (detect_format data_str) as [f|] eqn:Hf; [|now split].
  destruct (String.eqb_spec f "json") as [->|Hnj].
  - destruct (json_loads data_str) as [data| |e] eqn:Hj; [|now split|now split].
    destruct (teams_of data) as [value|e] eqn:Ht.
    + split.
      * right. now exists data, value.
      * split.
        -- intros Heq. injection Heq as ->.
           destruct data as [ |b|z|x|s|l|d]; unfold teams_of in Ht;
             cbn [contains_teams bind] in Ht; try discriminate.
           ++ destruct (str_in "teams" s); discriminate.
           ++ destruct (existsb _ l); discriminate.
           ++ exists d. split; [reflexivity|]. split; [reflexivity|].
              unfold has_key, subscript_teams, getitem in Ht.
              destruct (get d "teams") as [v|]; [|discriminate].
              now injection Ht as ->.
        -- intros (d & _ & Hd & Hget). injection Hd as ->.
           unfold teams_of in Ht. cbn [contains_teams bind] in Ht.
           unfold has_key, subscript_teams, getitem in Ht. rewrite Hget in Ht.
           now injection Ht as <-.
    + destruct data as [ |b|z|x|s|l|d]; unfold teams_of in Ht;
        cbn [contains_teams bind] in Ht;
        try (injection Ht as <-; split; [reflexivity|]; split; [reflexivity|];
             eexists; split; [reflexivity|discriminate]).
      * destruct (str_in "teams" s); cbn [subscript_teams] in Ht;
          [|discriminate].
        injection Ht as <-. split; [reflexivity|]. split; [reflexivity|].
        eexists. split; [reflexivity|discriminate].
      * destruct (existsb _ l); cbn [subscript_teams] in Ht; [|discriminate].
        injection Ht as <-. split; [reflexivity|]. split; [reflexivity|].
        eexists. split; [reflexivity|discriminate].
      * unfold has_key, subscript_teams, getitem in Ht.
        destruct (get d "teams"); discriminate.
  - destruct (String.eqb_spec f "csv") as [->|_]; [|now split].
    destruct (csv_rows data_str) as [rows|err] eqn:Hc; [|now split].
    split.
    + left. now exists rows.
    + split; [discriminate|].
      intros (d & Hd & _). discriminate.
Qed.

(** X20: for a text taken for JSON that [json.loads] reads as an object,
    the batch is the value under the key [teams] when the object has one,
    whatever that value is, and otherwise the object itself as a batch of
    one record. *)
Theorem parse_data_json_object (data_str : string) (d : dict) :
  detect_format data_str = Some "json" ->
  json_loads data_str = LoadsValue (PyDict d) ->
  parse data_str
  = Returned (PyValue match get d "teams" with
                      | Some teams => teams
                      | None => PyList [PyDict d]
                      end)
      None.
Proof.
  intros Hf Hjson. unfold parse_data, format_is. rewrite Hf, Hjson.
  cbn [String.eqb Ascii.eqb Bool.eqb]. unfold teams_of.
  cbn [contains_teams bind].
  unfold has_key, subscript_teams, getitem.
  destruct (get d "teams"); reflexivity.
Qed.

End FrontEndFacts.

Lemma parse_data_json_object_witness :
  detect_format "{}" = Some "json"
  /\ one_object_loads "{}" = LoadsValue (PyDict [])
  /\ parse_data exn one_object_loads unit no_csv_rows "{}"
     = Returned (PyValue (PyList [PyDict []])) None.
Proof.
  split; [reflexivity|]. split; [reflexivity|].
  apply (parse_data_json_object exn one_object_loads unit no_csv_rows "{}" []);
    reflexivity.
Defined.

Lemma parse_data_outcomes_witness :
  parse_data exn null_teams_loads unit no_csv_rows null_teams_text
  = Returned (PyValue PyNone) None
  /\ exists d,
       detect_format null_teams_text = Some "json"
       /\ null_teams_loads null_teams_text = LoadsValue (PyDict d)
       /\ get d "teams" = Some PyNone.
Proof.
  assert (Hparse : parse_data exn null_teams_loads unit no_csv_rows null_teams_text
                   = Returned (PyValue PyNone) None) by reflexivity.
  split; [exact Hparse|].
  pose proof (parse_data_outcomes exn null_teams_loads unit no_csv_rows
                null_teams_text) as H.
  rewrite Hparse in H. destruct H as [_ [H _]]. exact (H eq_refl).
Defined.

(** ** Templates *)

(** X21: [provide_template] returns the empty string for every format
    type other than "csv", "json" and "both"; for "both" the CSV template,
    a newline and the JSON template; the header row of the CSV template is
    the seven fields of the schema joined by commas, and the JSON template
    lists the same seven fields, in order, as its keys. *)
Theorem provide_template_follows_schema :
  (forall format_type,
      in_options format_type ["csv"; "json"; "both"] = false ->
      provide_template format_type = "")
  /\ provide_template (PyStr "both")
     = provide_template (PyStr "csv") +:+ nl +:+ provide_template (PyStr "json")
  /\ provide_template (PyStr "csv")
     = join nl ["CSV Template:";
                "```csv";
                join "," valid_fields;
                "[String],[positive integer],[positive integer],[positive number in minutes],[positive number],[0-100],[0-100]";
                "```"]
  /\ exists pre post,
       provide_template (PyStr "json") = join nl (pre ++ post)
       /\ List.length pre = 5
       /\ Forall2 (fun field line =>
                     String.prefix (" " +:+ dq +:+ field +:+ dq +:+ ": ") line = true)
            valid_fields (firstn 7 post).
Proof.
  split; [|split; [|split]].
  - intros [ |b|z|x|s|l|d] Hopt; try reflexivity.
    unfold provide_template, in_options in *.
    cbn [mem existsb] in *.
    destruct (String.eqb s "csv"); [discriminate|].
    destruct (String.eqb s "json"); [discriminate|].
    destruct (String.eqb s "both"); [discriminate|]. reflexivity.
  - vm_compute. reflexivity.
  - vm_compute. reflexivity.
  - exists (firstn 5 json_template), (skipn 5 json_template).
    split; [now rewrite firstn_skipn|]. split; [reflexivity|].
    repeat constructor.
Qed.

(** ** Feedback *)

Section FeedbackFacts.

Variable int_of_str : string -> option Z.

Local Abbreviation feedback := (handle_feedback int_of_str).

(** X22: when [int] accepts the rating, [handle_feedback] returns a text;
    it is the request to rate from 1 to 5 exactly when the integer is
    outside 1..5, and two ratings of which one is in 1..5 get the same text
    only if they are the same integer. *)
Theorem handle_feedback_by_rating (v1 v2 : PyVal) (n1 n2 : Z) :
  py_int int_of_str v1 = Ok n1 ->
  py_int int_of_str v2 = Ok n2 ->
  (exists text, feedback v1 = Ok text)
  /\ (feedback v1 = Ok "Please rate this analysis on a scale of 1-5."
      <-> (n1 < 1 \/ 5 < n1)%Z)
  /\ ((1 <= n1 <= 5)%Z -> feedback v1 = feedback v2 -> n1 = n2).
Proof.
  intros H1 H2. unfold handle_feedback. rewrite H1, H2. cbn [bind].
  split; [|split].
  - repeat match goal with
           | |- context [if ?c then _ else _] => destruct c
           end; now eexists.
  - destruct (Z.eqb_spec n1 1) as [->|?]; [split; [discriminate|lia]|].
    destruct (Z.eqb_spec n1 2) as [->|?]; [split; [discriminate|lia]|].
    destruct (Z.eqb_spec n1 3) as [->|?]; [split; [discriminate|lia]|].
    destruct (Z.eqb_spec n1 4) as [->|?]; [split; [discriminate|lia]|].
    destruct (Z.eqb_spec n1 5) as [->|?]; [split; [discriminate|lia]|].
    split; [lia|reflexivity].
  - intros Hrange.
    destruct (Z.eqb_spec n1 1) as [->|?]; [|
    destruct (Z.eqb_spec n1 2) as [->|?]; [|
    destruct (Z.eqb_spec n1 3) as [->|?]; [|
    destruct (Z.eqb_spec n1 4) as [->|?]; [|
    destruct (Z.eqb_spec n1 5) as [->|?]; [|lia]]]]];
    (destruct (Z.eqb_spec n2 1) as [->|?]; [try reflexivity; discriminate|];
     destruct (Z.eqb_spec n2 2) as [->|?]; [try reflexivity; discriminate|];
     destruct (Z.eqb_spec n2 3) as [->|?]; [try reflexivity; discriminate|];
     destruct (Z.eqb_spec n2 4) as [->|?]; [try reflexivity; discriminate|];
     destruct (Z.eqb_spec n2 5) as [->|?]; [try reflexivity; discriminate|];
     discriminate).
Qed.

End FeedbackFacts.

Lemma handle_feedback_by_rating_witness :
  py_int (fun _ => None) (PyInt 3) = Ok 3%Z
  /\ py_int (fun _ => None) (PyFloat (float_of_ratio 35 10)) = Ok 3%Z
  /\ (exists text, handle_feedback (fun _ => None) (PyInt 3) = Ok text)
  /\ (handle_feedback (fun _ => None) (PyInt 3)
      = Ok "Please rate this analysis on a scale of 1-5."
      <-> (3 < 1 \/ 5 < 3)%Z).
Proof.
  assert (H1 : py_int (fun _ => None) (PyInt 3) = Ok 3%Z) by reflexivity.
  assert (H2 : py_int (fun _ => None) (PyFloat (float_of_ratio 35 10)) = Ok 3%Z)
    by (vm_compute; reflexivity).
  split; [exact H1|]. split; [exact H2|].
  destruct (handle_feedback_by_rating (fun _ => None) _ _ _ _ H1 H2)
    as (Htext & Hprompt & _).
  split; [exact Htext|exact Hprompt].
Defined.

(** ** Ratings given as floats *)

(** The mantissa of a binary64 number above the subnormal range has 53
    bits. *)
Lemma valid_mantissa (s : bool) (m : positive) (e : Z) :
  valid_binary prec emax (S754_finite s m e) = true ->
  (-1074 < e)%Z ->
  (2 ^ 52 <= Zpos m < 2 ^ 53)%Z.
Proof.
  intros Hvalid He. cbn [valid_binary] in Hvalid. unfold bounded in Hvalid.
  apply andb_prop in Hvalid as [Hcan _].
  unfold canonical_mantissa, fexp, emin, prec, emax in Hcan.
  apply Z.eqb_eq in Hcan.
  assert (Hd : Zpos (digits2_pos m) = 53%Z) by lia.
  pose proof (digits2_pos_bounds m) as Hb. rewrite Hd in Hb. exact Hb.
Qed.

Lemma fle_finite (m1 m2 : positive) (e1 e2 : Z) :
  fle (S754_finite false m1 e1) (S754_finite false m2 e2) = true ->
  (e1 < e2 \/ (e1 = e2 /\ Zpos m1 <= Zpos m2))%Z.
Proof.
  unfold fle, SFleb, SFcompare.
  destruct (Z.compare_spec e1 e2) as [->| |]; [|now left|discriminate].
  change (Pos.compare_cont Eq m1 m2) with (Pos.compare m1 m2).
  destruct (Pos.compare_spec m1 m2) as [->| |]; try discriminate; intros _; right;
    split; lia.
Qed.

Lemma flt_finite (m1 m2 : positive) (e1 e2 : Z) :
  flt (S754_finite false m1 e1) (S754_finite false m2 e2) = true ->
  (e1 < e2 \/ (e1 = e2 /\ Zpos m1 < Zpos m2))%Z.
Proof.
  unfold flt, SFltb, SFcompare.
  destruct (Z.compare_spec e1 e2) as [->| |]; [|now left|discriminate].
  change (Pos.compare_cont Eq m1 m2) with (Pos.compare m1 m2).
  destruct (Pos.compare_spec m1 m2) as [->| |]; try discriminate; intros _; right;
    split; lia.
Qed.

(** The integer part of a binary64 number between [k] and [k + 1], for
    the ratings 1 to 5. *)
Lemma float_trunc_between (x : float) (k : Z) :
  (1 <= k <= 5)%Z ->
  valid_binary prec emax x = true ->
  fle (float_of_Z k) x = true ->
  flt x (float_of_Z (k + 1)) = true ->
  is_finite x = true /\ float_trunc x = k.
Proof.
  intros Hk Hvalid Hle Hlt.
  assert (Hcases : (k = 1 \/ k = 2 \/ k = 3 \/ k = 4 \/ k = 5)%Z) by lia.
  destruct x as [s|s| |s m e].
  - destruct Hcases as [->|[->|[->|[->| ->]]]]; discriminate.
  - destruct Hcases as [->|[->|[->|[->| ->]]]]; destruct s; discriminate.
  - destruct Hcases as [->|[->|[->|[->| ->]]]]; discriminate.
  - split; [reflexivity|].
    destruct s; [destruct Hcases as [->|[->|[->|[->| ->]]]]; discriminate|].
    destruct Hcases as [->|[->|[->|[->| ->]]]];
      match type of Hle with
      | fle ?a _ = true =>
          let a' := eval vm_compute in a in change a with a' in Hle
      end;
      match type of Hlt with
      | flt _ ?b = true =>
          let b' := eval vm_compute in b in change b with b' in Hlt
      end;
      apply fle_finite in Hle; apply flt_finite in Hlt;
      assert (He : (-1074 < e)%Z) by lia;
      pose proof (valid_mantissa false m e Hvalid He) as Hm;
      change (2 ^ 52)%Z with 4503599627370496%Z in Hm;
      change (2 ^ 53)%Z with 9007199254740992%Z in Hm;
      assert (Hee : (e = -52 \/ e = -51 \/ e = -50)%Z) by lia;
      destruct Hee as [->|[->| ->]]; try lia;
      cbn [float_trunc Z.leb Z.compare Z.opp];
      match goal with
      | |- (_ / 2 ^ ?n)%Z = _ =>
          let p := eval vm_compute in (2 ^ n)%Z in change (2 ^ n)%Z with p
      end;
      Z.div_mod_to_equations; lia.
Qed.

Section FeedbackFloats.

Variable int_of_str : string -> option Z.

(** X23: a rating given as a float counts as its integer part: a binary64
    number from [k] up to, but not including, [k + 1] gets the text of the
    rating [k], for [k] from 1 to 5. *)
Theorem handle_feedback_truncates_floats (x : float) (k : Z) :
  (1 <= k <= 5)%Z ->
  valid_binary prec emax x = true ->
  fle (float_of_Z k) x = true ->
  flt x (float_of_Z (k + 1)) = true ->
  handle_feedback int_of_str (PyFloat x) = handle_feedback int_of_str (PyInt k).
Proof.
  intros Hk Hvalid Hle Hlt.
  destruct (float_trunc_between x k Hk Hvalid Hle Hlt) as [Hfin Htrunc].
  unfold handle_feedback. cbn [py_int].
  destruct x as [s|s| |s m e]; try discriminate; now rewrite Htrunc.
Qed.

End FeedbackFloats.

Lemma handle_feedback_truncates_floats_witness :
  (1 <= 4 <= 5)%Z
  /\ valid_binary prec emax (float_of_ratio 49 10) = true
  /\ fle (float_of_Z 4) (float_of_ratio 49 10) = true
  /\ flt (float_of_ratio 49 10) (float_of_Z (4 + 1)) = true
  /\ handle_feedback (fun _ => None) (PyFloat (float_of_ratio 49 10))
     = Ok "Thank you for your positive feedback! We're glad the analysis was helpful.".
Proof.
  split; [lia|].
  split; [vm_compute; reflexivity|].
  split; [vm_compute; reflexivity|].
  split; [vm_compute; reflexivity|].
  rewrite (handle_feedback_truncates_floats (fun _ => None) (float_of_ratio 49 10) 4);
    [reflexivity|lia|vm_compute; reflexivity..].
Defined.
